(** * HEARTS: ranking metrics of [scripts/checkPrecisionRecall.py]

    A shallow embedding of [calcMetrics], of [loadDictionaryFromPickleFile]
    and of the Python and NumPy operations they are built from, followed by
    the properties of the metric computation.

    Conventions of the embedding.
    - Python integers are [Z]; [len] returns a [Z].
    - Python floats and NumPy float64 cells are modelled by exact rationals
      [Q]; the only place where the source relies on a non-finite float
      ([0/0] inside the F1 formula, cleaned by [np.nan_to_num]) is modelled
      with the explicit type [npfloat].  Equalities between metrics are
      therefore stated with [==] on [Q].
    - A Python [dict] is an insertion-ordered association list; iterating
      [.items()] walks it from left to right.
    - A Python [set] of identifiers is a [gset].
    - Exceptions are values of [exn], computations that may raise live in
      [result].

    The function is embedded twice.  The embedding on values
    ([calcMetrics]) passes lists and dictionaries as values and is the one
    the numeric properties are proved on.  The embedding on a store of
    objects ([Store.calcMetrics]) reaches lists and dictionaries through
    references and updates them in place; it is the one on which "the call
    mutates no input" is stated, and it is proved to return, read back from
    the store, what the embedding on values returns.

    Layout: the embeddings; the definitions the properties are stated
    with; the lemmas; the properties, one theorem each; further properties
    of the code, with the lemmas they need. *)

From Stdlib Require Import ZArith QArith Qabs Lia Lqa.
From stdpp Require Import base option list sorting gmap sets strings.

Set Default Proof Using "Type*".

Open Scope Z_scope.

(** ** Exceptions and the [result] monad *)

Inductive exn : Type :=
  | IndexError
  | ValueError
  | ZeroDivisionError
  | TypeError
  | LoadError.

Inductive result (A : Type) : Type :=
  | Ok (a : A)
  | Raise (e : exn).
Arguments Ok {A} a.
Arguments Raise {A} e.

#[global] Instance result_ret : MRet result := λ A a, Ok a.
#[global] Instance result_bind : MBind result := λ A B f m,
  match m with
  | Ok a => f a
  | Raise e => Raise e
  end.

(** [for x in l: s = body s x], stopping at the first exception. *)
Fixpoint for_each {A S : Type} (l : list A) (body : S → A → result S) (s : S)
  : result S :=
  match l with
  | [] => Ok s
  | x :: l' =>
      match body s x with
      | Ok s' => for_each l' body s'
      | Raise e => Raise e
      end
  end.

(** ** Python and NumPy primitives *)

(** [range(start, stop, step)]; a zero step raises [ValueError]. *)
Definition py_range (start stop step : Z) : result (list Z) :=
  if decide (step = 0) then Raise ValueError
  else if decide (0 < step) then
    let n := if decide (start < stop) then (stop - start - 1) / step + 1 else 0 in
    Ok ((λ i, start + i * step) <$> seqZ 0 n)
  else
    let n := if decide (stop < start) then (start - stop - 1) / (- step) + 1 else 0 in
    Ok ((λ i, start + i * step) <$> seqZ 0 n).

Definition py_len {A : Type} (l : list A) : Z := Z.of_nat (length l).

(** [l[i]], with Python's negative indices counting from the end. *)
Definition py_getitem {A : Type} (l : list A) (i : Z) : result A :=
  let j := if decide (i < 0) then py_len l + i else i in
  if decide (0 ≤ j < py_len l) then
    match l !! Z.to_nat j with
    | Some x => Ok x
    | None => Raise IndexError
    end
  else Raise IndexError.

(** [l[:k]]: a fresh list holding the first [k] elements (all but the last
    [-k] when [k] is negative); never raises. *)
Definition py_slice_to {A : Type} (l : list A) (k : Z) : list A :=
  if decide (k < 0) then take (Z.to_nat (py_len l + k)) l
  else take (Z.to_nat k) l.

(** [a / b] on integers: true division. *)
Definition py_truediv (a b : Z) : result Q :=
  if decide (b = 0) then Raise ZeroDivisionError
  else Ok (inject_Z a / inject_Z b)%Q.

(** [x / n] for a float [x] and an integer [n]. *)
Definition py_fdiv (x : Q) (n : Z) : result Q :=
  if decide (n = 0) then Raise ZeroDivisionError
  else Ok (x / inject_Z n)%Q.

(** [np.zeros(n)] for a size that NumPy can allocate: a negative size is a
    [ValueError].  NumPy also refuses a size beyond its index type or the
    memory at hand; such a size is outside this embedding. *)
Definition np_zeros (n : Z) : result (list Q) :=
  if decide (n < 0) then Raise ValueError
  else Ok (replicate (Z.to_nat n) 0%Q).

(** [arr[i] += v]. *)
Definition np_iadd_at (arr : list Q) (i : Z) (v : Q) : result (list Q) :=
  x ← py_getitem arr i;
  let j := if decide (i < 0) then py_len arr + i else i in
  Ok (<[Z.to_nat j := (x + v)%Q]> arr).

(** [arr /= n] for an integer [n] known to be positive at the call site. *)
Definition np_idiv (arr : list Q) (n : Z) : list Q :=
  (λ x, x / inject_Z n)%Q <$> arr.

Definition Qsum (l : list Q) : Q := foldr Qplus 0%Q l.

(** [np.mean(rows, axis=0)] for a non-empty list of rows of one length:
    the column-wise arithmetic mean. *)
Definition np_mean_axis0 (rows : list (list Q)) : list Q :=
  match rows with
  | [] => []
  | r :: _ =>
      (λ j, Qsum ((λ row, default 0%Q (row !! j)) <$> rows)
              / inject_Z (py_len rows))%Q <$> seq 0 (length r)
  end.

(** A float64 cell that may be non-finite. *)
Inductive npfloat : Type :=
  | Fin (q : Q)
  | NaN
  | PInf
  | NInf.

(** Element-wise float division of NumPy: no exception, [0/0] is [nan] and
    [x/0] is a signed infinity. *)
Definition np_div (a b : Q) : npfloat :=
  if Qeq_bool b 0 then
    if Qeq_bool a 0 then NaN
    else if Qle_bool 0 a then PInf else NInf
  else Fin (a / b)%Q.

(** Largest finite float64. *)
Definition DBL_MAX : Q := inject_Z (2 ^ 1024 - 2 ^ 971).

(** [np.nan_to_num]. *)
Definition np_nan_to_num (x : npfloat) : Q :=
  match x with
  | Fin q => q
  | NaN => 0%Q
  | PInf => DBL_MAX
  | NInf => (- DBL_MAX)%Q
  end.

(** ** Dictionaries *)

(** [dict K V] is the list of the [(key, value)] entries in insertion
    order. *)
Abbreviation dict K V := (list (K * V)) (only parsing).

Section dict.
Context {K V : Type} `{EqDecision K}.

Fixpoint dict_get (d : dict K V) (k : K) : option V :=
  match d with
  | [] => None
  | (k', v) :: d' => if decide (k' = k) then Some v else dict_get d' k
  end.

(** [d[k] = v]: overwrite in place, or append a new entry. *)
Fixpoint dict_set (d : dict K V) (k : K) (v : V) : dict K V :=
  match d with
  | [] => [(k, v)]
  | (k', v') :: d' =>
      if decide (k' = k) then (k, v) :: d' else (k', v') :: dict_set d' k v
  end.

Definition dict_keys (d : dict K V) : list K := fst <$> d.
Definition dict_values (d : dict K V) : list V := snd <$> d.
End dict.

(** ** The metric computation *)

Section metrics.
(** Query identifiers and candidate identifiers are opaque hashable
    values (table names in the benchmarks). *)
Context {QId Id : Type} `{Countable QId} `{Countable Id}.

(** The per-query dictionary built at lines 58-64. *)
Record QueryMetrics : Type := mkQueryMetrics {
  candidates : list Id;
  ground_truth : list Id;
  precision : list Q;
  recall : list Q;
  ap : list Q
}.

(** One entry of [metrics_at_k]. *)
Record Snapshot : Type := mkSnapshot {
  snap_precision : Q;
  snap_recall : Q;
  snap_map : Q;
  snap_f1 : Q
}.

Record SystemMetrics : Type := mkSystemMetrics {
  sys_precision : list Q;
  sys_recall : list Q;
  sys_map : list Q;
  sys_f1 : list Q;
  used_k : list Z;
  metrics_at_k : dict Z Snapshot
}.

Record Report : Type := mkReport {
  system_metrics : SystemMetrics;
  per_query_metrics : dict QId QueryMetrics
}.

(** The outside world of [calcMetrics]: the pickle files it can open and
    the metrics logged to MLFlow so far (oldest first). *)
Record World : Type := mkWorld {
  pickles : string → option (dict QId (list Id));
  mlflow_log : list (string * Q)
}.

(** [loadDictionaryFromPickleFile]: [open(None)] is a [TypeError], a file
    that cannot be opened or unpickled is a [LoadError]. *)
Definition loadDictionaryFromPickleFile (dictionaryPath : option string)
    (w : World) : result (dict QId (list Id)) :=
  match dictionaryPath with
  | None => Raise TypeError
  | Some p =>
      match pickles w p with
      | Some dictionary => Ok dictionary
      | None => Raise LoadError
      end
  end.

Definition mlflow_log_metric (name : string) (value : Q) (w : World) : World :=
  {| pickles := pickles w; mlflow_log := mlflow_log w ++ [(name, value)] |}.

(** [query_metrics['precision'].append(x)] and its two siblings. *)
Definition append_precision (qm : QueryMetrics) (x : Q) : QueryMetrics :=
  {| candidates := candidates qm; ground_truth := ground_truth qm;
     precision := precision qm ++ [x]; recall := recall qm; ap := ap qm |}.
Definition append_recall (qm : QueryMetrics) (x : Q) : QueryMetrics :=
  {| candidates := candidates qm; ground_truth := ground_truth qm;
     precision := precision qm; recall := recall qm ++ [x]; ap := ap qm |}.
Definition append_ap (qm : QueryMetrics) (x : Q) : QueryMetrics :=
  {| candidates := candidates qm; ground_truth := ground_truth qm;
     precision := precision qm; recall := recall qm; ap := ap qm ++ [x] |}.

(** Body of the loop at lines 90-94; the state is
    [(ap_k, num_relevant_found)]. *)
Definition ap_body (current_results : list Id) (gt_set : gset Id)
    (st : Q * Z) (i : Z) : result (Q * Z) :=
  let '(ap_k, num_relevant_found) := st in
  item ← py_getitem current_results (i - 1);
  if decide (item ∈ gt_set) then
    let num_relevant_found := num_relevant_found + 1 in
    precision_at_i ← py_truediv num_relevant_found i;
    Ok ((ap_k + precision_at_i)%Q, num_relevant_found)
  else Ok (ap_k, num_relevant_found).

(** Body of the loop at lines 70-98; the state is
    [(query_metrics, system_precision, system_recall)]. *)
Definition k_body (results : list Id) (gt_set : gset Id) (total_relevant : Z)
    (st : QueryMetrics * list Q * list Q) (k : Z)
    : result (QueryMetrics * list Q * list Q) :=
  let '(query_metrics, system_precision, system_recall) := st in
  let current_results := py_slice_to results k in
  let result_set : gset Id := list_to_set current_results in
  let intersect := result_set ∩ gt_set in
  precision_k ← (if decide (0 < k) then py_truediv (Z.of_nat (size intersect)) k
                 else Ok 0%Q);
  recall_k ← (if decide (0 < total_relevant)
              then py_truediv (Z.of_nat (size intersect)) total_relevant
              else Ok 0%Q);
  let query_metrics := append_precision query_metrics precision_k in
  let query_metrics := append_recall query_metrics recall_k in
  system_precision ← np_iadd_at system_precision (k - 1) precision_k;
  system_recall ← np_iadd_at system_recall (k - 1) recall_k;
  ranks ← py_range 1 (k + 1) 1;
  '(ap_k, _) ← for_each ranks (ap_body current_results gt_set) (0%Q, 0);
  let norm := if decide (0 < total_relevant) then Z.min k total_relevant else 1 in
  ap_k ← py_fdiv ap_k norm;
  let query_metrics := append_ap query_metrics ap_k in
  Ok (query_metrics, system_precision, system_recall).

(** Body of the loop at lines 54-100; the state is
    [(per_query_metrics, system_precision, system_recall)]. *)
Definition query_body (max_k : Z) (groundtruth : dict QId (list Id))
    (st : dict QId QueryMetrics * list Q * list Q)
    (item : QId * list Id)
    : result (dict QId QueryMetrics * list Q * list Q) :=
  let '(per_query, system_precision, system_recall) := st in
  let '(query_id, results) := item in
  match dict_get groundtruth query_id with
  | None => Ok st
  | Some gt =>
      let query_metrics :=
        {| candidates := results; ground_truth := gt;
           precision := []; recall := []; ap := [] |} in
      let gt_set : gset Id := list_to_set gt in
      let total_relevant := Z.of_nat (size gt_set) in
      ks ← py_range 1 (max_k + 1) 1;
      '(query_metrics, system_precision, system_recall) ←
        for_each ks (k_body results gt_set total_relevant)
          (query_metrics, system_precision, system_recall);
      Ok (dict_set per_query query_id query_metrics,
          system_precision, system_recall)
  end.

(** Lines 110-111: the F1 array. *)
Definition f1_array (system_precision system_recall : list Q) : list Q :=
  zip_with (λ p r, np_nan_to_num (np_div (2 * (p * r)) (p + r))%Q)
    system_precision system_recall.

(** Body of the loop at lines 121-127. *)
Definition snapshot_body (system_precision system_recall system_map system_f1 : list Q)
    (m : dict Z Snapshot) (k : Z) : result (dict Z Snapshot) :=
  p ← py_getitem system_precision (k - 1);
  r ← py_getitem system_recall (k - 1);
  a ← py_getitem system_map (k - 1);
  f ← py_getitem system_f1 (k - 1);
  Ok (dict_set m k
        {| snap_precision := p; snap_recall := r; snap_map := a; snap_f1 := f |}).

(** Lines 103-111: the system-wide averages, from the per-query records
    and the four arrays as the loop over the queries left them. *)
Definition aggregate (per_query : dict QId QueryMetrics)
    (system_precision system_recall system_map system_f1 : list Q)
    : list Q * list Q * list Q * list Q :=
  let num_queries := py_len per_query in
  if decide (0 < num_queries) then
    let system_precision := np_idiv system_precision num_queries in
    let system_recall := np_idiv system_recall num_queries in
    let system_map := np_mean_axis0 (ap <$> dict_values per_query) in
    let system_f1 := f1_array system_precision system_recall in
    (system_precision, system_recall, system_map, system_f1)
  else (system_precision, system_recall, system_map, system_f1).

(** Lines 114-117: the reporting points [used_k]. *)
Definition reporting_points (max_k k_range : Z) : result (list Z) :=
  let used_k := [k_range] in
  if decide (k_range < max_k) then
    more ← py_range (k_range * 2) (max_k + 1) k_range;
    Ok (used_k ++ more)
  else Ok used_k.

(** Lines 44-127 and 135-145: everything between loading the ground truth
    and logging. *)
Definition calcMetrics_core (max_k k_range : Z)
    (resultFile : dict QId (list Id)) (groundtruth : dict QId (list Id))
    : result Report :=
  system_precision ← np_zeros max_k;
  system_recall ← np_zeros max_k;
  system_map ← np_zeros max_k;
  system_f1 ← np_zeros max_k;
  '(per_query, system_precision, system_recall) ←
    for_each resultFile (query_body max_k groundtruth)
      ([], system_precision, system_recall);
  let '(system_precision, system_recall, system_map, system_f1) :=
    aggregate per_query system_precision system_recall system_map system_f1 in
  used ← reporting_points max_k k_range;
  at_k ← for_each used
    (snapshot_body system_precision system_recall system_map system_f1) [];
  Ok {| system_metrics :=
          {| sys_precision := system_precision;
             sys_recall := system_recall;
             sys_map := system_map;
             sys_f1 := system_f1;
             used_k := used;
             metrics_at_k := at_k |};
        per_query_metrics := per_query |}.

(** [mlflow.log_metric(name, arr[-1])]: the cell is read first. *)
Definition log_last (name : string) (arr : list Q) (w : World) : result () * World :=
  match py_getitem arr (-1) with
  | Ok value => (Ok (), mlflow_log_metric name value w)
  | Raise e => (Raise e, w)
  end.

(** Lines 129-133: four metrics are logged, in this order; an exception
    keeps what was logged before it. *)
Definition log_metrics (sm : SystemMetrics) (w : World) : result () * World :=
  match log_last "mean_avg_precision" (sys_map sm) w with
  | (Raise e, w) => (Raise e, w)
  | (Ok _, w) =>
      match log_last "prec_k" (sys_precision sm) w with
      | (Raise e, w) => (Raise e, w)
      | (Ok _, w) =>
          match log_last "recall_k" (sys_recall sm) w with
          | (Raise e, w) => (Raise e, w)
          | (Ok _, w) => log_last "f1_k" (sys_f1 sm) w
          end
      end
  end.

(** [calcMetrics]: the outcome and the world it leaves behind. *)
Definition calcMetrics (max_k k_range : Z) (resultFile : dict QId (list Id))
    (gtPath resPath : option string) (record verbose : bool) (w : World)
    : result Report * World :=
  match loadDictionaryFromPickleFile gtPath w with
  | Raise e => (Raise e, w)
  | Ok groundtruth =>
      match calcMetrics_core max_k k_range resultFile groundtruth with
      | Raise e => (Raise e, w)
      | Ok report =>
          if record then
            match log_metrics (system_metrics report) w with
            | (Ok _, w') => (Ok report, w')
            | (Raise e, w') => (Raise e, w')
            end
          else (Ok report, w)
      end
  end.
End metrics.

(** ** Objects and references

    A second embedding of [calcMetrics], over a store of Python objects:
    lists and dictionaries are reached through references, [append] and
    [+=] update the store in place, and the per-query dictionary holds the
    very list objects of the results mapping and of the ground truth. *)

Module Store.

(** References. *)
Abbreviation loc := positive (only parsing).

Section store.
Context {QId Id : Type} `{Countable QId} `{Countable Id}.

(** The objects [calcMetrics] reaches through a reference. *)
Inductive obj : Type :=
  | PyList (items : list Id)          (* a list of identifiers *)
  | PyFloats (items : list Q)         (* a list of floats *)
  | NpArray (cells : list Q)          (* a float64 array *)
  | PyDict (entries : dict QId loc).  (* query identifier -> list object *)

(** The store: the object behind every reference in use. *)
Abbreviation heap := (gmap loc obj) (only parsing).

(** A computation on the store that may raise; an exception keeps the
    store as it was when it was raised. *)
Definition M (A : Type) : Type := heap → result A * heap.

Definition ret {A : Type} (a : A) : M A := λ h, (Ok a, h).

Definition bind {A B : Type} (m : M A) (f : A → M B) : M B := λ h,
  match m h with
  | (Ok a, h') => f a h'
  | (Raise e, h') => (Raise e, h')
  end.

Definition lift {A : Type} (r : result A) : M A := λ h, (r, h).

(** A new object, at a reference not in use. *)
Definition alloc (o : obj) : M loc := λ h,
  let l := fresh (dom (D:=gset loc) h) in (Ok l, <[l := o]> h).

Definition read (l : loc) : M obj := λ h,
  match h !! l with
  | Some o => (Ok o, h)
  | None => (Raise TypeError, h)
  end.

(** In-place update of the object at [l]. *)
Definition write (l : loc) (o : obj) : M unit := λ h, (Ok (), <[l := o]> h).

(** [for x in l: s = body s x] on the store. *)
Fixpoint for_each_in_store {A S : Type} (l : list A) (body : S → A → M S) (s : S)
  : M S :=
  match l with
  | [] => ret s
  | x :: l' => bind (body s x) (for_each_in_store l' body)
  end.

Definition read_ids (l : loc) : M (list Id) :=
  bind (read l) (λ o,
    match o with PyList items => ret items | _ => lift (Raise TypeError) end).

Definition read_floats (l : loc) : M (list Q) :=
  bind (read l) (λ o,
    match o with PyFloats items => ret items | _ => lift (Raise TypeError) end).

Definition read_array (l : loc) : M (list Q) :=
  bind (read l) (λ o,
    match o with NpArray cells => ret cells | _ => lift (Raise TypeError) end).

Definition read_dict (l : loc) : M (dict QId loc) :=
  bind (read l) (λ o,
    match o with PyDict entries => ret entries | _ => lift (Raise TypeError) end).

(** [l.append(x)] on a list of floats. *)
Definition append (l : loc) (x : Q) : M unit :=
  bind (read_floats l) (λ items, write l (PyFloats (items ++ [x]))).

(** [arr[i] += v]. *)
Definition np_iadd_at_in_place (arr : loc) (i : Z) (v : Q) : M unit :=
  bind (read_array arr) (λ cells,
  bind (lift (np_iadd_at cells i v)) (λ cells',
  write arr (NpArray cells'))).

(** [arr /= n]. *)
Definition np_idiv_in_place (arr : loc) (n : Z) : M unit :=
  bind (read_array arr) (λ cells, write arr (NpArray (np_idiv cells n))).

(** The dictionary built at lines 58-64.  No key of it is ever assigned
    again, so it is the record of the five objects it refers to. *)
Record QueryMetrics : Type := mkQueryMetrics {
  candidates : loc;
  ground_truth : loc;
  precision : loc;
  recall : loc;
  ap : loc
}.

Record Report : Type := mkReport {
  system_metrics : SystemMetrics;
  per_query_metrics : dict QId QueryMetrics
}.

#[global] Instance store_ret : MRet M := @ret.

#[global] Instance store_bind : MBind M := λ A B f m, bind m f.

(** [pickle.load]: the dictionary of the file, built from fresh objects. *)
Definition load_entry (entries : dict QId loc) (item : QId * list Id)
    : M (dict QId loc) :=
  l ← alloc (PyList item.2);
  ret (entries ++ [(item.1, l)]).

Definition loadDictionaryFromPickleFile (dictionaryPath : option string)
    (w : World) : M loc :=
  dictionary ← lift (loadDictionaryFromPickleFile dictionaryPath w);
  entries ← for_each_in_store dictionary load_entry [];
  alloc (PyDict entries).

(** Lines 70-98, for one [k]. *)
Definition k_body (results : loc) (gt_set : gset Id) (total_relevant : Z)
    (query_metrics : QueryMetrics) (system_precision system_recall : loc)
    (_ : unit) (k : Z) : M unit :=
  items ← read_ids results;
  let current_results := py_slice_to items k in
  let result_set : gset Id := list_to_set current_results in
  let intersect := result_set ∩ gt_set in
  precision_k ← lift (if decide (0 < k)
                      then py_truediv (Z.of_nat (size intersect)) k
                      else Ok 0%Q);
  recall_k ← lift (if decide (0 < total_relevant)
                   then py_truediv (Z.of_nat (size intersect)) total_relevant
                   else Ok 0%Q);
  _ ← append (precision query_metrics) precision_k;
  _ ← append (recall query_metrics) recall_k;
  _ ← np_iadd_at_in_place system_precision (k - 1) precision_k;
  _ ← np_iadd_at_in_place system_recall (k - 1) recall_k;
  ranks ← lift (py_range 1 (k + 1) 1);
  walk ← lift (for_each ranks (ap_body current_results gt_set) (0%Q, 0));
  let norm := if decide (0 < total_relevant) then Z.min k total_relevant else 1 in
  ap_k ← lift (py_fdiv walk.1 norm);
  append (ap query_metrics) ap_k.

(** Lines 54-100, for one entry of the results mapping. *)
Definition query_body (max_k : Z) (groundtruth : loc)
    (system_precision system_recall : loc)
    (per_query : dict QId QueryMetrics) (item : QId * loc)
    : M (dict QId QueryMetrics) :=
  let '(query_id, results) := item in
  gt_entries ← read_dict groundtruth;
  match dict_get gt_entries query_id with
  | None => ret per_query
  | Some gt =>
      precision_list ← alloc (PyFloats []);
      recall_list ← alloc (PyFloats []);
      ap_list ← alloc (PyFloats []);
      let query_metrics :=
        {| candidates := results; ground_truth := gt;
           precision := precision_list; recall := recall_list; ap := ap_list |} in
      gt_items ← read_ids gt;
      let gt_set : gset Id := list_to_set gt_items in
      let total_relevant := Z.of_nat (size gt_set) in
      ks ← lift (py_range 1 (max_k + 1) 1);
      _ ← for_each_in_store ks
            (k_body results gt_set total_relevant query_metrics
               system_precision system_recall) ();
      ret (dict_set per_query query_id query_metrics)
  end.

(** [[metrics['ap'] for metrics in per_query_metrics.values()]]. *)
Definition ap_rows (per_query : dict QId QueryMetrics) : M (list (list Q)) :=
  for_each_in_store (dict_values per_query)
    (λ rows query_metrics,
       row ← read_floats (ap query_metrics);
       ret (rows ++ [row])) [].

(** Lines 103-111; returns the objects that [system_map] and [system_f1]
    name afterwards. *)
Definition aggregate (per_query : dict QId QueryMetrics)
    (system_precision system_recall system_map system_f1 : loc) : M (loc * loc) :=
  let num_queries := py_len per_query in
  if decide (0 < num_queries) then
    _ ← np_idiv_in_place system_precision num_queries;
    _ ← np_idiv_in_place system_recall num_queries;
    rows ← ap_rows per_query;
    system_map ← alloc (NpArray (np_mean_axis0 rows));
    p ← read_array system_precision;
    r ← read_array system_recall;
    system_f1 ← alloc (NpArray (f1_array p r));
    ret (system_map, system_f1)
  else ret (system_map, system_f1).

(** Lines 44-127 and 135-145. *)
Definition calcMetrics_core (max_k k_range : Z) (resultFile groundtruth : loc)
    : M Report :=
  zeros ← lift (np_zeros max_k);
  system_precision ← alloc (NpArray zeros);
  system_recall ← alloc (NpArray zeros);
  system_map ← alloc (NpArray zeros);
  system_f1 ← alloc (NpArray zeros);
  items ← read_dict resultFile;
  per_query ← for_each_in_store items
    (query_body max_k groundtruth system_precision system_recall) [];
  '(system_map, system_f1) ←
    aggregate per_query system_precision system_recall system_map system_f1;
  used ← lift (reporting_points max_k k_range);
  p ← read_array system_precision;
  r ← read_array system_recall;
  m ← read_array system_map;
  f ← read_array system_f1;
  at_k ← lift (for_each used (snapshot_body p r m f) []);
  ret {| system_metrics :=
           {| sys_precision := p; sys_recall := r; sys_map := m; sys_f1 := f;
              used_k := used; metrics_at_k := at_k |};
         per_query_metrics := per_query |}.

(** [calcMetrics] on a store: [resultFile] refers to the dictionary of the
    caller. *)
Definition calcMetrics (max_k k_range : Z) (resultFile : loc)
    (gtPath resPath : option string) (record verbose : bool)
    (w : World) (h : heap) : result Report * World * heap :=
  match (groundtruth ← loadDictionaryFromPickleFile gtPath w;
         calcMetrics_core max_k k_range resultFile groundtruth) h with
  | (Raise e, h') => (Raise e, w, h')
  | (Ok report, h') =>
      if record then
        match log_metrics (system_metrics report) w with
        | (Ok _, w') => (Ok report, w', h')
        | (Raise e, w') => (Raise e, w', h')
        end
      else (Ok report, w, h')
  end.

(** ** Objects that a computation leaves alone *)

(** [keeps hD m Q]: run from any store that contains the objects of [hD],
    [m] ends in a store that still contains them, unchanged, and a value it
    returns satisfies [Q]. *)
Definition keeps {A : Type} (hD : heap) (m : M A) (Q : A → Prop) : Prop :=
  ∀ h, hD ⊆ h → hD ⊆ (m h).2 ∧ ∀ a, (m h).1 = Ok a → Q a.

(** Every record refers to the list object that the results mapping holds
    for its query, and to the one the ground truth holds for it. *)
Definition aliases (rf_entries : dict QId loc) (hD : gmap loc obj) (groundtruth : loc)
    (per_query : dict QId QueryMetrics) : Prop :=
  ∀ q qm, dict_get per_query q = Some qm →
    (q, candidates qm) ∈ rf_entries
    ∧ ∀ gt_entries, hD !! groundtruth = Some (PyDict gt_entries) →
        dict_get gt_entries q = Some (ground_truth qm).

(** In [h], the entries refer, key by key, to lists with the contents of
    [dictionary]. *)
Definition holds (h : gmap loc obj) (entries : dict QId loc)
    (dictionary : dict QId (list Id)) : Prop :=
  Forall2 (λ e d, e.1 = d.1 ∧ h !! e.2 = Some (PyList d.2)) entries dictionary.

End store.

End Store.

(** * Specification

    Closed forms of what the loops compute, the walk of the specification
    for the average precision, and the predicates the properties are
    stated with. *)

(** The ranks [1, 2, ..., n]. *)
Definition ranks (n : nat) : list Z := Z.of_nat <$> seq 1 n.

Section per_query_values.
Context {Id : Type} `{Countable Id}.
Implicit Types (results gt items : list Id) (gt_set : gset Id).

(** Number of distinct relevant identifiers among the first [k]
    candidates: [len(intersect)]. *)
Definition hits results gt_set (k : Z) : Z :=
  Z.of_nat (size ((list_to_set (py_slice_to results k) : gset Id) ∩ gt_set)).

Definition precision_at results gt_set (k : Z) : Q :=
  inject_Z (hits results gt_set k) / inject_Z k.

Definition recall_at results gt_set (k : Z) : Q :=
  if decide (0 < Z.of_nat (size gt_set))
  then inject_Z (hits results gt_set k) / inject_Z (Z.of_nat (size gt_set))
  else 0.

(** The walk of the specification: go through the items in rank order;
    each time the item is relevant, increment the relevant-count and add
    relevant-count / rank to the running sum.  Returns the sum and the
    count. *)
Fixpoint ap_walk gt_set items (rank count : Z) (sum : Q) : Q * Z :=
  match items with
  | [] => (sum, count)
  | item :: rest =>
      if decide (item ∈ gt_set)
      then ap_walk gt_set rest (rank + 1) (count + 1)
             (sum + inject_Z (count + 1) / inject_Z rank)
      else ap_walk gt_set rest (rank + 1) count sum
  end.

(** The normalizer: [min(k, total_relevant)] when there is a relevant
    item, else [1]. *)
Definition ap_norm gt_set (k : Z) : Z :=
  if decide (0 < Z.of_nat (size gt_set))
  then Z.min k (Z.of_nat (size gt_set)) else 1.

(** Average precision at [k] as the specification words it. *)
Definition ap_spec results gt_set (k : Z) : Q :=
  (ap_walk gt_set (py_slice_to results k) 1 0 0).1 / inject_Z (ap_norm gt_set k).

(** The three appends of one iteration of the loop over [k]. *)
Definition push_metrics (qm : QueryMetrics (Id:=Id)) (p r a : Q) : QueryMetrics :=
  {| candidates := candidates qm;
     ground_truth := ground_truth qm;
     precision := precision qm ++ [p];
     recall := recall qm ++ [r];
     ap := ap qm ++ [a] |}.

(** [arr[j] += f (j + 1)] for every [j < n]. *)
Definition add_prefix (n : nat) (f : Z → Q) (arr : list Q) : list Q :=
  imap (λ j x, if decide (j < n)%nat then (x + f (Z.of_nat (S j)))%Q else x) arr.

(** The per-query record after the cutoffs [1..n]. *)
Definition push_all (qm : QueryMetrics (Id:=Id)) results gt_set (n : nat)
    : QueryMetrics :=
  {| candidates := candidates qm;
     ground_truth := ground_truth qm;
     precision := precision qm ++ (precision_at results gt_set <$> ranks n);
     recall := recall qm ++ (recall_at results gt_set <$> ranks n);
     ap := ap qm ++ (ap_spec results gt_set <$> ranks n) |}.

(** The relevant items of a list, in order and with repetitions. *)
Definition relevant gt_set items : list Id := filter (.∈ gt_set) items.

End per_query_values.

Section snapshot_values.
Implicit Types (P R M F : list Q) (d : dict Z Snapshot) (k : Z).

(** [snap] holds the four system-wide values stored at index [k - 1]. *)
Definition snapshot_at P R M F k (snap : Snapshot) : Prop :=
  py_getitem P (k - 1) = Ok (snap_precision snap)
  ∧ py_getitem R (k - 1) = Ok (snap_recall snap)
  ∧ py_getitem M (k - 1) = Ok (snap_map snap)
  ∧ py_getitem F (k - 1) = Ok (snap_f1 snap).

End snapshot_values.

Section scored_queries.
Context {QId Id : Type} `{Countable QId} `{Countable Id}.
Implicit Types (resultFile groundtruth : dict QId (list Id)).
Implicit Types (pq : dict QId (QueryMetrics (Id:=Id))) (sp sr : list Q).
Implicit Types (results gt : list Id).

(** A scored query: its identifier, its candidates and its ground truth. *)
Definition ScoredQuery : Type := QId * list Id * list Id.

Implicit Types (s : ScoredQuery).

(** The entries of the results mapping that have a ground truth, in
    iteration order. *)
Definition scored resultFile groundtruth : list ScoredQuery :=
  omap (λ item, gt ← dict_get groundtruth item.1; Some (item.1, item.2, gt))
    resultFile.

(** The finished per-query record of a scored query. *)
Definition query_record (max_k : Z) (results gt : list Id) : QueryMetrics :=
  push_all {| candidates := results; ground_truth := gt;
              precision := []; recall := []; ap := [] |}
    results (list_to_set gt) (Z.to_nat max_k).

Definition set_record (max_k : Z) pq (s : ScoredQuery) : dict QId QueryMetrics :=
  dict_set pq s.1.1 (query_record max_k s.1.2 s.2).

Definition add_precision (max_k : Z) sp (s : ScoredQuery) : list Q :=
  add_prefix (Z.to_nat max_k) (precision_at s.1.2 (list_to_set s.2)) sp.

Definition add_recall (max_k : Z) sr (s : ScoredQuery) : list Q :=
  add_prefix (Z.to_nat max_k) (recall_at s.1.2 (list_to_set s.2)) sr.

(** A scored query has at least [max_k] candidates. *)
Definition long_enough (max_k : Z) (s : ScoredQuery) : Prop :=
  (Z.to_nat max_k ≤ length s.1.2)%nat.

#[global] Instance long_enough_dec max_k s : Decision (long_enough max_k s).
Proof. unfold long_enough. apply _. Defined.

Definition zeros (max_k : Z) : list Q := replicate (Z.to_nat max_k) 0%Q.

(** The running sums when the loop over the queries ends. *)
Definition precision_sums max_k resultFile groundtruth : list Q :=
  foldl (add_precision max_k) (zeros max_k) (scored resultFile groundtruth).

Definition recall_sums max_k resultFile groundtruth : list Q :=
  foldl (add_recall max_k) (zeros max_k) (scored resultFile groundtruth).

(** The per-query dictionary when the loop over the queries ends. *)
Definition records max_k resultFile groundtruth : dict QId QueryMetrics :=
  foldl (set_record max_k) [] (scored resultFile groundtruth).

(** A Python dictionary holds every key once. *)
Definition dict_wf {K V : Type} (d : dict K V) : Prop := NoDup (dict_keys d).

(** The entry of [per_query_metrics] made for a scored query. *)
Definition entry (max_k : Z) s : QId * QueryMetrics :=
  (s.1.1, query_record max_k s.1.2 s.2).

Definition precision_of s (k : Z) : Q := precision_at s.1.2 (list_to_set s.2) k.

Definition recall_of s (k : Z) : Q := recall_at s.1.2 (list_to_set s.2) k.

(** Every record in the per-query dictionary is a finished record. *)
Definition finished (max_k : Z) (e : QId * QueryMetrics (Id:=Id)) : Prop :=
  ∃ results gt, e.2 = query_record max_k results gt.

(** The results mapping without the entry of [q]. *)
Definition without (q : QId) resultFile : dict QId (list Id) :=
  filter (λ item, item.1 ≠ q) resultFile.

(** The mean over the per-query records of the value that [curve] holds at
    index [j]. *)
Definition mean_at (curve : QueryMetrics (Id:=Id) → list Q)
    (pq : dict QId QueryMetrics) (j : nat) : Q :=
  Qsum ((λ qm, default 0%Q (curve qm !! j)) <$> dict_values pq)
  / inject_Z (py_len pq).

End scored_queries.

Section store_views.
Context {QId Id : Type} `{Countable QId} `{Countable Id}.
Implicit Types (h : gmap Store.loc (Store.obj (QId:=QId) (Id:=Id))).

(** The per-query record with the lists its references lead to. *)
Definition deref_query h (qm : Store.QueryMetrics) : option (QueryMetrics (Id:=Id)) :=
  match h !! Store.candidates qm, h !! Store.ground_truth qm,
        h !! Store.precision qm, h !! Store.recall qm, h !! Store.ap qm with
  | Some (Store.PyList c), Some (Store.PyList g),
    Some (Store.PyFloats p), Some (Store.PyFloats r), Some (Store.PyFloats a) =>
      Some {| candidates := c; ground_truth := g;
              precision := p; recall := r; ap := a |}
  | _, _, _, _, _ => None
  end.

Definition deref_report h (report : Store.Report) : option (Report (QId:=QId)) :=
  per_query ← mapM (λ e, qm ← deref_query h e.2; Some (e.1, qm))
                   (Store.per_query_metrics report);
  Some {| system_metrics := Store.system_metrics report;
          per_query_metrics := per_query |}.

(** The objects of one query while its cutoffs are scored: the candidate
    list, the three curves and the two running sums hold the values of the
    state of the value embedding. *)
Definition scoring h (results : Store.loc) (qm : Store.QueryMetrics)
    (sp sr : Store.loc) (results_v : list Id)
    (st : QueryMetrics (Id:=Id) * list Q * list Q) : Prop :=
  h !! results = Some (Store.PyList results_v)
  ∧ h !! Store.precision qm = Some (Store.PyFloats (precision st.1.1))
  ∧ h !! Store.recall qm = Some (Store.PyFloats (recall st.1.1))
  ∧ h !! Store.ap qm = Some (Store.PyFloats (ap st.1.1))
  ∧ h !! sp = Some (Store.NpArray st.1.2)
  ∧ h !! sr = Some (Store.NpArray st.2).

(** The five objects written while a query is scored are distinct. *)
Definition separate (qm : Store.QueryMetrics) (sp sr : Store.loc) : Prop :=
  NoDup [Store.precision qm; Store.recall qm; Store.ap qm; sp; sr].

(** The per-query dictionary on the store stands for the one on values. *)
Definition represents h (pqs : dict QId Store.QueryMetrics)
    (pq : dict QId (QueryMetrics (Id:=Id))) : Prop :=
  Forall2 (λ es ev, es.1 = ev.1 ∧ deref_query h es.2 = Some ev.2) pqs pq.

(** [h'] has every object of [h] except, possibly, the two running sums. *)
Definition others_kept h h' (sp sr : Store.loc) : Prop :=
  ∀ l o, h !! l = Some o → l ≠ sp → l ≠ sr → h' !! l = Some o.

End store_views.

(** ** Concrete inputs *)

(** A world whose only pickle file, [gt.pickle], holds [groundtruth], and
    whose tracker has logged nothing yet. *)
Definition world_with (groundtruth : dict string (list string))
    : World (QId:=string) (Id:=string) :=
  {| pickles := λ p, if decide (p = "gt.pickle") then Some groundtruth else None;
     mlflow_log := [] |}.

(** The worked example: one query, candidates [a, x, b], ground truth
    [{a, b, c}]. *)
Definition example_results : dict string (list string) := [("q", ["a"; "x"; "b"])].

Definition example_groundtruth : dict string (list string) := [("q", ["a"; "b"; "c"])].

(** Two queries, both with a ground truth. *)
Definition two_results : dict string (list string) :=
  [("q", ["a"; "x"; "b"]); ("r", ["x"; "b"; "a"])].

Definition two_groundtruth : dict string (list string) :=
  [("q", ["a"; "b"; "c"]); ("r", ["b"])].

(** A second world: the same ground truth under another file name, and a
    tracker that has already logged a metric. *)
Definition other_world : World (QId:=string) (Id:=string) :=
  {| pickles := λ p, if decide (p = "truth.pkl") then Some example_groundtruth else None;
     mlflow_log := [("prec_k", 1%Q)] |}.

(** The store of a caller that holds the results mapping of the worked
    example: the candidate list at reference 1, the dictionary at 2. *)
Definition example_store : gmap Store.loc (Store.obj (QId:=string) (Id:=string)) :=
  {[ 1%positive := Store.PyList ["a"; "x"; "b"];
     2%positive := Store.PyDict [("q", 1%positive)] ]}.

(** The call of the worked example on that store. *)
Definition example_call :=
  Store.calcMetrics 3 1 2%positive (Some "gt.pickle") None true false
    (world_with example_groundtruth) example_store.

(** A second call, started from the world and the store that the call of
    the worked example left behind. *)
Definition example_second_call :=
  Store.calcMetrics 3 1 2%positive (Some "gt.pickle") (Some "results.pkl") false true
    example_call.1.2 example_call.2.

(** Another store: the same results mapping behind other references, and
    an object that has nothing to do with it. *)
Definition other_store : gmap Store.loc (Store.obj (QId:=string) (Id:=string)) :=
  {[ 5%positive := Store.PyList ["a"; "x"; "b"];
     7%positive := Store.PyDict [("q", 5%positive)];
     9%positive := Store.PyFloats [1%Q] ]}.

(** The call of the worked example on that store, in [other_world]. *)
Definition example_other_call :=
  Store.calcMetrics 3 1 7%positive (Some "truth.pkl") None false true
    other_world other_store.

(** * Lemmas *)

(** ** The [result] monad and [for_each] *)

Lemma for_each_app {A S : Type} (l1 l2 : list A) (body : S → A → result S) (s : S) :
  for_each (l1 ++ l2) body s = for_each l1 body s ≫= for_each l2 body.
Proof.
  revert s. induction l1 as [|x l1 IH]; intros s; simpl; [done|].
  destruct (body s x); simpl; [apply IH | done].
Qed.

(** ** Ranges and indexing *)

Lemma ranks_S (n : nat) : ranks (S n) = ranks n ++ [Z.of_nat (S n)].
Proof. unfold ranks. by rewrite seq_S, fmap_app. Qed.

Lemma length_ranks (n : nat) : length (ranks n) = n.
Proof. unfold ranks. by rewrite length_fmap, length_seq. Qed.

Lemma py_range_ranks (n : Z) : py_range 1 (n + 1) 1 = Ok (ranks (Z.to_nat n)).
Proof.
  unfold py_range, ranks. rewrite decide_False, decide_True by lia.
  f_equal. case_decide.
  - replace ((n + 1 - 1 - 1) / 1 + 1) with n by (rewrite Z.div_1_r; lia).
    unfold seqZ. rewrite <- list_fmap_compose.
    rewrite <- (fmap_S_seq 0), <- list_fmap_compose.
    apply list_fmap_ext. intros i x _. simpl. lia.
  - replace (Z.to_nat n) with 0%nat by lia. done.
Qed.

Lemma py_getitem_nat {A : Type} (l : list A) (i : nat) :
  py_getitem l (Z.of_nat i) =
    match l !! i with Some x => Ok x | None => Raise IndexError end.
Proof.
  unfold py_getitem, py_len. destruct (decide (Z.of_nat i < 0)); [lia|].
  rewrite Nat2Z.id. case_decide as Hi.
  - done.
  - rewrite lookup_ge_None_2; [done | lia].
Qed.

Lemma py_getitem_Ok {A : Type} (l : list A) (i : Z) (x : A) :
  py_getitem l i = Ok x →
  l !! Z.to_nat (if decide (i < 0) then py_len l + i else i) = Some x
  ∧ - py_len l ≤ i < py_len l.
Proof.
  unfold py_getitem. intros Hx.
  case_decide as Hr; [|done].
  destruct (l !! _) eqn:E; [|done].
  injection Hx as ->. split; [done|]. case_decide; lia.
Qed.

Lemma py_getitem_exn {A : Type} (l : list A) (i : Z) (e : exn) :
  py_getitem l i = Raise e → e = IndexError.
Proof.
  unfold py_getitem. repeat case_match; congruence.
Qed.

Lemma py_slice_to_nat {A : Type} (l : list A) (k : nat) :
  py_slice_to l (Z.of_nat k) = take k l.
Proof. unfold py_slice_to. rewrite decide_False by lia. by rewrite Nat2Z.id. Qed.

Lemma np_iadd_at_nat (arr : list Q) (j : nat) (v : Q) :
  (j < length arr)%nat →
  np_iadd_at arr (Z.of_nat j) v = Ok (alter (λ x, x + v)%Q j arr).
Proof.
  intros Hj. unfold np_iadd_at. rewrite py_getitem_nat.
  destruct (lookup_lt_is_Some_2 arr j Hj) as [x Hx]. rewrite Hx. simpl.
  destruct (decide (Z.of_nat j < 0)); [lia|]. rewrite Nat2Z.id. f_equal.
  apply list_eq. intros i. destruct (decide (i = j)) as [->|Hne].
  - rewrite list_lookup_insert_eq by done. by rewrite list_lookup_alter_eq, Hx.
  - by rewrite list_lookup_insert_ne, list_lookup_alter_ne.
Qed.

(** ** Closed forms of the per-query metrics *)

Section per_query.
Context {Id : Type} `{Countable Id}.
Implicit Types (results gt items : list Id) (gt_set : gset Id).

Lemma ap_loop_prefix gt_set items : ∀ pre rest (s : Q) (c : Z),
  for_each (Z.of_nat <$> seq (S (length pre)) (length items))
    (ap_body (pre ++ items ++ rest) gt_set) (s, c)
  = Ok (ap_walk gt_set items (Z.of_nat (S (length pre))) c s).
Proof.
  induction items as [|x items IH]; intros pre rest s c; [done|].
  cbn [length seq fmap list_fmap for_each ap_walk app].
  unfold ap_body at 1.
  replace (Z.of_nat (S (length pre)) - 1) with (Z.of_nat (length pre)) by lia.
  rewrite py_getitem_nat, list_lookup_middle by done. cbn [mbind result_bind].
  specialize (IH (pre ++ [x]) rest).
  rewrite length_app, Nat.add_1_r, <- app_assoc in IH. cbn [app] in IH.
  replace (Z.of_nat (S (length pre)) + 1) with (Z.of_nat (S (S (length pre)))) by lia.
  destruct (decide (x ∈ gt_set)).
  - unfold py_truediv. destruct (decide (Z.of_nat (S (length pre)) = 0)); [lia|].
    cbn [mbind result_bind]. apply IH.
  - apply IH.
Qed.

(** The inner loop walks the whole prefix when the prefix has [n] items,
    and runs off its end otherwise. *)
Lemma ap_loop_spec cur gt_set (n : nat) :
  for_each (ranks n) (ap_body cur gt_set) (0%Q, 0) =
    if decide (n ≤ length cur)%nat
    then Ok (ap_walk gt_set (take n cur) 1 0 0)
    else Raise IndexError.
Proof.
  case_decide as Hn.
  - pose proof (ap_loop_prefix gt_set (take n cur) [] (drop n cur) 0%Q 0) as Hp.
    rewrite length_take_le in Hp by done. cbn [app length] in Hp.
    by rewrite take_drop in Hp.
  - assert (n = (length cur + S (n - S (length cur)))%nat) as -> by lia.
    unfold ranks. rewrite seq_app, fmap_app, for_each_app.
    pose proof (ap_loop_prefix gt_set cur [] [] 0%Q 0) as Hp.
    rewrite app_nil_r in Hp. cbn [app length] in Hp. rewrite Hp.
    cbn [mbind result_bind seq fmap list_fmap for_each].
    destruct (ap_walk gt_set cur _ 0 0) as [s c]. unfold ap_body at 1.
    replace (Z.of_nat (1 + length cur) - 1) with (Z.of_nat (length cur)) by lia.
    rewrite py_getitem_nat, lookup_ge_None_2 by done. done.
Qed.

(** One iteration of the loop over [k], at [k = j + 1]. *)
Lemma py_truediv_Ok (a b : Z) :
  b ≠ 0 → py_truediv a b = Ok (inject_Z a / inject_Z b)%Q.
Proof. intros Hb. unfold py_truediv. by rewrite decide_False. Qed.

Lemma py_fdiv_Ok (x : Q) (n : Z) :
  n ≠ 0 → py_fdiv x n = Ok (x / inject_Z n)%Q.
Proof. intros Hn. unfold py_fdiv. by rewrite decide_False. Qed.

Lemma ap_norm_pos gt_set (k : Z) : 0 < k → 0 < ap_norm gt_set k.
Proof. unfold ap_norm. case_decide; lia. Qed.

(** One iteration of the loop over [k], at [k = j + 1]. *)
Lemma k_body_spec results gt_set qm (sp sr : list Q) (j : nat) :
  (j < length sp)%nat → (j < length sr)%nat →
  let k := Z.of_nat (S j) in
  k_body results gt_set (Z.of_nat (size gt_set)) (qm, sp, sr) k =
    if decide (S j ≤ length results)%nat then
      Ok (push_metrics qm (precision_at results gt_set k)
            (recall_at results gt_set k) (ap_spec results gt_set k),
          alter (λ x, x + precision_at results gt_set k)%Q j sp,
          alter (λ x, x + recall_at results gt_set k)%Q j sr)
    else Raise IndexError.
Proof.
  intros Hsp Hsr k. assert (k = Z.of_nat (S j)) as Hk by done.
  clearbody k. unfold k_body. cbv zeta.
  destruct (decide (0 < k)) as [_|]; [|lia].
  rewrite (py_truediv_Ok _ k) by lia. cbn [mbind result_bind].
  fold (hits results gt_set k). fold (precision_at results gt_set k).
  assert ((if decide (0 < Z.of_nat (size gt_set))
           then py_truediv (hits results gt_set k) (Z.of_nat (size gt_set))
           else Ok 0%Q) = Ok (recall_at results gt_set k)) as ->.
  { unfold recall_at. case_decide; [|done]. by rewrite py_truediv_Ok by lia. }
  cbn [mbind result_bind].
  replace (k - 1) with (Z.of_nat j) by lia.
  rewrite !np_iadd_at_nat by done. cbn [mbind result_bind].
  rewrite py_range_ranks. cbn [mbind result_bind].
  fold (ap_norm gt_set k). pose proof (ap_norm_pos gt_set k ltac:(lia)).
  unfold ap_spec. subst k. rewrite py_slice_to_nat, Nat2Z.id.
  rewrite ap_loop_spec, length_take.
  destruct (decide (S j ≤ length results)%nat) as [Hle|Hgt].
  - rewrite decide_True by lia. rewrite take_take, Nat.min_id.
    cbn [mbind result_bind].
    destruct (ap_walk gt_set (take (S j) results) 1 0 0) as [s c].
    rewrite py_fdiv_Ok by lia. done.
  - by rewrite decide_False by lia.
Qed.

End per_query.

(** ** The loop over the cutoffs of one query *)

Section k_loop.
Context {Id : Type} `{Countable Id}.
Implicit Types (results gt : list Id) (gt_set : gset Id).

Lemma length_add_prefix n f arr : length (add_prefix n f arr) = length arr.
Proof. apply length_imap. Qed.

Lemma lookup_add_prefix n f arr j :
  add_prefix n f arr !! j =
    (λ x, if decide (j < n)%nat then (x + f (Z.of_nat (S j)))%Q else x) <$> arr !! j.
Proof. apply list_lookup_imap. Qed.

Lemma add_prefix_0 f arr : add_prefix 0 f arr = arr.
Proof.
  apply list_eq. intros j. rewrite lookup_add_prefix.
  destruct (arr !! j); [|done]. cbn [fmap option_fmap option_map].
  case_decide; [lia|done].
Qed.

Lemma add_prefix_S n f arr :
  alter (λ x, x + f (Z.of_nat (S n)))%Q n (add_prefix n f arr) = add_prefix (S n) f arr.
Proof.
  apply list_eq. intros j. destruct (decide (n = j)) as [<-|Hj].
  - rewrite list_lookup_alter_eq, !lookup_add_prefix.
    destruct (arr !! n) as [x|]; [|done]. cbn [fmap option_fmap option_map].
    repeat case_decide; done || lia.
  - rewrite list_lookup_alter_ne, !lookup_add_prefix by done.
    destruct (arr !! j) as [x|]; [|done]. cbn [fmap option_fmap option_map].
    repeat case_decide; done || lia.
Qed.

Lemma push_all_0 qm results gt_set : push_all qm results gt_set 0 = qm.
Proof. destruct qm. unfold push_all. simpl. by rewrite !app_nil_r. Qed.

Lemma push_all_S qm results gt_set n :
  push_metrics (push_all qm results gt_set n)
    (precision_at results gt_set (Z.of_nat (S n)))
    (recall_at results gt_set (Z.of_nat (S n)))
    (ap_spec results gt_set (Z.of_nat (S n)))
  = push_all qm results gt_set (S n).
Proof.
  unfold push_metrics, push_all. cbn [candidates ground_truth precision recall ap].
  by rewrite ranks_S, !fmap_app, !app_assoc.
Qed.

(** The loop over [k = 1..n] either scores every cutoff or runs off the
    end of a candidate list shorter than [n]. *)
Lemma k_loop_spec results gt_set qm (sp sr : list Q) (n : nat) :
  (n ≤ length sp)%nat → (n ≤ length sr)%nat →
  for_each (ranks n) (k_body results gt_set (Z.of_nat (size gt_set))) (qm, sp, sr) =
    if decide (n ≤ length results)%nat then
      Ok (push_all qm results gt_set n,
          add_prefix n (precision_at results gt_set) sp,
          add_prefix n (recall_at results gt_set) sr)
    else Raise IndexError.
Proof.
  induction n as [|n IH]; intros Hsp Hsr.
  - rewrite decide_True by lia. cbn [ranks seq fmap list_fmap for_each].
    by rewrite push_all_0, !add_prefix_0.
  - rewrite ranks_S, for_each_app, IH by lia.
    destruct (decide (n ≤ length results)%nat) as [Hn|Hn].
    + cbn [mbind result_bind for_each].
      rewrite k_body_spec by (rewrite length_add_prefix; lia).
      destruct (decide (S n ≤ length results)%nat); [|done].
      by rewrite push_all_S, !add_prefix_S.
    + by rewrite decide_False by lia.
Qed.

End k_loop.

(** ** The loop over the queries *)

Section query_loop.
Context {QId Id : Type} `{Countable QId} `{Countable Id}.
Implicit Types (resultFile groundtruth : dict QId (list Id)).
Implicit Types (pq : dict QId (QueryMetrics (Id:=Id))) (sp sr : list Q).
Implicit Types (s : ScoredQuery (QId:=QId) (Id:=Id)).

Lemma query_body_spec max_k groundtruth pq sp sr q results :
  length sp = Z.to_nat max_k → length sr = Z.to_nat max_k →
  query_body max_k groundtruth (pq, sp, sr) (q, results) =
    match dict_get groundtruth q with
    | None => Ok (pq, sp, sr)
    | Some gt =>
        if decide (long_enough max_k (q, results, gt)) then
          Ok (set_record max_k pq (q, results, gt),
              add_precision max_k sp (q, results, gt),
              add_recall max_k sr (q, results, gt))
        else Raise IndexError
    end.
Proof.
  intros Hsp Hsr. unfold query_body.
  destruct (dict_get groundtruth q) as [gt|]; [|done].
  rewrite py_range_ranks. cbn [mbind result_bind].
  rewrite k_loop_spec by lia.
  unfold long_enough. cbn [fst snd].
  destruct (decide (Z.to_nat max_k ≤ length results)%nat); done.
Qed.

Lemma length_add_precision max_k sp s :
  length (add_precision max_k sp s) = length sp.
Proof. apply length_add_prefix. Qed.

Lemma length_add_recall max_k sr s :
  length (add_recall max_k sr s) = length sr.
Proof. apply length_add_prefix. Qed.

(** The loop over the queries scores exactly the entries that have a
    ground truth, and raises [IndexError] as soon as one of them has
    fewer than [max_k] candidates. *)
Lemma query_loop_spec max_k groundtruth resultFile : ∀ pq sp sr,
  length sp = Z.to_nat max_k → length sr = Z.to_nat max_k →
  for_each resultFile (query_body max_k groundtruth) (pq, sp, sr) =
    if decide (Forall (long_enough max_k) (scored resultFile groundtruth)) then
      Ok (foldl (set_record max_k) pq (scored resultFile groundtruth),
          foldl (add_precision max_k) sp (scored resultFile groundtruth),
          foldl (add_recall max_k) sr (scored resultFile groundtruth))
    else Raise IndexError.
Proof.
  induction resultFile as [|[q results] l IH]; intros pq sp sr Hsp Hsr.
  - by rewrite decide_True by constructor.
  - cbn [for_each]. rewrite query_body_spec by done.
    unfold scored. cbn [omap list_omap fst snd]. fold (scored l groundtruth).
    destruct (dict_get groundtruth q) as [gt|]; cbn [mbind option_bind].
    + destruct (decide (long_enough max_k (q, results, gt))) as [Hl|Hl].
      * rewrite IH by (by rewrite ?length_add_precision, ?length_add_recall).
        cbn [foldl].
        destruct (decide (Forall (long_enough max_k) (scored l groundtruth))).
        -- by rewrite decide_True by (by constructor).
        -- rewrite decide_False; [done|]. by inversion 1.
      * rewrite decide_False; [done|]. by inversion 1.
    + by rewrite IH.
Qed.

End query_loop.

(** ** Dictionaries *)

Section dict_facts.
Context {K V : Type} `{EqDecision K}.
Implicit Types (d : dict K V) (k : K) (v : V).

Lemma dict_get_set d k v k' :
  dict_get (dict_set d k v) k' = if decide (k = k') then Some v else dict_get d k'.
Proof.
  induction d as [|[k0 v0] d IH]; cbn [dict_set dict_get].
  - done.
  - destruct (decide (k0 = k)) as [->|Hne]; cbn [dict_get].
    + by destruct (decide (k = k')).
    + rewrite IH. destruct (decide (k0 = k')) as [->|]; [|done].
      by rewrite decide_False by done.
Qed.

Lemma dict_get_NoDup d k v :
  NoDup (dict_keys d) → (k, v) ∈ d → dict_get d k = Some v.
Proof.
  induction d as [|[k0 v0] d IH]; cbn [dict_get dict_keys fmap list_fmap fst].
  - intros _ Hin. by apply elem_of_nil in Hin.
  - intros Hnd Hin. apply NoDup_cons in Hnd as [Hk0 Hnd].
    apply elem_of_cons in Hin as [[= -> ->]|Hin].
    + by rewrite decide_True.
    + rewrite decide_False; [by apply IH|].
      intros ->. apply Hk0. apply list_elem_of_fmap. by exists (k, v).
Qed.

(** Setting a key that is not there appends the entry. *)
Lemma dict_set_fresh d k v :
  k ∉ dict_keys d → dict_set d k v = d ++ [(k, v)].
Proof.
  induction d as [|[k0 v0] d IH]; cbn [dict_set dict_keys fmap list_fmap fst]; [done|].
  rewrite not_elem_of_cons. intros [Hne Hnin].
  rewrite decide_False by done. cbn [app]. f_equal. by apply IH.
Qed.

End dict_facts.

(** ** Reporting points and snapshots *)

Lemma reporting_points_multiples (max_k k_range : Z) :
  0 < k_range ≤ max_k →
  reporting_points max_k k_range =
    Ok ((λ i, i * k_range) <$> seqZ 1 (max_k / k_range)).
Proof.
  intros [Hk Hle]. unfold reporting_points.
  assert (1 ≤ max_k / k_range) as Hm by (apply Z.div_le_lower_bound; lia).
  rewrite (seqZ_cons 1) by lia. cbn [fmap list_fmap].
  rewrite Z.mul_1_l. replace (Z.pred (max_k / k_range)) with (max_k / k_range - 1) by lia.
  replace (Z.succ 1) with 2 by done.
  case_decide as Hlt.
  - unfold py_range. rewrite decide_False, decide_True by lia.
    cbn [mbind result_bind app]. do 2 f_equal.
    assert ((if decide (k_range * 2 < max_k + 1)
             then (max_k + 1 - k_range * 2 - 1) / k_range + 1 else 0)
            = max_k / k_range - 1) as ->.
    { case_decide as H2.
      - replace (max_k + 1 - k_range * 2 - 1) with (max_k + (-2) * k_range) by lia.
        rewrite Z.div_add by lia. lia.
      - assert (max_k / k_range < 2); [|lia].
        apply Z.div_lt_upper_bound; lia. }
    rewrite <- (fmap_add_seqZ 2 0). rewrite <- list_fmap_compose.
    apply list_fmap_ext. intros _ i _. simpl. lia.
  - assert (max_k = k_range) as -> by lia.
    rewrite Z.div_same by lia. done.
Qed.

Section snapshots.
Implicit Types (P R M F : list Q) (d : dict Z Snapshot) (k : Z).

Lemma snapshot_loop_Ok P R M F used : ∀ d d',
  for_each used (snapshot_body P R M F) d = Ok d' →
  (∀ k snap, dict_get d k = Some snap → snapshot_at P R M F k snap) →
  (∀ k snap, dict_get d' k = Some snap → snapshot_at P R M F k snap)
  ∧ (∀ k, k ∈ used ∨ is_Some (dict_get d k) → is_Some (dict_get d' k)).
Proof.
  induction used as [|k used IH]; intros d d' Hrun Hd.
  - injection Hrun as <-. split; [done|].
    intros k [Hk|Hk]; [by apply elem_of_nil in Hk | done].
  - cbn [for_each] in Hrun. unfold snapshot_body at 1 in Hrun.
    destruct (py_getitem P (k - 1)) as [p|] eqn:HP; [|done].
    destruct (py_getitem R (k - 1)) as [r|] eqn:HR; [|done].
    destruct (py_getitem M (k - 1)) as [m|] eqn:HM; [|done].
    destruct (py_getitem F (k - 1)) as [f|] eqn:HF; [|done].
    cbn [mbind result_bind] in Hrun.
    apply IH in Hrun as [Hall Hin].
    + split; [done|]. intros k' Hk'. apply Hin.
      rewrite dict_get_set. case_decide; [by right|].
      destruct Hk' as [[->|Hk']%elem_of_cons|Hk']; [done|by left|by right].
    + intros k' snap. rewrite dict_get_set. case_decide as Hk.
      * intros [= <-]. subst k'. done.
      * apply Hd.
Qed.

Lemma snapshot_loop_total P R M F used : ∀ d,
  (∀ k, k ∈ used →
    ∃ p r m f, py_getitem P (k - 1) = Ok p ∧ py_getitem R (k - 1) = Ok r
             ∧ py_getitem M (k - 1) = Ok m ∧ py_getitem F (k - 1) = Ok f) →
  ∃ d', for_each used (snapshot_body P R M F) d = Ok d'.
Proof.
  induction used as [|k used IH]; intros d Hused; [by eexists|].
  destruct (Hused k) as (p & r & m & f & HP & HR & HM & HF); [by left|].
  cbn [for_each]. unfold snapshot_body at 1.
  rewrite HP, HR, HM, HF. cbn [mbind result_bind].
  apply IH. intros k' Hk'. apply Hused. by right.
Qed.

Lemma snapshot_loop_exn P R M F used : ∀ d e,
  for_each used (snapshot_body P R M F) d = Raise e → e = IndexError.
Proof.
  induction used as [|k used IH]; intros d e; [done|].
  cbn [for_each]. unfold snapshot_body at 1.
  destruct (py_getitem P (k - 1)) as [p|] eqn:HP;
    [|intros [= <-]; by apply py_getitem_exn in HP].
  destruct (py_getitem R (k - 1)) as [r|] eqn:HR;
    [|intros [= <-]; by apply py_getitem_exn in HR].
  destruct (py_getitem M (k - 1)) as [m|] eqn:HM;
    [|intros [= <-]; by apply py_getitem_exn in HM].
  destruct (py_getitem F (k - 1)) as [f|] eqn:HF;
    [|intros [= <-]; by apply py_getitem_exn in HF].
  cbn [mbind result_bind]. apply IH.
Qed.

End snapshots.

(** ** The whole computation *)

Section core.
Context {QId Id : Type} `{Countable QId} `{Countable Id}.
Implicit Types (resultFile groundtruth : dict QId (list Id)).

Lemma calcMetrics_core_unfold max_k k_range resultFile groundtruth :
  calcMetrics_core max_k k_range resultFile groundtruth =
    if decide (max_k < 0) then Raise ValueError
    else if decide (Forall (long_enough max_k) (scored resultFile groundtruth)) then
      let '(P, R, M, F) :=
        aggregate (records max_k resultFile groundtruth)
          (precision_sums max_k resultFile groundtruth)
          (recall_sums max_k resultFile groundtruth)
          (zeros max_k) (zeros max_k) in
      used ← reporting_points max_k k_range;
      at_k ← for_each used (snapshot_body P R M F) [];
      Ok {| system_metrics :=
              {| sys_precision := P; sys_recall := R; sys_map := M; sys_f1 := F;
                 used_k := used; metrics_at_k := at_k |};
            per_query_metrics := records max_k resultFile groundtruth |}
    else Raise IndexError.
Proof.
  unfold calcMetrics_core, np_zeros.
  destruct (decide (max_k < 0)); [done|]. cbn [mbind result_bind].
  rewrite query_loop_spec by apply length_replicate.
  destruct (decide (Forall _ _)); done.
Qed.

(** What a returned report is made of. *)
Lemma calcMetrics_core_Ok max_k k_range resultFile groundtruth report :
  calcMetrics_core max_k k_range resultFile groundtruth = Ok report →
  0 ≤ max_k
  ∧ Forall (long_enough max_k) (scored resultFile groundtruth)
  ∧ per_query_metrics report = records max_k resultFile groundtruth
  ∧ (sys_precision (system_metrics report), sys_recall (system_metrics report),
     sys_map (system_metrics report), sys_f1 (system_metrics report))
    = aggregate (records max_k resultFile groundtruth)
        (precision_sums max_k resultFile groundtruth)
        (recall_sums max_k resultFile groundtruth)
        (zeros max_k) (zeros max_k)
  ∧ reporting_points max_k k_range = Ok (used_k (system_metrics report))
  ∧ for_each (used_k (system_metrics report))
      (snapshot_body (sys_precision (system_metrics report))
         (sys_recall (system_metrics report))
         (sys_map (system_metrics report))
         (sys_f1 (system_metrics report))) []
    = Ok (metrics_at_k (system_metrics report)).
Proof.
  rewrite calcMetrics_core_unfold.
  destruct (decide (max_k < 0)); [done|].
  destruct (decide (Forall _ _)) as [Hall|]; [|done].
  destruct (aggregate _ _ _ _ _) as [[[P R] M] F].
  destruct (reporting_points max_k k_range) as [used|]; [|done].
  cbn [mbind result_bind].
  destruct (for_each used _ []) as [at_k|] eqn:Hat; [|done].
  cbn [mbind result_bind]. intros [= <-]. cbn. repeat split; done || lia.
Qed.

(** The only exceptions of the computation are [ValueError] (a negative
    [max_k] or a zero [k_range]) and [IndexError]. *)
Lemma calcMetrics_core_exn max_k k_range resultFile groundtruth e :
  calcMetrics_core max_k k_range resultFile groundtruth = Raise e →
  e = ValueError ∨ e = IndexError.
Proof.
  rewrite calcMetrics_core_unfold.
  destruct (decide (max_k < 0)); [intros [= <-]; by left|].
  destruct (decide (Forall _ _)) as [Hall|]; [|intros [= <-]; by right].
  destruct (aggregate _ _ _ _ _) as [[[P R] M] F].
  destruct (reporting_points max_k k_range) as [used|e'] eqn:Hused.
  - cbn [mbind result_bind].
    destruct (for_each used _ []) as [at_k|e''] eqn:Hat; [done|].
    cbn [mbind result_bind]. intros [= <-]. right.
    by apply snapshot_loop_exn in Hat.
  - cbn [mbind result_bind]. intros [= <-]. left.
    unfold reporting_points, py_range in Hused.
    repeat case_decide; simplify_eq/=; done.
Qed.

(** A scored query with fewer than [max_k] candidates makes the whole
    computation raise [IndexError]. *)
Lemma calcMetrics_core_short max_k k_range resultFile groundtruth :
  ¬ Forall (long_enough max_k) (scored resultFile groundtruth) →
  calcMetrics_core max_k k_range resultFile groundtruth = Raise IndexError.
Proof.
  intros Hshort. rewrite calcMetrics_core_unfold.
  destruct (decide (max_k < 0)) as [Hneg|].
  - exfalso. apply Hshort. apply Forall_forall. intros s _.
    unfold long_enough. lia.
  - by rewrite decide_False.
Qed.

End core.

(** ** The per-query records *)

Section records.
Context {QId Id : Type} `{Countable QId} `{Countable Id}.
Implicit Types (resultFile groundtruth : dict QId (list Id)).
Implicit Types (s : ScoredQuery (QId:=QId) (Id:=Id)) (results gt : list Id).

Lemma elem_of_scored resultFile groundtruth q results gt :
  (q, results, gt) ∈ scored resultFile groundtruth ↔
  (q, results) ∈ resultFile ∧ dict_get groundtruth q = Some gt.
Proof.
  unfold scored. rewrite list_elem_of_omap. split.
  - intros ([q' r'] & Hin & Hs). cbn [fst snd] in Hs.
    destruct (dict_get groundtruth q') as [g|] eqn:Hg; [|done].
    cbn in Hs. by simplify_eq.
  - intros [Hin Hg]. exists (q, results). split; [done|].
    cbn [fst snd]. by rewrite Hg.
Qed.

Lemma scored_keys_sublist resultFile groundtruth :
  sublist ((λ s, s.1.1) <$> scored resultFile groundtruth) (dict_keys resultFile).
Proof.
  induction resultFile as [|[q results] l IH]; [done|].
  unfold scored. cbn [omap list_omap fst snd dict_keys fmap list_fmap].
  fold (scored l groundtruth).
  destruct (dict_get groundtruth q) as [gt|]; cbn [mbind option_bind].
  - cbn [fmap list_fmap fst snd]. by apply sublist_skip.
  - by apply sublist_cons.
Qed.

Lemma foldl_set_record_fresh max_k (l : list (ScoredQuery (QId:=QId) (Id:=Id))) :
  ∀ pq,
  NoDup (dict_keys pq ++ ((λ s, s.1.1) <$> l)) →
  foldl (set_record max_k) pq l = pq ++ (entry max_k <$> l).
Proof.
  induction l as [|s l IH]; intros pq Hnd; cbn [foldl fmap list_fmap].
  - by rewrite app_nil_r.
  - unfold set_record at 2. rewrite dict_set_fresh.
    + rewrite IH.
      * by rewrite <- app_assoc.
      * unfold dict_keys in *. rewrite fmap_app. cbn [fmap list_fmap fst].
        rewrite <- app_assoc. done.
    + apply NoDup_app in Hnd as (_ & Hdisj & _).
      intros Hin. apply (Hdisj _ Hin). by left.
Qed.

(** With distinct query identifiers, the per-query dictionary holds one
    entry per scored query, in iteration order. *)
Lemma records_entries max_k resultFile groundtruth :
  dict_wf resultFile →
  records max_k resultFile groundtruth = entry max_k <$> scored resultFile groundtruth.
Proof.
  intros Hwf. unfold records. rewrite foldl_set_record_fresh; [done|].
  cbn [dict_keys fmap list_fmap app].
  eapply sublist_NoDup; [exact Hwf|]. apply scored_keys_sublist.
Qed.

Lemma dict_get_entries max_k resultFile groundtruth q :
  dict_get (entry max_k <$> scored resultFile groundtruth) q =
    match dict_get groundtruth q with
    | Some gt => (λ results, query_record max_k results gt) <$> dict_get resultFile q
    | None => None
    end.
Proof.
  induction resultFile as [|[q' results] l IH].
  - by destruct (dict_get groundtruth q).
  - unfold scored. cbn [omap list_omap fst snd]. fold (scored l groundtruth).
    cbn [dict_get]. destruct (decide (q' = q)) as [->|Hne].
    + destruct (dict_get groundtruth q) as [gt|] eqn:Hg; cbn [mbind option_bind].
      * cbn [fmap list_fmap entry dict_get fst snd]. by rewrite decide_True.
      * done.
    + destruct (dict_get groundtruth q') as [gt'|]; cbn [mbind option_bind].
      * cbn [fmap list_fmap entry dict_get fst snd]. by rewrite decide_False.
      * done.
Qed.

(** Every record of the per-query dictionary is the record of some scored
    entry of the results mapping. *)
Lemma foldl_set_record_get max_k (l : list (ScoredQuery (QId:=QId) (Id:=Id))) :
  ∀ pq q qm,
  dict_get (foldl (set_record max_k) pq l) q = Some qm →
  dict_get pq q = Some qm
  ∨ ∃ results gt, (q, results, gt) ∈ l ∧ qm = query_record max_k results gt.
Proof.
  induction l as [|[[q' results] gt] l IH]; intros pq q qm; cbn [foldl]; [by left|].
  intros Hget. apply IH in Hget as [Hget|(r & g & Hin & ->)].
  - unfold set_record in Hget. cbn [fst snd] in Hget.
    rewrite dict_get_set in Hget. case_decide as Hq; [|by left].
    injection Hget as <-. subst q'. right. exists results, gt. split; [by left|done].
  - right. exists r, g. split; [by right|done].
Qed.

Lemma records_get max_k resultFile groundtruth q qm :
  dict_get (records max_k resultFile groundtruth) q = Some qm →
  ∃ results gt, (q, results) ∈ resultFile ∧ dict_get groundtruth q = Some gt
                ∧ qm = query_record max_k results gt.
Proof.
  intros [Hget|(results & gt & Hin & ->)]%foldl_set_record_get; [done|].
  apply elem_of_scored in Hin as [Hin Hg]. by exists results, gt.
Qed.

(** The three curves of a finished record. *)
Lemma query_record_precision max_k results gt (j : nat) :
  (j < Z.to_nat max_k)%nat →
  precision (query_record max_k results gt) !! j =
    Some (precision_at results (list_to_set gt) (Z.of_nat (S j))).
Proof.
  intros Hj. unfold query_record, push_all, ranks. cbn [precision app].
  by rewrite !list_lookup_fmap, lookup_seq_lt.
Qed.

Lemma query_record_recall max_k results gt (j : nat) :
  (j < Z.to_nat max_k)%nat →
  recall (query_record max_k results gt) !! j =
    Some (recall_at results (list_to_set gt) (Z.of_nat (S j))).
Proof.
  intros Hj. unfold query_record, push_all, ranks. cbn [recall app].
  by rewrite !list_lookup_fmap, lookup_seq_lt.
Qed.

Lemma query_record_ap max_k results gt (j : nat) :
  (j < Z.to_nat max_k)%nat →
  ap (query_record max_k results gt) !! j =
    Some (ap_spec results (list_to_set gt) (Z.of_nat (S j))).
Proof.
  intros Hj. unfold query_record, push_all, ranks. cbn [ap app].
  by rewrite !list_lookup_fmap, lookup_seq_lt.
Qed.

Lemma query_record_lengths max_k results gt :
  length (precision (query_record max_k results gt)) = Z.to_nat max_k
  ∧ length (recall (query_record max_k results gt)) = Z.to_nat max_k
  ∧ length (ap (query_record max_k results gt)) = Z.to_nat max_k.
Proof.
  unfold query_record, push_all. cbn [precision recall ap app].
  by rewrite !length_fmap, !length_ranks.
Qed.

End records.

(** ** Bounds on the per-query metrics *)

Lemma Qdiv_Z_nonneg (a b : Z) : 0 ≤ a → 0 < b → (0 <= inject_Z a / inject_Z b)%Q.
Proof.
  intros Ha Hb. apply Qle_shift_div_l.
  - rewrite <- (Zlt_Qlt 0). lia.
  - rewrite Qmult_0_l. rewrite <- (Zle_Qle 0). lia.
Qed.

Lemma Qdiv_Z_le_1 (a b : Z) : a ≤ b → 0 < b → (inject_Z a / inject_Z b <= 1)%Q.
Proof.
  intros Ha Hb. apply Qle_shift_div_r.
  - rewrite <- (Zlt_Qlt 0). lia.
  - rewrite Qmult_1_l. by rewrite <- Zle_Qle.
Qed.

Lemma Qdiv_Z_mono (a a' b : Z) :
  a ≤ a' → 0 < b → (inject_Z a / inject_Z b <= inject_Z a' / inject_Z b)%Q.
Proof.
  intros Ha Hb. unfold Qdiv. apply Qmult_le_compat_r.
  - by rewrite <- Zle_Qle.
  - apply Qinv_le_0_compat. rewrite <- (Zle_Qle 0). lia.
Qed.

Section bounds.
Context {Id : Type} `{Countable Id}.
Implicit Types (results gt items : list Id) (gt_set : gset Id).

Lemma size_list_to_set_le items :
  (size (list_to_set items : gset Id) ≤ length items)%nat.
Proof.
  induction items as [|x items IH]; cbn [list_to_set length].
  - by rewrite size_empty.
  - destruct (decide (x ∈ (list_to_set items : gset Id))) as [Hin|Hnin].
    + rewrite subseteq_union_1_L by set_solver. lia.
    + rewrite size_union by set_solver. rewrite size_singleton. lia.
Qed.

Lemma length_relevant_le gt_set items :
  (length (relevant gt_set items) ≤ length items)%nat.
Proof. apply length_filter. Qed.

Lemma length_relevant_NoDup gt_set items :
  NoDup (relevant gt_set items) →
  (length (relevant gt_set items) ≤ size gt_set)%nat.
Proof.
  intros Hnd. rewrite <- (size_list_to_set (C:=gset Id)) by done.
  apply subseteq_size. intros x. rewrite elem_of_list_to_set.
  unfold relevant. rewrite list_elem_of_filter. tauto.
Qed.

Lemma relevant_empty gt_set items : size gt_set = 0%nat → relevant gt_set items = [].
Proof.
  intros Hz%size_empty_iff. unfold relevant.
  induction items as [|x items IH]; [done|].
  rewrite filter_cons, decide_False; [done|]. set_solver.
Qed.

Lemma hits_nonneg results gt_set k : 0 ≤ hits results gt_set k.
Proof. unfold hits. lia. Qed.

Lemma hits_le_k results gt_set k : 0 ≤ k → hits results gt_set k ≤ k.
Proof.
  intros Hk. unfold hits, py_slice_to. rewrite decide_False by lia.
  pose proof (subseteq_size
    ((list_to_set (take (Z.to_nat k) results) : gset Id) ∩ gt_set)
    (list_to_set (take (Z.to_nat k) results)) (intersection_subseteq_l _ _)).
  pose proof (size_list_to_set_le (take (Z.to_nat k) results)).
  pose proof (length_take results (Z.to_nat k)) as Ht.
  lia.
Qed.

Lemma hits_le_total results gt_set k :
  hits results gt_set k ≤ Z.of_nat (size gt_set).
Proof.
  unfold hits. apply inj_le. apply subseteq_size. apply intersection_subseteq_r.
Qed.

Lemma hits_mono results gt_set k :
  0 ≤ k → hits results gt_set k ≤ hits results gt_set (k + 1).
Proof.
  intros Hk. unfold hits, py_slice_to. rewrite !decide_False by lia.
  apply inj_le. apply subseteq_size.
  apply intersection_mono_r. intros x. rewrite !elem_of_list_to_set.
  replace (Z.to_nat (k + 1)) with (S (Z.to_nat k)) by lia.
  rewrite !elem_of_take. intros (i & Hi & Hlt). exists i. split; [done|lia].
Qed.

Lemma precision_at_bounds results gt_set k :
  0 < k → (0 <= precision_at results gt_set k <= 1)%Q.
Proof.
  intros Hk. unfold precision_at. split.
  - apply Qdiv_Z_nonneg; [apply hits_nonneg | done].
  - apply Qdiv_Z_le_1; [apply hits_le_k; lia | done].
Qed.

Lemma recall_at_bounds results gt_set k :
  (0 <= recall_at results gt_set k <= 1)%Q.
Proof.
  unfold recall_at. case_decide as Htr; [|done]. split.
  - apply Qdiv_Z_nonneg; [apply hits_nonneg | done].
  - apply Qdiv_Z_le_1; [apply hits_le_total | done].
Qed.

Lemma recall_at_mono results gt_set k :
  0 ≤ k → (recall_at results gt_set k <= recall_at results gt_set (k + 1))%Q.
Proof.
  intros Hk. unfold recall_at. case_decide as Htr; [|done].
  apply Qdiv_Z_mono; [by apply hits_mono | done].
Qed.

Lemma recall_at_empty results gt_set k :
  size gt_set = 0%nat → recall_at results gt_set k = 0%Q.
Proof. intros Hz. unfold recall_at. rewrite Hz. done. Qed.

(** The walk adds one term in [[0, 1]] per relevant position. *)
Lemma ap_walk_bounds gt_set items : ∀ (rank count : Z) (sum : Q),
  0 ≤ count < rank →
  (sum <= (ap_walk gt_set items rank count sum).1
       <= sum + inject_Z (Z.of_nat (length (relevant gt_set items))))%Q.
Proof.
  induction items as [|x items IH]; intros rank count sum Hc; cbn [ap_walk].
  - cbn [length relevant filter list_filter fst]. change (inject_Z (Z.of_nat 0)) with 0%Q. lra.
  - unfold relevant. rewrite filter_cons. fold (relevant gt_set items).
    destruct (decide (x ∈ gt_set)) as [Hx|Hx].
    + specialize (IH (rank + 1) (count + 1)
                     (sum + inject_Z (count + 1) / inject_Z rank)%Q ltac:(lia)).
      pose proof (Qdiv_Z_nonneg (count + 1) rank ltac:(lia) ltac:(lia)).
      pose proof (Qdiv_Z_le_1 (count + 1) rank ltac:(lia) ltac:(lia)).
      cbn [length]. rewrite Nat2Z.inj_succ. unfold Z.succ.
      rewrite (inject_Z_plus (Z.of_nat _) 1). change (inject_Z 1) with 1%Q. lra.
    + apply IH. lia.
Qed.

Lemma ap_walk_irrelevant gt_set items : ∀ (rank count : Z) (sum : Q),
  relevant gt_set items = [] →
  ap_walk gt_set items rank count sum = (sum, count).
Proof.
  induction items as [|x items IH]; intros rank count sum; [done|].
  unfold relevant. rewrite filter_cons. fold (relevant gt_set items).
  cbn [ap_walk]. destruct (decide (x ∈ gt_set)); [done|]. apply IH.
Qed.

Lemma ap_spec_nonneg results gt_set k : 0 < k → (0 <= ap_spec results gt_set k)%Q.
Proof.
  intros Hk. unfold ap_spec. pose proof (ap_norm_pos gt_set k Hk) as Hn.
  apply Qle_shift_div_l; [rewrite <- (Zlt_Qlt 0); lia|].
  rewrite Qmult_0_l.
  apply (ap_walk_bounds gt_set (py_slice_to results k) 1 0 0). lia.
Qed.

(** With a ground truth, the average precision is at most 1 as long as no
    relevant identifier is repeated among the first [k] candidates. *)
Lemma ap_spec_le_1 results gt_set k :
  0 < k → NoDup (relevant gt_set (py_slice_to results k)) →
  (ap_spec results gt_set k <= 1)%Q.
Proof.
  intros Hk Hnd. unfold ap_spec. pose proof (ap_norm_pos gt_set k Hk) as Hn.
  apply Qle_shift_div_r; [rewrite <- (Zlt_Qlt 0); lia|].
  rewrite Qmult_1_l.
  pose proof (ap_walk_bounds gt_set (py_slice_to results k) 1 0 0 ltac:(lia))
    as [_ Hub].
  eapply Qle_trans; [apply Hub|]. rewrite Qplus_0_l. rewrite <- Zle_Qle.
  pose proof (length_relevant_NoDup _ _ Hnd) as Hsz.
  pose proof (length_relevant_le gt_set (py_slice_to results k)) as Hlen.
  assert (length (py_slice_to results k) ≤ Z.to_nat k)%nat as Hk'.
  { unfold py_slice_to. rewrite decide_False by lia. rewrite length_take. lia. }
  unfold ap_norm. case_decide; lia.
Qed.

Lemma ap_spec_empty results gt_set k :
  size gt_set = 0%nat → (ap_spec results gt_set k == 0)%Q.
Proof.
  intros Hz. unfold ap_spec.
  rewrite ap_walk_irrelevant by by apply relevant_empty.
  cbn [fst]. unfold ap_norm. rewrite Hz. done.
Qed.

End bounds.

(** ** The system-wide arrays *)

Lemma Qsum_foldl {A : Type} (g : A → Q) (l : list A) : ∀ x : Q,
  (foldl (λ acc a, acc + g a) x l == x + Qsum (g <$> l))%Q.
Proof.
  induction l as [|a l IH]; intros x; cbn [foldl fmap list_fmap Qsum foldr].
  - lra.
  - rewrite IH. fold (Qsum (g <$> l)). lra.
Qed.

Lemma Qsum_nonneg (l : list Q) : Forall (λ x, 0 <= x)%Q l → (0 <= Qsum l)%Q.
Proof.
  induction 1 as [|x l Hx _ IH]; cbn [Qsum foldr]; [lra|].
  fold (Qsum l). lra.
Qed.

Lemma foldl_add_prefix_lookup {A : Type} (n : nat) (f : A → Z → Q) (l : list A) :
  ∀ (arr : list Q) (j : nat), (j < n)%nat →
  foldl (λ arr a, add_prefix n (f a) arr) arr l !! j =
    (λ x, foldl (λ acc a, acc + f a (Z.of_nat (S j)))%Q x l) <$> arr !! j.
Proof.
  induction l as [|a l IH]; intros arr j Hj; cbn [foldl].
  - by destruct (arr !! j).
  - rewrite IH by done. rewrite lookup_add_prefix.
    destruct (arr !! j) as [x|]; [|done]. cbn [fmap option_fmap option_map].
    by rewrite decide_True by done.
Qed.

Lemma foldl_add_prefix_length {A : Type} (n : nat) (f : A → Z → Q) (l : list A) :
  ∀ arr : list Q, length (foldl (λ arr a, add_prefix n (f a) arr) arr l) = length arr.
Proof.
  induction l as [|a l IH]; intros arr; cbn [foldl]; [done|].
  by rewrite IH, length_add_prefix.
Qed.

(** A cell of the F1 array is 0 where precision and recall add up to 0. *)
Lemma f1_cell_zero (p r : Q) :
  (0 <= p)%Q → (0 <= r)%Q → (p + r == 0)%Q →
  (np_nan_to_num (np_div (2 * (p * r)) (p + r)) == 0)%Q.
Proof.
  intros Hp Hr Hpr. unfold np_div.
  assert (p == 0)%Q as Hp0 by lra.
  assert (Qeq_bool (p + r) 0 = true) as -> by by apply Qeq_bool_iff.
  assert (Qeq_bool (2 * (p * r)) 0 = true) as ->.
  { apply Qeq_bool_iff. rewrite Hp0. ring. }
  done.
Qed.

Section system.
Context {QId Id : Type} `{Countable QId} `{Countable Id}.
Implicit Types (resultFile groundtruth : dict QId (list Id)).
Implicit Types (s : ScoredQuery (QId:=QId) (Id:=Id)).

Lemma length_zeros max_k : length (zeros max_k) = Z.to_nat max_k.
Proof. apply length_replicate. Qed.

Lemma lookup_zeros max_k (j : nat) :
  (j < Z.to_nat max_k)%nat → zeros max_k !! j = Some 0%Q.
Proof. apply lookup_replicate_2. Qed.

Lemma length_precision_sums max_k resultFile groundtruth :
  length (precision_sums max_k resultFile groundtruth) = Z.to_nat max_k.
Proof.
  unfold precision_sums, add_precision.
  by rewrite foldl_add_prefix_length, length_zeros.
Qed.

Lemma length_recall_sums max_k resultFile groundtruth :
  length (recall_sums max_k resultFile groundtruth) = Z.to_nat max_k.
Proof.
  unfold recall_sums, add_recall.
  by rewrite foldl_add_prefix_length, length_zeros.
Qed.

(** Cell [j] of the running sums holds the sum of the per-query values at
    cutoff [j + 1], over the scored queries. *)
Lemma lookup_precision_sums max_k resultFile groundtruth (j : nat) :
  (j < Z.to_nat max_k)%nat →
  ∃ x, precision_sums max_k resultFile groundtruth !! j = Some x
    ∧ (x == Qsum ((λ s, precision_of s (Z.of_nat (S j)))
                    <$> scored resultFile groundtruth))%Q.
Proof.
  intros Hj. unfold precision_sums, add_precision.
  rewrite (foldl_add_prefix_lookup _ (λ s, precision_at s.1.2 (list_to_set s.2))) by done.
  rewrite lookup_zeros by done. eexists. split; [done|].
  rewrite (Qsum_foldl (λ s, precision_at s.1.2 (list_to_set s.2) (Z.of_nat (S j)))).
  unfold precision_of. lra.
Qed.

Lemma lookup_recall_sums max_k resultFile groundtruth (j : nat) :
  (j < Z.to_nat max_k)%nat →
  ∃ x, recall_sums max_k resultFile groundtruth !! j = Some x
    ∧ (x == Qsum ((λ s, recall_of s (Z.of_nat (S j)))
                    <$> scored resultFile groundtruth))%Q.
Proof.
  intros Hj. unfold recall_sums, add_recall.
  rewrite (foldl_add_prefix_lookup _ (λ s, recall_at s.1.2 (list_to_set s.2))) by done.
  rewrite lookup_zeros by done. eexists. split; [done|].
  rewrite (Qsum_foldl (λ s, recall_at s.1.2 (list_to_set s.2) (Z.of_nat (S j)))).
  unfold recall_of. lra.
Qed.

Lemma precision_sum_nonneg (l : list ScoredQuery) (k : Z) :
  0 < k → (0 <= Qsum ((λ s, precision_of s k) <$> l))%Q.
Proof.
  intros Hk. apply Qsum_nonneg, Forall_fmap, Forall_forall. intros s _.
  by apply precision_at_bounds.
Qed.

Lemma recall_sum_nonneg (l : list ScoredQuery) (k : Z) :
  (0 <= Qsum ((λ s, recall_of s k) <$> l))%Q.
Proof.
  apply Qsum_nonneg, Forall_fmap, Forall_forall. intros s _.
  apply recall_at_bounds.
Qed.

End system.

(** ** Aggregation *)

Section aggregation.
Context {QId Id : Type} `{Countable QId} `{Countable Id}.
Implicit Types (resultFile groundtruth : dict QId (list Id)).
Implicit Types (pq : dict QId (QueryMetrics (Id:=Id))).

Lemma Forall_dict_set {K V : Type} `{EqDecision K} (P : K * V → Prop)
    (d : dict K V) (k : K) (v : V) :
  Forall P d → P (k, v) → Forall P (dict_set d k v).
Proof.
  intros Hd Hkv. induction Hd as [|[k0 v0] d Hkv0 Hd IH]; cbn [dict_set].
  - by constructor.
  - case_decide; by constructor.
Qed.

Lemma records_finished max_k resultFile groundtruth :
  Forall (finished max_k) (records max_k resultFile groundtruth).
Proof.
  unfold records. generalize (scored resultFile groundtruth).
  assert (Forall (finished max_k) ([] : dict QId (QueryMetrics (Id:=Id)))) as Hnil
    by apply Forall_nil_2.
  revert Hnil. generalize ([] : dict QId (QueryMetrics (Id:=Id))).
  intros pq Hpq l. revert pq Hpq.
  induction l as [|s l IH]; intros pq Hpq; cbn [foldl]; [done|].
  apply IH. apply Forall_dict_set; [done|]. by eexists _, _.
Qed.

Lemma length_np_mean_axis0 max_k (rows : list (list Q)) :
  rows ≠ [] → Forall (λ row, length row = Z.to_nat max_k) rows →
  length (np_mean_axis0 rows) = Z.to_nat max_k.
Proof.
  intros Hne Hrows. destruct Hrows as [|row rows Hrow _]; [done|].
  cbn [np_mean_axis0]. by rewrite length_fmap, length_seq.
Qed.

Lemma lookup_np_mean_axis0 (rows : list (list Q)) (n j : nat) :
  rows ≠ [] → Forall (λ row, length row = n) rows → (j < n)%nat →
  np_mean_axis0 rows !! j =
    Some (Qsum ((λ row, default 0%Q (row !! j)) <$> rows) / inject_Z (py_len rows))%Q.
Proof.
  intros Hne Hrows Hj. destruct Hrows as [|row rows Hrow _]; [done|].
  cbn [np_mean_axis0]. rewrite list_lookup_fmap, lookup_seq_lt by lia. done.
Qed.

Lemma records_ap_rows max_k resultFile groundtruth :
  Forall (λ row, length row = Z.to_nat max_k)
    (ap <$> dict_values (records max_k resultFile groundtruth)).
Proof.
  unfold dict_values. rewrite <- list_fmap_compose. apply Forall_fmap.
  eapply Forall_impl; [apply records_finished|].
  intros [q qm] (results & gt & Heq). cbn in Heq |- *. subst qm.
  apply query_record_lengths.
Qed.

Lemma aggregate_lengths max_k resultFile groundtruth (P R M F : list Q) :
  aggregate (records max_k resultFile groundtruth)
    (precision_sums max_k resultFile groundtruth)
    (recall_sums max_k resultFile groundtruth)
    (zeros max_k) (zeros max_k) = (P, R, M, F) →
  length P = Z.to_nat max_k ∧ length R = Z.to_nat max_k
  ∧ length M = Z.to_nat max_k ∧ length F = Z.to_nat max_k.
Proof.
  unfold aggregate. case_decide as Hn; intros [= <- <- <- <-].
  - unfold f1_array, np_idiv.
    rewrite length_zip_with, !length_fmap, length_precision_sums, length_recall_sums.
    rewrite (length_np_mean_axis0 max_k).
    + repeat split; lia.
    + unfold py_len in Hn. unfold dict_values.
      destruct (records max_k resultFile groundtruth); [simpl in Hn; lia|done].
    + apply records_ap_rows.
  - by rewrite length_precision_sums, length_recall_sums, length_zeros.
Qed.

(** Reading cell [k - 1] of an array of length at least [k]. *)
Lemma py_getitem_pred {A : Type} (l : list A) (k : Z) (x : A) :
  1 ≤ k → py_getitem l (k - 1) = Ok x ↔ l !! Z.to_nat (k - 1) = Some x.
Proof.
  intros Hk. unfold py_getitem, py_len.
  destruct (decide (k - 1 < 0)); [lia|]. split.
  - case_decide; [|done]. by destruct (l !! Z.to_nat (k - 1)); intros [= ->].
  - intros Hx. pose proof (lookup_lt_Some _ _ _ Hx).
    rewrite decide_True by lia. by rewrite Hx.
Qed.

Lemma py_getitem_last {A : Type} (l : list A) :
  l ≠ [] → ∃ x, py_getitem l (-1) = Ok x.
Proof.
  intros Hne. unfold py_getitem, py_len.
  assert (0 < length l)%nat by (destruct l; [done|simpl; lia]).
  destruct (decide (-1 < 0)); [|lia]. rewrite decide_True by lia.
  destruct (lookup_lt_is_Some_2 l (Z.to_nat (Z.of_nat (length l) + -1))) as [x ->];
    [lia|]. by exists x.
Qed.

(** With a valid step, the computation returns whenever every scored
    query has at least [max_k] candidates. *)
Lemma calcMetrics_core_total max_k k_range resultFile groundtruth :
  1 ≤ k_range ≤ max_k →
  Forall (long_enough max_k) (scored resultFile groundtruth) →
  ∃ report, calcMetrics_core max_k k_range resultFile groundtruth = Ok report.
Proof.
  intros Hk Hlong. rewrite calcMetrics_core_unfold.
  rewrite decide_False by lia. rewrite decide_True by done.
  destruct (aggregate _ _ _ _ _) as [[[P R] M] F] eqn:Hagg.
  apply aggregate_lengths in Hagg as (HP & HR & HM & HF).
  rewrite reporting_points_multiples by lia. cbn [mbind result_bind].
  destruct (snapshot_loop_total P R M F
    ((λ i, i * k_range) <$> seqZ 1 (max_k / k_range)) []) as [at_k ->].
  - intros k (i & -> & Hi)%list_elem_of_fmap. apply elem_of_seqZ in Hi.
    assert (1 ≤ i * k_range ≤ max_k) as Hr.
    { split; [nia|]. etrans; [|apply (Z.mul_div_le max_k k_range); lia]. nia. }
    destruct (lookup_lt_is_Some_2 P (Z.to_nat (i * k_range - 1))) as [p Hp]; [lia|].
    destruct (lookup_lt_is_Some_2 R (Z.to_nat (i * k_range - 1))) as [r Hr']; [lia|].
    destruct (lookup_lt_is_Some_2 M (Z.to_nat (i * k_range - 1))) as [m Hm]; [lia|].
    destruct (lookup_lt_is_Some_2 F (Z.to_nat (i * k_range - 1))) as [f Hf]; [lia|].
    exists p, r, m, f. rewrite !py_getitem_pred by lia. done.
  - by eexists.
Qed.

End aggregation.

(** ** [calcMetrics] and the outside world *)

Section world.
Context {QId Id : Type} `{Countable QId} `{Countable Id}.
Implicit Types (resultFile groundtruth : dict QId (list Id)).
Implicit Types (w : World (QId:=QId) (Id:=Id)).

Lemma reporting_points_head max_k k_range used :
  reporting_points max_k k_range = Ok used → ∃ more, used = k_range :: more.
Proof.
  unfold reporting_points. case_decide.
  - destruct (py_range _ _ _) as [more|]; [|done].
    cbn [mbind result_bind]. intros [= <-]. by exists more.
  - intros [= <-]. by exists [].
Qed.

Lemma calcMetrics_core_nonempty max_k k_range resultFile groundtruth report :
  calcMetrics_core max_k k_range resultFile groundtruth = Ok report →
  sys_precision (system_metrics report) ≠ []
  ∧ sys_recall (system_metrics report) ≠ []
  ∧ sys_map (system_metrics report) ≠ []
  ∧ sys_f1 (system_metrics report) ≠ [].
Proof.
  intros (_ & _ & _ & _ & Hused & Hsnap)%calcMetrics_core_Ok.
  apply reporting_points_head in Hused as [more Hused]. rewrite Hused in Hsnap.
  cbn [for_each] in Hsnap. unfold snapshot_body at 1 in Hsnap.
  destruct (py_getitem (sys_precision _) _) eqn:HP; [|done].
  destruct (py_getitem (sys_recall _) _) eqn:HR; [|done].
  destruct (py_getitem (sys_map _) _) eqn:HM; [|done].
  destruct (py_getitem (sys_f1 _) _) eqn:HF; [|done].
  repeat split; intros Hnil.
  - rewrite Hnil in HP. apply py_getitem_Ok in HP as [HP _]. done.
  - rewrite Hnil in HR. apply py_getitem_Ok in HR as [HR _]. done.
  - rewrite Hnil in HM. apply py_getitem_Ok in HM as [HM _]. done.
  - rewrite Hnil in HF. apply py_getitem_Ok in HF as [HF _]. done.
Qed.

Lemma log_metrics_total (sm : SystemMetrics) w :
  sys_precision sm ≠ [] → sys_recall sm ≠ [] → sys_map sm ≠ [] → sys_f1 sm ≠ [] →
  ∃ w', log_metrics sm w = (Ok (), w').
Proof.
  intros [p Hp]%py_getitem_last [r Hr]%py_getitem_last
         [m Hm]%py_getitem_last [f Hf]%py_getitem_last.
  unfold log_metrics, log_last. rewrite Hm, Hp, Hr, Hf. by eexists.
Qed.

(** The outcome of [calcMetrics] is the outcome of loading the ground
    truth followed by the computation: logging never fails and changes
    no result. *)
Lemma calcMetrics_outcome max_k k_range resultFile gtPath resPath record verbose w :
  (calcMetrics max_k k_range resultFile gtPath resPath record verbose w).1 =
    loadDictionaryFromPickleFile gtPath w
      ≫= calcMetrics_core max_k k_range resultFile.
Proof.
  unfold calcMetrics.
  destruct (loadDictionaryFromPickleFile gtPath w) as [groundtruth|]; [|done].
  cbn [mbind result_bind].
  destruct (calcMetrics_core _ _ _ _) as [report|] eqn:Hcore; [|done].
  destruct record; [|done].
  apply calcMetrics_core_nonempty in Hcore as (HP & HR & HM & HF).
  destruct (log_metrics_total (system_metrics report) w HP HR HM HF) as (w' & ->).
  done.
Qed.

Lemma calcMetrics_Ok_inv max_k k_range resultFile gtPath resPath record verbose w report :
  (calcMetrics max_k k_range resultFile gtPath resPath record verbose w).1 = Ok report →
  ∃ groundtruth,
    loadDictionaryFromPickleFile gtPath w = Ok groundtruth
    ∧ calcMetrics_core max_k k_range resultFile groundtruth = Ok report.
Proof.
  rewrite calcMetrics_outcome.
  destruct (loadDictionaryFromPickleFile gtPath w) as [groundtruth|]; [|done].
  cbn [mbind result_bind]. intros Hcore. by exists groundtruth.
Qed.

(** [calcMetrics] returns a report whenever the ground truth loads, the
    step is between 1 and [max_k], and every scored query has at least
    [max_k] candidates. *)
Lemma calcMetrics_total max_k k_range resultFile gtPath resPath record verbose w
    groundtruth :
  loadDictionaryFromPickleFile gtPath w = Ok groundtruth →
  1 ≤ k_range ≤ max_k →
  Forall (long_enough max_k) (scored resultFile groundtruth) →
  ∃ report,
    (calcMetrics max_k k_range resultFile gtPath resPath record verbose w).1
      = Ok report.
Proof.
  intros Hload Hk Hlong. rewrite calcMetrics_outcome, Hload.
  cbn [mbind result_bind]. by apply calcMetrics_core_total.
Qed.

(** A scored query with fewer than [max_k] candidates makes [calcMetrics]
    raise [IndexError]. *)
Lemma calcMetrics_short max_k k_range resultFile gtPath resPath record verbose w
    groundtruth q results gt :
  loadDictionaryFromPickleFile gtPath w = Ok groundtruth →
  (q, results) ∈ resultFile → dict_get groundtruth q = Some gt →
  py_len results < max_k →
  (calcMetrics max_k k_range resultFile gtPath resPath record verbose w).1
    = Raise IndexError.
Proof.
  intros Hload Hin Hgt Hshort. rewrite calcMetrics_outcome, Hload.
  cbn [mbind result_bind]. apply calcMetrics_core_short.
  rewrite Forall_forall. intros Hall.
  assert ((q, results, gt) ∈ scored resultFile groundtruth) as Hs
    by by apply elem_of_scored.
  apply Hall in Hs. unfold long_enough, py_len in *. cbn [fst snd] in Hs. lia.
Qed.

(** Every record of a returned report belongs to an entry of the results
    mapping that has a ground truth. *)
Lemma report_record max_k k_range resultFile groundtruth report q qm :
  calcMetrics_core max_k k_range resultFile groundtruth = Ok report →
  dict_get (per_query_metrics report) q = Some qm →
  ∃ results gt,
    (q, results) ∈ resultFile ∧ dict_get groundtruth q = Some gt
    ∧ qm = query_record max_k results gt.
Proof.
  intros (_ & _ & Hpq & _)%calcMetrics_core_Ok. rewrite Hpq. apply records_get.
Qed.

(** With distinct query identifiers, the record of a query is there
    exactly when the query has results and a ground truth. *)
Lemma report_lookup max_k k_range resultFile groundtruth report q :
  calcMetrics_core max_k k_range resultFile groundtruth = Ok report →
  dict_wf resultFile →
  dict_get (per_query_metrics report) q =
    match dict_get groundtruth q with
    | Some gt => (λ results, query_record max_k results gt) <$> dict_get resultFile q
    | None => None
    end.
Proof.
  intros (_ & _ & Hpq & _)%calcMetrics_core_Ok Hwf.
  by rewrite Hpq, records_entries, dict_get_entries.
Qed.

End world.

(** ** Signs of the system-wide arrays and the F1 array *)

Section f1.
Context {QId Id : Type} `{Countable QId} `{Countable Id}.
Implicit Types (resultFile groundtruth : dict QId (list Id)).

Lemma precision_sums_nonneg max_k resultFile groundtruth (j : nat) (x : Q) :
  precision_sums max_k resultFile groundtruth !! j = Some x → (0 <= x)%Q.
Proof.
  intros Hx. pose proof (lookup_lt_Some _ _ _ Hx) as Hj.
  rewrite length_precision_sums in Hj.
  destruct (lookup_precision_sums max_k resultFile groundtruth j Hj) as (x' & Hx' & Heq).
  rewrite Hx in Hx'. injection Hx' as <-. rewrite Heq.
  apply precision_sum_nonneg. lia.
Qed.

Lemma recall_sums_nonneg max_k resultFile groundtruth (j : nat) (x : Q) :
  recall_sums max_k resultFile groundtruth !! j = Some x → (0 <= x)%Q.
Proof.
  intros Hx. pose proof (lookup_lt_Some _ _ _ Hx) as Hj.
  rewrite length_recall_sums in Hj.
  destruct (lookup_recall_sums max_k resultFile groundtruth j Hj) as (x' & Hx' & Heq).
  rewrite Hx in Hx'. injection Hx' as <-. rewrite Heq.
  apply recall_sum_nonneg.
Qed.

Lemma np_idiv_nonneg (arr : list Q) (n : Z) (j : nat) (x : Q) :
  0 < n → (∀ y, arr !! j = Some y → (0 <= y)%Q) →
  np_idiv arr n !! j = Some x → (0 <= x)%Q.
Proof.
  intros Hn Harr. unfold np_idiv. rewrite list_lookup_fmap.
  destruct (arr !! j) as [y|]; [|done]. intros [= <-].
  apply Qle_shift_div_l; [rewrite <- (Zlt_Qlt 0); lia|].
  rewrite Qmult_0_l. by apply Harr.
Qed.

(** In a returned report, F1 is 0 wherever mean precision and mean recall
    add up to 0. *)
Lemma report_f1_zero max_k k_range resultFile groundtruth report (j : nat) (p r f : Q) :
  calcMetrics_core max_k k_range resultFile groundtruth = Ok report →
  sys_precision (system_metrics report) !! j = Some p →
  sys_recall (system_metrics report) !! j = Some r →
  sys_f1 (system_metrics report) !! j = Some f →
  (p + r == 0)%Q → (f == 0)%Q.
Proof.
  intros (_ & _ & _ & Hagg & _)%calcMetrics_core_Ok HP HR HF Hpr.
  unfold aggregate in Hagg. case_decide as Hn.
  - injection Hagg as HeqP HeqR _ HeqF.
    rewrite HeqP in HP. rewrite HeqR in HR.
    rewrite HeqF in HF. unfold f1_array in HF.
    apply lookup_zip_with_Some in HF as (p' & r' & -> & HP' & HR').
    rewrite HP in HP'. rewrite HR in HR'. injection HP' as <-. injection HR' as <-.
    apply f1_cell_zero; [| |done].
    + eapply np_idiv_nonneg; [exact Hn| |exact HP].
      intros y. apply precision_sums_nonneg.
    + eapply np_idiv_nonneg; [exact Hn| |exact HR].
      intros y. apply recall_sums_nonneg.
  - injection Hagg as _ _ _ HeqF. rewrite HeqF in HF.
    apply lookup_replicate in HF as [-> _]. done.
Qed.

Lemma scored_nil resultFile groundtruth :
  (∀ q, q ∈ dict_keys resultFile → dict_get groundtruth q = None) →
  scored resultFile groundtruth = [].
Proof.
  intros Hnone. induction resultFile as [|[q results] l IH]; [done|].
  unfold scored. cbn [omap list_omap fst snd]. fold (scored l groundtruth).
  rewrite (Hnone q) by (by left). cbn [mbind option_bind].
  apply IH. intros q' Hq'. apply Hnone. by right.
Qed.

Lemma dict_set_nonempty {K V : Type} `{EqDecision K} (d : dict K V) (k : K) (v : V) :
  dict_set d k v ≠ [].
Proof. destruct d as [|[k0 v0] d]; cbn [dict_set]; [done|]. by case_decide. Qed.

Lemma foldl_set_record_nonempty max_k (l : list (ScoredQuery (QId:=QId) (Id:=Id))) :
  ∀ pq, pq ≠ [] → foldl (set_record max_k) pq l ≠ [].
Proof.
  induction l as [|s l IH]; intros pq Hne; cbn [foldl]; [done|].
  apply IH. apply dict_set_nonempty.
Qed.

Lemma records_nil max_k resultFile groundtruth :
  records max_k resultFile groundtruth = [] → scored resultFile groundtruth = [].
Proof.
  unfold records. destruct (scored resultFile groundtruth) as [|s l]; [done|].
  cbn [foldl]. intros Hnil. exfalso. revert Hnil.
  apply foldl_set_record_nonempty, dict_set_nonempty.
Qed.

(** Without a scored query the four arrays keep their initial zeros. *)
Lemma report_unscored max_k k_range resultFile groundtruth report :
  calcMetrics_core max_k k_range resultFile groundtruth = Ok report →
  per_query_metrics report = [] →
  sys_precision (system_metrics report) = zeros max_k
  ∧ sys_recall (system_metrics report) = zeros max_k
  ∧ sys_map (system_metrics report) = zeros max_k
  ∧ sys_f1 (system_metrics report) = zeros max_k.
Proof.
  intros (_ & _ & Hpq & Hagg & _)%calcMetrics_core_Ok Hnil.
  rewrite Hpq in Hnil. unfold aggregate in Hagg. rewrite Hnil in Hagg.
  cbn in Hagg. injection Hagg as -> -> -> ->.
  apply records_nil in Hnil.
  unfold precision_sums, recall_sums. rewrite Hnil. done.
Qed.

End f1.

(** ** Queries without a ground truth *)

Section skipped.
Context {QId Id : Type} `{Countable QId} `{Countable Id}.
Implicit Types (resultFile groundtruth : dict QId (list Id)).

Lemma scored_without q resultFile groundtruth :
  dict_get groundtruth q = None →
  scored (without q resultFile) groundtruth = scored resultFile groundtruth.
Proof.
  intros Hq. unfold without.
  induction resultFile as [|[q' results] l IH]; [done|].
  rewrite filter_cons. cbn [fst]. destruct (decide (q' ≠ q)) as [Hne|Heq].
  - unfold scored. cbn [omap list_omap fst snd].
    fold (scored l groundtruth). fold (scored (filter (λ item, item.1 ≠ q) l) groundtruth).
    by rewrite IH.
  - apply dec_stable in Heq. subst q'. rewrite IH.
    unfold scored at 2. cbn [omap list_omap fst snd]. by rewrite Hq.
Qed.

Lemma calcMetrics_core_without max_k k_range q resultFile groundtruth :
  dict_get groundtruth q = None →
  calcMetrics_core max_k k_range (without q resultFile) groundtruth
  = calcMetrics_core max_k k_range resultFile groundtruth.
Proof.
  intros Hq. rewrite !calcMetrics_core_unfold.
  unfold records, precision_sums, recall_sums. by rewrite scored_without.
Qed.

End skipped.

(** ** Reporting points of a returned report *)

Lemma elem_of_multiples (max_k k_range k : Z) :
  0 < k_range →
  k ∈ (λ i, i * k_range) <$> seqZ 1 (max_k / k_range)
  ↔ k_range ≤ k ≤ max_k ∧ (k_range | k).
Proof.
  intros Hpos. rewrite list_elem_of_fmap. split.
  - intros (i & -> & Hi). apply elem_of_seqZ in Hi.
    split; [split; [nia|] | by exists i].
    etrans; [|apply (Z.mul_div_le max_k k_range); lia]. nia.
  - intros ([Hlo Hhi] & c & ->). exists c. split; [done|].
    apply elem_of_seqZ. split; [nia|].
    assert (c ≤ max_k / k_range) by (apply Z.div_le_lower_bound; lia). lia.
Qed.

Lemma multiples_sorted (max_k k_range : Z) :
  0 < k_range →
  StronglySorted Z.lt ((λ i, i * k_range) <$> seqZ 1 (max_k / k_range)).
Proof.
  intros Hpos. generalize 1. generalize (max_k / k_range).
  intros n. destruct (decide (0 ≤ n)) as [Hn|Hn].
  - revert n Hn. apply (natlike_ind
      (λ n, ∀ m, StronglySorted Z.lt ((λ i, i * k_range) <$> seqZ m n))).
    + intros m. constructor.
    + intros n Hn IH m. rewrite seqZ_cons by lia.
      replace (Z.pred (Z.succ n)) with n by lia.
      cbn [fmap list_fmap]. constructor; [apply IH|].
      apply Forall_fmap, Forall_forall. intros i Hi%elem_of_seqZ. simpl. nia.
  - intros m. rewrite seqZ_nil by lia. constructor.
Qed.

(** ** System-wide means *)

Section means.
Context {QId Id : Type} `{Countable QId} `{Countable Id}.
Implicit Types (resultFile groundtruth : dict QId (list Id)).

Lemma Qeq_of_eq (a b : Q) : a = b → (a == b)%Q.
Proof. by intros ->. Qed.

Lemma dict_values_entries max_k (l : list (ScoredQuery (QId:=QId) (Id:=Id))) :
  dict_values (entry max_k <$> l) = (λ s, query_record max_k s.1.2 s.2) <$> l.
Proof. unfold dict_values. rewrite <- list_fmap_compose. done. Qed.

Lemma report_means max_k k_range resultFile groundtruth report (j : nat) :
  calcMetrics_core max_k k_range resultFile groundtruth = Ok report →
  dict_wf resultFile →
  per_query_metrics report ≠ [] →
  (j < Z.to_nat max_k)%nat →
  ∃ p r m,
    sys_precision (system_metrics report) !! j = Some p
    ∧ sys_recall (system_metrics report) !! j = Some r
    ∧ sys_map (system_metrics report) !! j = Some m
    ∧ (p == mean_at precision (per_query_metrics report) j)%Q
    ∧ (r == mean_at recall (per_query_metrics report) j)%Q
    ∧ (m == mean_at ap (per_query_metrics report) j)%Q.
Proof.
  intros (_ & _ & Hpq & Hagg & _)%calcMetrics_core_Ok Hwf Hne Hj.
  rewrite Hpq in Hne |- *. unfold aggregate in Hagg.
  rewrite decide_True in Hagg.
  2:{ unfold py_len. destruct (records max_k resultFile groundtruth); [done|].
      cbn [length]. lia. }
  injection Hagg as -> -> -> _.
  destruct (lookup_precision_sums max_k resultFile groundtruth j Hj) as (x & Hx & Hxeq).
  destruct (lookup_recall_sums max_k resultFile groundtruth j Hj) as (y & Hy & Hyeq).
  unfold np_idiv. rewrite !list_lookup_fmap, Hx, Hy.
  rewrite (lookup_np_mean_axis0 _ (Z.to_nat max_k)); [| |apply records_ap_rows|done].
  2:{ unfold dict_values. by destruct (records max_k resultFile groundtruth). }
  eexists _, _, _. do 3 (split; [done|]).
  unfold mean_at. rewrite records_entries, dict_values_entries by done.
  rewrite <- !list_fmap_compose. unfold py_len. rewrite ?length_fmap.
  split; [|split].
  - rewrite Hxeq. apply Qeq_of_eq. do 2 f_equal.
    apply list_fmap_ext. intros _ s _. unfold compose, precision_of.
    by rewrite query_record_precision.
  - rewrite Hyeq. apply Qeq_of_eq. do 2 f_equal.
    apply list_fmap_ext. intros _ s _. unfold compose, recall_of.
    by rewrite query_record_recall.
  - reflexivity.
Qed.

End means.

(** * Lemmas on the store *)

(** ** Objects that a computation leaves alone *)

Section store_frame_rules.
Context {QId Id : Type} `{Countable QId} `{Countable Id}.
Import Store.
Implicit Types (hD h : gmap loc (obj (QId:=QId) (Id:=Id))).

Lemma keeps_ret {A : Type} hD (a : A) (Q : A → Prop) : Q a → keeps hD (ret a) Q.
Proof. intros HQ h Hh. split; [done|]. by intros a' [= <-]. Qed.

Lemma keeps_lift {A : Type} hD (r : result A) (Q : A → Prop) :
  (∀ a, r = Ok a → Q a) → keeps hD (lift r) Q.
Proof. intros HQ h Hh. by split. Qed.

Lemma keeps_bind {A B : Type} hD (m : M A) (f : A → M B)
    (Q : A → Prop) (R : B → Prop) :
  keeps hD m Q → (∀ a, Q a → keeps hD (f a) R) → keeps hD (m ≫= f) R.
Proof.
  intros Hm Hf h Hh. unfold mbind, store_bind, bind.
  destruct (Hm h Hh) as [Hkeep HQ].
  destruct (m h) as [[a|e] h'] eqn:Hrun; cbn [fst snd] in *.
  - apply (Hf a); [by apply HQ | done].
  - by split.
Qed.

Lemma keeps_weaken {A : Type} hD (m : M A) (Q Q' : A → Prop) :
  keeps hD m Q → (∀ a, Q a → Q' a) → keeps hD m Q'.
Proof.
  intros Hm HQ h Hh. destruct (Hm h Hh) as [Hkeep Hpost].
  split; [done|]. intros a Ha. by apply HQ, Hpost.
Qed.

Lemma keeps_alloc hD (o : obj) : keeps hD (alloc o) (λ l, hD !! l = None).
Proof.
  intros h Hh. unfold alloc. cbn [fst snd].
  assert (h !! fresh (dom (D:=gset loc) h) = None) as Hfresh
    by (apply not_elem_of_dom, is_fresh).
  assert (hD !! fresh (dom (D:=gset loc) h) = None) as HD.
  { destruct (hD !! fresh (dom (D:=gset loc) h)) as [o'|] eqn:Ho; [|done].
    eapply lookup_weaken in Ho; [|exact Hh]. congruence. }
  split.
  - by apply insert_subseteq_r.
  - by intros l [= <-].
Qed.

Lemma keeps_read hD (l : loc) :
  keeps hD (read l) (λ o, ∀ o', hD !! l = Some o' → o = o').
Proof.
  intros h Hh. unfold read.
  destruct (h !! l) as [o|] eqn:Ho; cbn [fst snd]; (split; [done|]); [|done].
  intros a [= <-] o' Ho'. eapply lookup_weaken in Ho'; [|exact Hh]. congruence.
Qed.

Lemma keeps_write hD (l : loc) (o : obj) :
  hD !! l = None → keeps hD (write l o) (λ _, True).
Proof.
  intros Hl h Hh. unfold write. cbn [fst snd].
  split; [by apply insert_subseteq_r | done].
Qed.

Lemma keeps_for_each {A S : Type} hD (l : list A) (body : S → A → M S)
    (I : S → Prop) :
  (∀ s a, a ∈ l → I s → keeps hD (body s a) I) →
  ∀ s, I s → keeps hD (for_each_in_store l body s) I.
Proof.
  induction l as [|a l IH]; intros Hbody s Hs; cbn [for_each_in_store].
  - by apply keeps_ret.
  - apply (keeps_bind hD _ _ I I).
    + apply Hbody; [by left | done].
    + intros s' Hs'. apply IH; [|done].
      intros s'' a' Ha'. apply Hbody. by right.
Qed.

Lemma keeps_read_ids hD (l : loc) : keeps hD (read_ids l) (λ _, True).
Proof.
  apply (keeps_bind hD _ _ (λ _, True)).
  - eapply keeps_weaken; [apply keeps_read | done].
  - intros [] _; by (apply keeps_ret || apply keeps_lift).
Qed.

Lemma keeps_read_floats hD (l : loc) : keeps hD (read_floats l) (λ _, True).
Proof.
  apply (keeps_bind hD _ _ (λ _, True)).
  - eapply keeps_weaken; [apply keeps_read | done].
  - intros [] _; by (apply keeps_ret || apply keeps_lift).
Qed.

Lemma keeps_read_array hD (l : loc) : keeps hD (read_array l) (λ _, True).
Proof.
  apply (keeps_bind hD _ _ (λ _, True)).
  - eapply keeps_weaken; [apply keeps_read | done].
  - intros [] _; by (apply keeps_ret || apply keeps_lift).
Qed.

(** Reading a dictionary that [hD] holds returns its entries. *)
Lemma keeps_read_dict hD (l : loc) :
  keeps hD (read_dict l)
    (λ entries, ∀ entries', hD !! l = Some (PyDict entries') → entries = entries').
Proof.
  eapply keeps_bind; [apply keeps_read|].
  intros o Ho. destruct o as [items|items|cells|entries];
    try (apply keeps_lift; by intros).
  apply keeps_ret. intros entries' Hl. apply Ho in Hl. by injection Hl.
Qed.

Lemma keeps_append hD (l : loc) (x : Q) :
  hD !! l = None → keeps hD (append l x) (λ _, True).
Proof.
  intros Hl. eapply keeps_bind; [apply keeps_read_floats|].
  intros items _. by apply keeps_write.
Qed.

Lemma keeps_np_iadd_at_in_place hD (arr : loc) (i : Z) (v : Q) :
  hD !! arr = None → keeps hD (np_iadd_at_in_place arr i v) (λ _, True).
Proof.
  intros Hl. eapply keeps_bind; [apply keeps_read_array|].
  intros cells _. apply (keeps_bind hD _ _ (λ _, True)); [by apply keeps_lift|].
  intros cells' _. by apply keeps_write.
Qed.

Lemma keeps_np_idiv_in_place hD (arr : loc) (n : Z) :
  hD !! arr = None → keeps hD (np_idiv_in_place arr n) (λ _, True).
Proof.
  intros Hl. eapply keeps_bind; [apply keeps_read_array|].
  intros cells _. by apply keeps_write.
Qed.

(** One iteration over [k] writes to the three curves of the query and to
    the two running sums only. *)
Lemma keeps_k_body hD results gt_set total_relevant qm sp sr u k :
  hD !! precision qm = None → hD !! recall qm = None → hD !! ap qm = None →
  hD !! sp = None → hD !! sr = None →
  keeps hD (k_body results gt_set total_relevant qm sp sr u k) (λ _, True).
Proof.
  intros Hp Hr Ha Hsp Hsr. unfold k_body.
  eapply keeps_bind; [apply keeps_read_ids|]. intros items _. cbv zeta.
  apply (keeps_bind hD _ _ (λ _, True)); [by apply keeps_lift|]. intros precision_k _.
  apply (keeps_bind hD _ _ (λ _, True)); [by apply keeps_lift|]. intros recall_k _.
  eapply keeps_bind; [by apply keeps_append|]. intros _ _.
  eapply keeps_bind; [by apply keeps_append|]. intros _ _.
  eapply keeps_bind; [by apply keeps_np_iadd_at_in_place|]. intros _ _.
  eapply keeps_bind; [by apply keeps_np_iadd_at_in_place|]. intros _ _.
  apply (keeps_bind hD _ _ (λ _, True)); [by apply keeps_lift|]. intros ranks _.
  apply (keeps_bind hD _ _ (λ _, True)); [by apply keeps_lift|]. intros walk _.
  apply (keeps_bind hD _ _ (λ _, True)); [by apply keeps_lift|]. intros ap_k _.
  by apply keeps_append.
Qed.

Lemma keeps_query_body hD max_k groundtruth sp sr rf_entries per_query item :
  hD !! sp = None → hD !! sr = None →
  item ∈ rf_entries →
  aliases rf_entries hD groundtruth per_query →
  keeps hD (query_body max_k groundtruth sp sr per_query item)
    (aliases rf_entries hD groundtruth).
Proof.
  intros Hsp Hsr Hitem Hpq. destruct item as [query_id results]. unfold query_body.
  eapply keeps_bind; [apply keeps_read_dict|]. intros gt_entries Hgt.
  destruct (dict_get gt_entries query_id) as [gt|] eqn:Hget; [|by apply keeps_ret].
  eapply keeps_bind; [apply keeps_alloc|]. intros p Hp.
  eapply keeps_bind; [apply keeps_alloc|]. intros r Hr.
  eapply keeps_bind; [apply keeps_alloc|]. intros a Ha. cbv zeta.
  eapply keeps_bind; [apply keeps_read_ids|]. intros gt_items _.
  apply (keeps_bind hD _ _ (λ _, True)); [by apply keeps_lift|]. intros ks _.
  apply (keeps_bind hD _ _ (λ _, True)).
  - apply keeps_for_each; [|done]. intros u k _ _. by apply keeps_k_body.
  - intros _ _. apply keeps_ret. intros q qm. rewrite dict_get_set.
    case_decide as Hq; [|by apply Hpq].
    intros [= <-]. subst q. cbn [candidates ground_truth]. split; [done|].
    intros gt_entries' Hgt'. apply Hgt in Hgt'. by subst.
Qed.

Lemma keeps_ap_rows hD per_query : keeps hD (ap_rows per_query) (λ _, True).
Proof.
  unfold ap_rows. apply keeps_for_each; [|done].
  intros rows qm _ _. eapply keeps_bind; [apply keeps_read_floats|].
  intros row _. by apply keeps_ret.
Qed.

Lemma keeps_aggregate hD per_query sp sr sm sf :
  hD !! sp = None → hD !! sr = None →
  keeps hD (aggregate per_query sp sr sm sf) (λ _, True).
Proof.
  intros Hsp Hsr. unfold aggregate. case_decide; [|by apply keeps_ret].
  eapply keeps_bind; [by apply keeps_np_idiv_in_place|]. intros _ _.
  eapply keeps_bind; [by apply keeps_np_idiv_in_place|]. intros _ _.
  eapply keeps_bind; [apply keeps_ap_rows|]. intros rows _.
  eapply keeps_bind; [apply keeps_alloc|]. intros m _.
  eapply keeps_bind; [apply keeps_read_array|]. intros p _.
  eapply keeps_bind; [apply keeps_read_array|]. intros r _.
  eapply keeps_bind; [apply keeps_alloc|]. intros f _.
  by apply keeps_ret.
Qed.

(** The computation changes no object that was there before it, and its
    per-query records alias the list objects of the two mappings. *)
Lemma keeps_calcMetrics_core hD max_k k_range resultFile groundtruth :
  keeps hD (calcMetrics_core max_k k_range resultFile groundtruth)
    (λ report, ∀ rf_entries, hD !! resultFile = Some (PyDict rf_entries) →
       aliases rf_entries hD groundtruth (per_query_metrics report)).
Proof.
  unfold calcMetrics_core.
  apply (keeps_bind hD _ _ (λ _, True)); [by apply keeps_lift|]. intros zeros _.
  eapply keeps_bind; [apply keeps_alloc|]. intros sp Hsp.
  eapply keeps_bind; [apply keeps_alloc|]. intros sr Hsr.
  eapply keeps_bind; [apply keeps_alloc|]. intros sm _.
  eapply keeps_bind; [apply keeps_alloc|]. intros sf _.
  eapply keeps_bind; [apply keeps_read_dict|]. intros items Hitems.
  apply (keeps_bind hD _ _ (aliases items hD groundtruth)).
  - apply keeps_for_each; [|done].
    intros per_query item Hitem Hpq. by apply keeps_query_body.
  - intros per_query Hpq.
    eapply keeps_bind; [by apply keeps_aggregate|]. intros [sm' sf'] _.
    apply (keeps_bind hD _ _ (λ _, True)); [by apply keeps_lift|]. intros used _.
    eapply keeps_bind; [apply keeps_read_array|]. intros p _.
    eapply keeps_bind; [apply keeps_read_array|]. intros r _.
    eapply keeps_bind; [apply keeps_read_array|]. intros m _.
    eapply keeps_bind; [apply keeps_read_array|]. intros f _.
    apply (keeps_bind hD _ _ (λ _, True)); [by apply keeps_lift|]. intros at_k _.
    apply keeps_ret. cbn [per_query_metrics].
    intros rf_entries Hrf. apply Hitems in Hrf. by subst.
Qed.

(** ** Loading the ground truth *)

Lemma holds_weaken h h' entries dictionary :
  h ⊆ h' → holds h entries dictionary → holds h' entries dictionary.
Proof.
  intros Hsub Hh. eapply Forall2_impl; [exact Hh|].
  intros e d [Hk Hl]. split; [done|]. by eapply lookup_weaken.
Qed.

Lemma load_entries_spec (dictionary : dict QId (list Id)) : ∀ acc h,
  ∃ new,
    (for_each_in_store dictionary load_entry acc h).1 = Ok (acc ++ new)
    ∧ h ⊆ (for_each_in_store dictionary load_entry acc h).2
    ∧ holds (for_each_in_store dictionary load_entry acc h).2 new dictionary.
Proof.
  induction dictionary as [|[q items] dictionary IH]; intros acc h.
  - exists []. cbn. rewrite app_nil_r. repeat split; [done|constructor].
  - cbn [for_each_in_store]. unfold bind, load_entry at 1.
    unfold mbind, store_bind, bind, alloc, ret. cbn [fst snd].
    set (l := fresh (dom (D:=gset loc) h)).
    assert (h !! l = None) as Hfresh by (apply not_elem_of_dom, is_fresh).
    destruct (IH (acc ++ [(q, l)]) (<[l := PyList items]> h))
      as (new & Hres & Hsub & Hholds).
    exists ((q, l) :: new). split; [|split].
    + rewrite Hres. by rewrite <- app_assoc.
    + etrans; [|exact Hsub]. by apply insert_subseteq.
    + constructor; [|done]. split; [done|]. cbn [fst snd].
      eapply lookup_weaken; [|exact Hsub]. apply lookup_insert_eq.
Qed.

End store_frame_rules.

(** ** The store and the caller *)

Section store_frame.
Context {QId Id : Type} `{Countable QId} `{Countable Id}.
Implicit Types (h : gmap Store.loc (Store.obj (QId:=QId) (Id:=Id))).
Implicit Types (w : World (QId:=QId) (Id:=Id)).

(** Loading allocates the dictionary of the file and changes no object. *)
Lemma load_spec gtPath w h :
  h ⊆ (Store.loadDictionaryFromPickleFile gtPath w h).2
  ∧ match loadDictionaryFromPickleFile gtPath w with
    | Raise e => (Store.loadDictionaryFromPickleFile gtPath w h).1 = Raise e
    | Ok dictionary =>
        ∃ l entries,
          (Store.loadDictionaryFromPickleFile gtPath w h).1 = Ok l
          ∧ (Store.loadDictionaryFromPickleFile gtPath w h).2 !! l
            = Some (Store.PyDict entries)
          ∧ Store.holds (Store.loadDictionaryFromPickleFile gtPath w h).2
              entries dictionary
    end.
Proof.
  unfold Store.loadDictionaryFromPickleFile.
  unfold mbind, Store.store_bind, Store.bind, Store.lift.
  destruct (loadDictionaryFromPickleFile gtPath w) as [dictionary|e]; [|done].
  destruct (load_entries_spec dictionary [] h) as (new & Hres & Hsub & Hholds).
  destruct (Store.for_each_in_store dictionary Store.load_entry [] h) as [r h1].
  cbn [fst snd] in *. subst r. cbn [app].
  unfold Store.alloc. cbn [fst snd].
  set (l := fresh (dom (D:=gset Store.loc) h1)).
  assert (h1 !! l = None) as Hfresh by (apply not_elem_of_dom, is_fresh).
  split.
  - etrans; [exact Hsub|]. by apply insert_subseteq.
  - exists l, new. split; [done|]. split; [apply lookup_insert_eq|].
    eapply holds_weaken; [|exact Hholds]. by apply insert_subseteq.
Qed.

Lemma log_metrics_pickles (sm : SystemMetrics) w :
  pickles (log_metrics sm w).2 = pickles w.
Proof.
  unfold log_metrics, log_last.
  destruct (py_getitem (sys_map sm) (-1)); [|done].
  destruct (py_getitem (sys_precision sm) (-1)); [|done].
  destruct (py_getitem (sys_recall sm) (-1)); [|done].
  by destruct (py_getitem (sys_f1 sm) (-1)).
Qed.

(** A call of [calcMetrics] changes no object that existed before it and
    no pickle file; the ground truth it loaded is intact when it returns,
    and every per-query record refers to the candidate list that the
    results mapping holds for the query and to the list that the ground
    truth holds for it. *)
Lemma calcMetrics_frame max_k k_range (resultFile : Store.loc)
    gtPath resPath record verbose w h r w' h' :
  Store.calcMetrics max_k k_range resultFile gtPath resPath record verbose w h
    = (r, w', h') →
  h ⊆ h'
  ∧ pickles w' = pickles w
  ∧ ∀ report, r = Ok report →
      ∃ dictionary groundtruth gt_entries,
        loadDictionaryFromPickleFile gtPath w = Ok dictionary
        ∧ h' !! groundtruth = Some (Store.PyDict gt_entries)
        ∧ Store.holds h' gt_entries dictionary
        ∧ ∀ rf_entries, h !! resultFile = Some (Store.PyDict rf_entries) →
            ∀ q qm, dict_get (Store.per_query_metrics report) q = Some qm →
              (q, Store.candidates qm) ∈ rf_entries
              ∧ dict_get gt_entries q = Some (Store.ground_truth qm).
Proof.
  unfold Store.calcMetrics. unfold mbind at 1, Store.store_bind, Store.bind.
  destruct (load_spec gtPath w h) as [Hsub1 Hload].
  destruct (Store.loadDictionaryFromPickleFile gtPath w h) as [rl h1].
  cbn [fst snd] in *.
  destruct (loadDictionaryFromPickleFile gtPath w) as [dictionary|e].
  - destruct Hload as (groundtruth & gt_entries & -> & Hgt & Hholds).
    destruct (keeps_calcMetrics_core h1 max_k k_range resultFile groundtruth
                h1 ltac:(done)) as [Hsub2 Hpost].
    destruct (Store.calcMetrics_core max_k k_range resultFile groundtruth h1)
      as [[report|e] h2]; cbn [fst snd] in *.
    + assert (h ⊆ h2) as Hsub by (by etrans).
      assert (∀ report', Ok report = Ok report' →
        ∃ dictionary' groundtruth' gt_entries',
          Ok dictionary = Ok dictionary'
          ∧ h2 !! groundtruth' = Some (Store.PyDict gt_entries')
          ∧ Store.holds h2 gt_entries' dictionary'
          ∧ ∀ rf_entries, h !! resultFile = Some (Store.PyDict rf_entries) →
              ∀ q qm, dict_get (Store.per_query_metrics report') q = Some qm →
                (q, Store.candidates qm) ∈ rf_entries
                ∧ dict_get gt_entries' q = Some (Store.ground_truth qm)) as Hrep.
      { intros report' [= <-]. exists dictionary, groundtruth, gt_entries.
        split; [done|]. split; [eapply lookup_weaken; [exact Hgt|exact Hsub2]|].
        split; [eapply holds_weaken; [exact Hsub2|exact Hholds]|].
        intros rf_entries Hrf q qm Hqm.
        eapply lookup_weaken in Hrf; [|exact Hsub1].
        destruct (Hpost report eq_refl rf_entries Hrf q qm Hqm) as [Hc Hg].
        split; [done|]. by apply Hg. }
      destruct record.
      * pose proof (log_metrics_pickles (Store.system_metrics report) w) as Hlog.
        destruct (log_metrics (Store.system_metrics report) w) as [[u|e] w1].
        -- intros [= <- <- <-]. done.
        -- intros [= <- <- <-]. split; [done|]. split; [done|]. by intros.
      * intros [= <- <- <-]. done.
    + intros [= <- <- <-]. split; [by etrans|]. split; [done|]. by intros.
  - rewrite Hload. intros [= <- <- <-]. split; [done|]. split; [done|]. by intros.
Qed.

End store_frame.

(** On the worked example, the report read back from the store is the
    report computed on values. *)
Example store_agrees_on_example :
  (report ← match example_call.1.1 with Ok r => Some r | Raise _ => None end;
   deref_report example_call.2 report)
  = match (calcMetrics 3 1 example_results (Some "gt.pickle") None true false
             (world_with example_groundtruth)).1 with
    | Ok r => Some r
    | Raise _ => None
    end.
Proof. vm_compute. reflexivity. Qed.

(** ** The store embedding computes what the value embedding computes *)

Section store_steps.
Context {QId Id : Type} `{Countable QId} `{Countable Id}.
Implicit Types (h : gmap Store.loc (Store.obj (QId:=QId) (Id:=Id))).

Lemma bind_run {A B : Type} (m : Store.M A) (f : A → Store.M B) h :
  (m ≫= f) h =
    match m h with
    | (Ok a, h') => f a h'
    | (Raise e, h') => (Raise e, h')
    end.
Proof. done. Qed.

Lemma read_ids_run h (l : Store.loc) (items : list Id) :
  h !! l = Some (Store.PyList items) → Store.read_ids l h = (Ok items, h).
Proof. intros Hl. unfold Store.read_ids, Store.bind, Store.read. by rewrite Hl. Qed.

Lemma read_floats_run h (l : Store.loc) (items : list Q) :
  h !! l = Some (Store.PyFloats items) → Store.read_floats l h = (Ok items, h).
Proof. intros Hl. unfold Store.read_floats, Store.bind, Store.read. by rewrite Hl. Qed.

Lemma read_array_run h (l : Store.loc) (cells : list Q) :
  h !! l = Some (Store.NpArray cells) → Store.read_array l h = (Ok cells, h).
Proof. intros Hl. unfold Store.read_array, Store.bind, Store.read. by rewrite Hl. Qed.

Lemma read_dict_run h (l : Store.loc) (entries : dict QId Store.loc) :
  h !! l = Some (Store.PyDict entries) → Store.read_dict l h = (Ok entries, h).
Proof. intros Hl. unfold Store.read_dict, Store.bind, Store.read. by rewrite Hl. Qed.

Lemma append_run h (l : Store.loc) (items : list Q) (x : Q) :
  h !! l = Some (Store.PyFloats items) →
  Store.append l x h = (Ok (), <[l := Store.PyFloats (items ++ [x])]> h).
Proof.
  intros Hl. unfold Store.append, Store.bind. by rewrite (read_floats_run _ _ _ Hl).
Qed.

Lemma np_iadd_at_in_place_run h (arr : Store.loc) (cells : list Q) (i : Z) (v : Q) :
  h !! arr = Some (Store.NpArray cells) →
  Store.np_iadd_at_in_place arr i v h =
    match np_iadd_at cells i v with
    | Ok cells' => (Ok (), <[arr := Store.NpArray cells']> h)
    | Raise e => (Raise e, h)
    end.
Proof.
  intros Hl. unfold Store.np_iadd_at_in_place, Store.bind, Store.lift.
  rewrite (read_array_run _ _ _ Hl). by destruct (np_iadd_at cells i v).
Qed.

Lemma np_idiv_in_place_run h (arr : Store.loc) (cells : list Q) (n : Z) :
  h !! arr = Some (Store.NpArray cells) →
  Store.np_idiv_in_place arr n h
  = (Ok (), <[arr := Store.NpArray (np_idiv cells n)]> h).
Proof.
  intros Hl. unfold Store.np_idiv_in_place, Store.bind.
  by rewrite (read_array_run _ _ _ Hl).
Qed.

Lemma bind_lift_run {A B : Type} (r : result A) (f : A → Store.M B) h :
  (Store.lift r ≫= f) h =
    match r with Ok a => f a h | Raise e => (Raise e, h) end.
Proof. rewrite bind_run. unfold Store.lift. by destruct r. Qed.

Lemma bind_read_ids_run {B : Type} h (l : Store.loc) (items : list Id)
    (f : list Id → Store.M B) :
  h !! l = Some (Store.PyList items) → (Store.read_ids l ≫= f) h = f items h.
Proof. intros Hl. by rewrite bind_run, (read_ids_run _ _ _ Hl). Qed.

Lemma bind_read_floats_run {B : Type} h (l : Store.loc) (items : list Q)
    (f : list Q → Store.M B) :
  h !! l = Some (Store.PyFloats items) → (Store.read_floats l ≫= f) h = f items h.
Proof. intros Hl. by rewrite bind_run, (read_floats_run _ _ _ Hl). Qed.

Lemma bind_read_array_run {B : Type} h (l : Store.loc) (cells : list Q)
    (f : list Q → Store.M B) :
  h !! l = Some (Store.NpArray cells) → (Store.read_array l ≫= f) h = f cells h.
Proof. intros Hl. by rewrite bind_run, (read_array_run _ _ _ Hl). Qed.

Lemma bind_read_dict_run {B : Type} h (l : Store.loc) (entries : dict QId Store.loc)
    (f : dict QId Store.loc → Store.M B) :
  h !! l = Some (Store.PyDict entries) → (Store.read_dict l ≫= f) h = f entries h.
Proof. intros Hl. by rewrite bind_run, (read_dict_run _ _ _ Hl). Qed.

Lemma bind_append_run {B : Type} h (l : Store.loc) (items : list Q) (x : Q)
    (f : () → Store.M B) :
  h !! l = Some (Store.PyFloats items) →
  (Store.append l x ≫= f) h = f () (<[l := Store.PyFloats (items ++ [x])]> h).
Proof. intros Hl. by rewrite bind_run, (append_run _ _ _ _ Hl). Qed.

Lemma bind_np_iadd_at_in_place_run {B : Type} h (arr : Store.loc) (cells : list Q)
    (i : Z) (v : Q) (f : () → Store.M B) :
  h !! arr = Some (Store.NpArray cells) →
  (Store.np_iadd_at_in_place arr i v ≫= f) h =
    match np_iadd_at cells i v with
    | Ok cells' => f () (<[arr := Store.NpArray cells']> h)
    | Raise e => (Raise e, h)
    end.
Proof.
  intros Hl. rewrite bind_run, (np_iadd_at_in_place_run _ _ _ _ _ Hl).
  by destruct (np_iadd_at cells i v).
Qed.

Lemma bind_np_idiv_in_place_run {B : Type} h (arr : Store.loc) (cells : list Q)
    (n : Z) (f : () → Store.M B) :
  h !! arr = Some (Store.NpArray cells) →
  (Store.np_idiv_in_place arr n ≫= f) h
  = f () (<[arr := Store.NpArray (np_idiv cells n)]> h).
Proof. intros Hl. by rewrite bind_run, (np_idiv_in_place_run _ _ _ _ Hl). Qed.

Lemma bind_alloc_run {B : Type} h (o : Store.obj) (f : Store.loc → Store.M B) :
  (Store.alloc o ≫= f) h
  = f (fresh (dom (D:=gset Store.loc) h)) (<[fresh (dom (D:=gset Store.loc) h) := o]> h).
Proof. done. Qed.

Lemma separate_ne qm sp sr :
  separate qm sp sr →
  Store.precision qm ≠ Store.recall qm ∧ Store.precision qm ≠ Store.ap qm
  ∧ Store.precision qm ≠ sp ∧ Store.precision qm ≠ sr
  ∧ Store.recall qm ≠ Store.ap qm ∧ Store.recall qm ≠ sp ∧ Store.recall qm ≠ sr
  ∧ Store.ap qm ≠ sp ∧ Store.ap qm ≠ sr ∧ sp ≠ sr.
Proof.
  unfold separate. rewrite !NoDup_cons, !not_elem_of_cons. intuition congruence.
Qed.

(** One iteration over [k] on the store does what it does on values. *)
Lemma k_body_refines h results qm sp sr results_v gt_set total_relevant st k :
  separate qm sp sr →
  scoring h results qm sp sr results_v st →
  match k_body results_v gt_set total_relevant st k with
  | Ok st' =>
      ∃ h', Store.k_body results gt_set total_relevant qm sp sr () k h = (Ok (), h')
          ∧ scoring h' results qm sp sr results_v st'
  | Raise e =>
      ∃ h', Store.k_body results gt_set total_relevant qm sp sr () k h = (Raise e, h')
  end.
Proof.
  intros (Hpr & Hpa & Hpsp & Hpsr & Hra & Hrsp & Hrsr & Hasp & Hasr & Hspsr)%separate_ne
         (Hres & Hp & Hr & Ha & Hsp & Hsr).
  destruct st as [[qm_v spv] srv]. cbn [fst snd] in *.
  assert (results ≠ Store.precision qm ∧ results ≠ Store.recall qm
          ∧ results ≠ Store.ap qm ∧ results ≠ sp ∧ results ≠ sr)
    as (Hxp & Hxr & Hxa & Hxsp & Hxsr)
    by (repeat split; intros Heq; rewrite Heq in Hres; congruence).
  unfold k_body, Store.k_body. cbv zeta.
  rewrite (bind_read_ids_run _ _ _ _ Hres).
  rewrite bind_lift_run.
  match goal with |- context [mbind _ ?r] =>
    match type of r with result Q => destruct r as [precision_k|e] end end;
    cbn [mbind result_bind]; [|by eexists].
  rewrite bind_lift_run.
  match goal with |- context [mbind _ ?r] =>
    match type of r with result Q => destruct r as [recall_k|e] end end;
    cbn [mbind result_bind]; [|by eexists].
  rewrite (bind_append_run _ _ _ _ _ Hp).
  erewrite bind_append_run by (by rewrite lookup_insert_ne).
  erewrite bind_np_iadd_at_in_place_run by (by rewrite !lookup_insert_ne).
  destruct (np_iadd_at spv (k - 1) precision_k) as [spv'|e];
    cbn [mbind result_bind]; [|by eexists].
  erewrite bind_np_iadd_at_in_place_run by (by rewrite !lookup_insert_ne).
  destruct (np_iadd_at srv (k - 1) recall_k) as [srv'|e];
    cbn [mbind result_bind]; [|by eexists].
  rewrite bind_lift_run.
  destruct (py_range 1 (k + 1) 1) as [ranks0|e]; cbn [mbind result_bind]; [|by eexists].
  rewrite bind_lift_run.
  destruct (for_each ranks0 _ _) as [[ap_k c]|e]; cbn [mbind result_bind fst];
    [|by eexists].
  rewrite bind_lift_run.
  destruct (py_fdiv ap_k _) as [ap_k'|e]; cbn [mbind result_bind]; [|by eexists].
  erewrite append_run by (by rewrite !lookup_insert_ne).
  eexists. split; [done|].
  unfold scoring. cbn [fst snd append_ap append_recall append_precision precision recall ap].
  repeat split.
  - by rewrite !lookup_insert_ne.
  - rewrite !lookup_insert_ne by done. apply lookup_insert_eq.
  - rewrite !lookup_insert_ne by done. apply lookup_insert_eq.
  - apply lookup_insert_eq.
  - rewrite !lookup_insert_ne by done. apply lookup_insert_eq.
  - rewrite !lookup_insert_ne by done. apply lookup_insert_eq.
Qed.

(** The loop over [k] leaves the ['candidates'] and ['ground_truth']
    entries of the record alone. *)
Lemma k_body_fields (results_v : list Id) gt_set total_relevant st k st' :
  k_body results_v gt_set total_relevant st k = Ok st' →
  candidates st'.1.1 = candidates st.1.1
  ∧ ground_truth st'.1.1 = ground_truth st.1.1.
Proof.
  destruct st as [[qm_v spv] srv]. unfold k_body. cbv zeta.
  repeat (match goal with |- context [mbind _ ?r] => destruct r as [?|?] end;
          cbn [mbind result_bind]; try done).
  match goal with |- context [let '(_, _) := ?x in _] => destruct x end.
  repeat (match goal with |- context [mbind _ ?r] => destruct r as [?|?] end;
          cbn [mbind result_bind]; try done).
  by intros [= <-].
Qed.

Lemma k_loop_fields (results_v : list Id) gt_set total_relevant ks : ∀ st st',
  for_each ks (k_body results_v gt_set total_relevant) st = Ok st' →
  candidates st'.1.1 = candidates st.1.1
  ∧ ground_truth st'.1.1 = ground_truth st.1.1.
Proof.
  induction ks as [|k ks IH]; intros st st'; cbn [for_each].
  - by intros [= <-].
  - destruct (k_body results_v gt_set total_relevant st k) as [st1|] eqn:Hk; [|done].
    intros Hrest. apply IH in Hrest as [Hc Hg].
    apply k_body_fields in Hk as [Hc' Hg']. split; congruence.
Qed.

Lemma k_loop_refines results qm sp sr results_v gt_set total_relevant ks :
  separate qm sp sr → ∀ h st,
  scoring h results qm sp sr results_v st →
  match for_each ks (k_body results_v gt_set total_relevant) st with
  | Ok st' =>
      ∃ h', Store.for_each_in_store ks
              (Store.k_body results gt_set total_relevant qm sp sr) () h = (Ok (), h')
          ∧ scoring h' results qm sp sr results_v st'
  | Raise e =>
      ∃ h', Store.for_each_in_store ks
              (Store.k_body results gt_set total_relevant qm sp sr) () h = (Raise e, h')
  end.
Proof.
  intros Hsep. induction ks as [|k ks IH]; intros h st Hst.
  - cbn. by exists h.
  - cbn [for_each Store.for_each_in_store]. unfold Store.bind.
    pose proof (k_body_refines h results qm sp sr results_v gt_set total_relevant
                  st k Hsep Hst) as Hstep.
    destruct (k_body results_v gt_set total_relevant st k) as [st'|e].
    + destruct Hstep as (h' & -> & Hst'). by apply IH.
    + destruct Hstep as (h' & ->). by exists h'.
Qed.

(** A dictionary object and the dictionary of values it stands for answer
    lookups alike. *)
Lemma holds_dict_get h (entries : dict QId Store.loc) (dictionary : dict QId (list Id)) q :
  Store.holds h entries dictionary →
  match dict_get dictionary q with
  | Some items => ∃ l, dict_get entries q = Some l ∧ h !! l = Some (Store.PyList items)
  | None => dict_get entries q = None
  end.
Proof.
  induction 1 as [|[q1 l1] [q2 items2] entries dictionary [Hk Hl] _ IH]; [done|].
  cbn [fst snd] in Hk, Hl. subst q2. cbn [dict_get].
  destruct (decide (q1 = q)); [by exists l1 | done].
Qed.

(** Scoring a query writes to the two running sums and to objects it
    allocates. *)
Lemma query_body_frame (hD : gmap Store.loc (Store.obj (QId:=QId) (Id:=Id)))
    max_k groundtruth sp sr
    (pqs : dict QId Store.QueryMetrics) (item : QId * Store.loc) :
  hD !! sp = None → hD !! sr = None →
  Store.keeps hD (Store.query_body max_k groundtruth sp sr pqs item) (λ _, True).
Proof.
  intros Hsp Hsr. destruct item as [query_id results]. unfold Store.query_body.
  eapply keeps_bind; [apply keeps_read_dict|]. intros gt_entries _.
  destruct (dict_get gt_entries query_id) as [gt|]; [|by apply keeps_ret].
  eapply keeps_bind; [apply keeps_alloc|]. intros p Hp.
  eapply keeps_bind; [apply keeps_alloc|]. intros r Hr.
  eapply keeps_bind; [apply keeps_alloc|]. intros a Ha. cbv zeta.
  eapply keeps_bind; [apply keeps_read_ids|]. intros gt_items _.
  apply (keeps_bind hD _ _ (λ _, True)); [by apply keeps_lift|]. intros ks _.
  apply (keeps_bind hD _ _ (λ _, True)).
  - apply keeps_for_each; [|done]. intros u k _ _. by apply keeps_k_body.
  - intros _ _. by apply keeps_ret.
Qed.

(** What is neither of the two running sums survives the scoring of a
    query. *)
Lemma query_body_others h max_k groundtruth sp sr
    (pqs : dict QId Store.QueryMetrics) (item : QId * Store.loc) l o :
  h !! l = Some o → l ≠ sp → l ≠ sr →
  (Store.query_body max_k groundtruth sp sr pqs item h).2 !! l = Some o.
Proof.
  intros Hl Hlsp Hlsr.
  destruct (query_body_frame (delete sp (delete sr h)) max_k groundtruth sp sr pqs item)
    with (h := h) as [Hsub _].
  - apply lookup_delete_eq.
  - destruct (decide (sp = sr)) as [->|Hne]; [apply lookup_delete_eq|].
    rewrite lookup_delete_ne by done. apply lookup_delete_eq.
  - transitivity (delete sr h); apply delete_subseteq.
  - eapply lookup_weaken; [|exact Hsub]. by rewrite !lookup_delete_ne.
Qed.

(** The three curves of a query under way are fresh lists; the record of
    the value embedding starts with empty curves too. *)
Lemma query_body_refines h max_k (groundtruth sp sr : Store.loc)
    (gt_entries : dict QId Store.loc) (groundtruth_v : dict QId (list Id))
    (pqs : dict QId Store.QueryMetrics) (pq : dict QId QueryMetrics)
    (spv srv : list Q) (q : QId) (results : Store.loc) (results_v : list Id) :
  h !! groundtruth = Some (Store.PyDict gt_entries) →
  Store.holds h gt_entries groundtruth_v →
  h !! results = Some (Store.PyList results_v) →
  h !! sp = Some (Store.NpArray spv) → h !! sr = Some (Store.NpArray srv) →
  sp ≠ sr →
  match query_body max_k groundtruth_v (pq, spv, srv) (q, results_v) with
  | Ok st' =>
      ∃ h' pqs',
        Store.query_body max_k groundtruth sp sr pqs (q, results) h = (Ok pqs', h')
        ∧ h' !! sp = Some (Store.NpArray st'.1.2)
        ∧ h' !! sr = Some (Store.NpArray st'.2)
        ∧ (pqs' = pqs ∧ st'.1.1 = pq
           ∨ ∃ qms qmv, pqs' = dict_set pqs q qms ∧ st'.1.1 = dict_set pq q qmv
                        ∧ deref_query h' qms = Some qmv)
  | Raise e =>
      ∃ h', Store.query_body max_k groundtruth sp sr pqs (q, results) h = (Raise e, h')
  end.
Proof.
  intros Hgt Hholds Hres Hsp Hsr Hne.
  pose proof (λ l o, query_body_others h max_k groundtruth sp sr pqs (q, results) l o)
    as Hothers.
  destruct (Store.query_body max_k groundtruth sp sr pqs (q, results) h)
    as [rs hs] eqn:Hrun.
  cbn [snd] in Hothers.
  unfold query_body. unfold Store.query_body in Hrun.
  rewrite (bind_read_dict_run _ _ _ _ Hgt) in Hrun.
  pose proof (holds_dict_get h gt_entries groundtruth_v q Hholds) as Hget.
  destruct (dict_get groundtruth_v q) as [gt_v|].
  2:{ rewrite Hget in Hrun. injection Hrun as <- <-.
      exists h, pqs. cbn [fst snd]. repeat split; [done..|by left]. }
  destruct Hget as (gt & Hget & Hgtl). rewrite Hget in Hrun.
  rewrite !bind_alloc_run in Hrun.
  set (p := fresh (dom (D:=gset Store.loc) h)) in *.
  set (h1 := <[p := Store.PyFloats []]> h) in *.
  set (r := fresh (dom (D:=gset Store.loc) h1)) in *.
  set (h2 := <[r := Store.PyFloats []]> h1) in *.
  set (a := fresh (dom (D:=gset Store.loc) h2)) in *.
  set (h3 := <[a := Store.PyFloats []]> h2) in *.
  assert (h !! p = None) as Hp by (apply not_elem_of_dom, is_fresh).
  assert (h1 !! r = None) as Hr by (apply not_elem_of_dom, is_fresh).
  assert (h2 !! a = None) as Ha by (apply not_elem_of_dom, is_fresh).
  assert (r ≠ p) as Hrp by (intros Heq; rewrite Heq in Hr; unfold h1 in Hr;
                             by rewrite lookup_insert_eq in Hr).
  assert (h !! r = None) as Hr0 by (unfold h1 in Hr; by rewrite lookup_insert_ne in Hr).
  assert (a ≠ r) as Har by (intros Heq; rewrite Heq in Ha; unfold h2 in Ha;
                             by rewrite lookup_insert_eq in Ha).
  assert (h1 !! a = None) as Ha1 by (unfold h2 in Ha; by rewrite lookup_insert_ne in Ha).
  assert (a ≠ p) as Hap by (intros Heq; rewrite Heq in Ha1; unfold h1 in Ha1;
                             by rewrite lookup_insert_eq in Ha1).
  assert (h !! a = None) as Ha0 by (unfold h1 in Ha1; by rewrite lookup_insert_ne in Ha1).
  assert (∀ l o, h !! l = Some o → h3 !! l = Some o) as Hold.
  { intros l o Hl. unfold h3, h2, h1.
    rewrite !lookup_insert_ne by congruence. done. }
  cbv zeta in Hrun.
  rewrite (bind_read_ids_run h3 gt gt_v) in Hrun by (by apply Hold).
  rewrite bind_lift_run in Hrun.
  destruct (py_range 1 (max_k + 1) 1) as [ks|e]; cbn [mbind result_bind].
  2:{ injection Hrun as <- <-. by eexists. }
  set (qms := {| Store.candidates := results; Store.ground_truth := gt;
                 Store.precision := p; Store.recall := r; Store.ap := a |}) in *.
  set (qm0 := {| candidates := results_v; ground_truth := gt_v;
                 precision := []; recall := []; ap := [] |}).
  assert (separate qms sp sr) as Hsep.
  { unfold separate, qms. cbn [Store.precision Store.recall Store.ap].
    rewrite !NoDup_cons, !not_elem_of_cons.
    repeat split; try congruence; try apply not_elem_of_nil. apply NoDup_nil_2. }
  assert (scoring h3 results qms sp sr results_v (qm0, spv, srv)) as Hst.
  { unfold scoring, qms, qm0.
    cbn [fst snd Store.precision Store.recall Store.ap precision recall ap].
    repeat split; try (by apply Hold).
    - unfold h3, h2, h1. rewrite !lookup_insert_ne by congruence. apply lookup_insert_eq.
    - unfold h3, h2. rewrite lookup_insert_ne by congruence. apply lookup_insert_eq.
    - apply lookup_insert_eq. }
  pose proof (k_loop_refines results qms sp sr results_v (list_to_set gt_v)
                (Z.of_nat (size (list_to_set gt_v : gset Id))) ks Hsep h3 _ Hst) as Hloop.
  rewrite bind_run in Hrun.
  destruct (for_each ks _ (qm0, spv, srv)) as [[[qm_v spv'] srv']|e] eqn:Hpure.
  - destruct (k_loop_fields _ _ _ _ _ _ Hpure) as [Hcand Hground].
    destruct Hloop as (h' & Hloop & (Hres' & Hp' & Hr' & Ha' & Hsp' & Hsr')).
    rewrite Hloop in Hrun. injection Hrun as <- <-.
    cbn [mbind result_bind fst snd] in *.
    exists h', (dict_set pqs q qms). repeat split; [done..|].
    right. exists qms, qm_v. repeat split.
    assert (h' !! gt = Some (Store.PyList gt_v)) as Hgt'.
    { apply Hothers; [done|congruence..]. }
    unfold deref_query. subst qms. cbn [Store.candidates Store.ground_truth
      Store.precision Store.recall Store.ap] in *.
    rewrite Hres', Hgt', Hp', Hr', Ha'. destruct qm_v. cbn in *. by subst.
  - destruct Hloop as (h' & Hloop). rewrite Hloop in Hrun.
    injection Hrun as <- <-. by exists h'.
Qed.

(** ** The loop over the queries *)

Lemma others_kept_trans h1 h2 h3 sp sr :
  others_kept h1 h2 sp sr → others_kept h2 h3 sp sr → others_kept h1 h3 sp sr.
Proof. intros H12 H23 l o Hl Hsp Hsr. apply H23; [|done..]. by apply H12. Qed.

Lemma represents_dict_set h pqs pq q qms qmv :
  represents h pqs pq → deref_query h qms = Some qmv →
  represents h (dict_set pqs q qms) (dict_set pq q qmv).
Proof.
  intros Hrep Hnew. induction Hrep as [|[q1 s1] [q2 v2] pqs pq [Hk Hd] Hrep IH].
  - constructor; [done|constructor].
  - cbn [fst snd] in Hk, Hd. subst q2. cbn [dict_set].
    destruct (decide (q1 = q)); constructor; done.
Qed.

Lemma deref_query_kept h h' sp sr spv srv qms qmv :
  others_kept h h' sp sr →
  h !! sp = Some (Store.NpArray spv) → h !! sr = Some (Store.NpArray srv) →
  deref_query h qms = Some qmv → deref_query h' qms = Some qmv.
Proof.
  intros Hkept Hsp Hsr. unfold deref_query.
  destruct (h !! Store.candidates qms) as [[c| | |]|] eqn:Hc; try done.
  destruct (h !! Store.ground_truth qms) as [[g| | |]|] eqn:Hg; try done.
  destruct (h !! Store.precision qms) as [[|p| |]|] eqn:Hp; try done.
  destruct (h !! Store.recall qms) as [[|r| |]|] eqn:Hr; try done.
  destruct (h !! Store.ap qms) as [[|a| |]|] eqn:Ha; try done.
  intros Hq.
  rewrite (Hkept _ _ Hc), (Hkept _ _ Hg), (Hkept _ _ Hp), (Hkept _ _ Hr), (Hkept _ _ Ha)
    by congruence.
  done.
Qed.

Lemma represents_kept h h' sp sr spv srv pqs pq :
  others_kept h h' sp sr →
  h !! sp = Some (Store.NpArray spv) → h !! sr = Some (Store.NpArray srv) →
  represents h pqs pq → represents h' pqs pq.
Proof.
  intros Hkept Hsp Hsr Hrep. eapply Forall2_impl; [exact Hrep|].
  intros es ev [Hk Hd]. split; [done|]. by eapply deref_query_kept.
Qed.

Lemma holds_kept h h' sp sr spv srv (entries : dict QId Store.loc)
    (dictionary : dict QId (list Id)) :
  others_kept h h' sp sr →
  h !! sp = Some (Store.NpArray spv) → h !! sr = Some (Store.NpArray srv) →
  Store.holds h entries dictionary → Store.holds h' entries dictionary.
Proof.
  intros Hkept Hsp Hsr Hholds. eapply Forall2_impl; [exact Hholds|].
  intros e d [Hk Hl]. split; [done|]. apply Hkept; [done|congruence..].
Qed.

Lemma query_loop_refines max_k (groundtruth sp sr : Store.loc)
    (gt_entries : dict QId Store.loc) (groundtruth_v : dict QId (list Id))
    (items : dict QId Store.loc) :
  sp ≠ sr → ∀ (items_v : dict QId (list Id)) h pqs pq spv srv,
  h !! groundtruth = Some (Store.PyDict gt_entries) →
  Store.holds h gt_entries groundtruth_v →
  Store.holds h items items_v →
  h !! sp = Some (Store.NpArray spv) → h !! sr = Some (Store.NpArray srv) →
  represents h pqs pq →
  match for_each items_v (query_body max_k groundtruth_v) (pq, spv, srv) with
  | Ok st' =>
      ∃ h' pqs',
        Store.for_each_in_store items
          (Store.query_body max_k groundtruth sp sr) pqs h = (Ok pqs', h')
        ∧ h' !! sp = Some (Store.NpArray st'.1.2)
        ∧ h' !! sr = Some (Store.NpArray st'.2)
        ∧ represents h' pqs' st'.1.1
        ∧ others_kept h h' sp sr
  | Raise e =>
      ∃ h', Store.for_each_in_store items
              (Store.query_body max_k groundtruth sp sr) pqs h = (Raise e, h')
  end.
Proof.
  intros Hne. induction items as [|[q results] items IH];
    intros items_v h pqs pq spv srv Hgt Hgth Hitems Hsp Hsr Hrep.
  - apply Forall2_nil_inv_l in Hitems as ->. cbn.
    exists h, pqs. repeat split; [done..|]. by intros l o Hl _ _.
  - apply Forall2_cons_inv_l in Hitems as ([q' results_v] & items_v' & [Hk Hl] & Hitems & ->).
    cbn [fst snd] in Hk, Hl. subst q'.
    cbn [for_each Store.for_each_in_store]. unfold Store.bind.
    pose proof (query_body_refines h max_k groundtruth sp sr gt_entries groundtruth_v
                  pqs pq spv srv q results results_v Hgt Hgth Hl Hsp Hsr Hne) as Hstep.
    pose proof (λ l o, query_body_others h max_k groundtruth sp sr pqs (q, results) l o)
      as Hothers.
    destruct (query_body max_k groundtruth_v (pq, spv, srv) (q, results_v))
      as [[[pq1 spv1] srv1]|e].
    + destruct Hstep as (h1 & pqs1 & Hrun & Hsp1 & Hsr1 & Hcase).
      rewrite Hrun in Hothers |- *. cbn [fst snd] in *.
      assert (others_kept h h1 sp sr) as Hkept by exact Hothers.
      assert (represents h1 pqs1 pq1) as Hrep1.
      { destruct Hcase as [[-> ->]|(qms & qmv & -> & -> & Hd)].
        - by eapply represents_kept.
        - apply represents_dict_set; [|done]. by eapply represents_kept. }
      specialize (IH items_v' h1 pqs1 pq1 spv1 srv1).
      destruct (for_each items_v' _ (pq1, spv1, srv1)) as [st'|e].
      * destruct IH as (h' & pqs' & Hrun' & Hsp' & Hsr' & Hrep' & Hkept'); try done.
        -- apply Hkept; [done|congruence..].
        -- by eapply holds_kept.
        -- by eapply holds_kept.
        -- exists h', pqs'. repeat split; [done..|]. by eapply others_kept_trans.
      * destruct IH as (h' & Hrun'); try done.
        -- apply Hkept; [done|congruence..].
        -- by eapply holds_kept.
        -- by eapply holds_kept.
        -- by exists h'.
    + destruct Hstep as (h1 & ->). by exists h1.
Qed.

(** ** Aggregation and the report *)

Lemma deref_query_ap h qms qmv :
  deref_query h qms = Some qmv →
  h !! Store.ap qms = Some (Store.PyFloats (ap qmv)).
Proof.
  unfold deref_query.
  destruct (h !! Store.candidates qms) as [[c| | |]|]; try done.
  destruct (h !! Store.ground_truth qms) as [[g| | |]|]; try done.
  destruct (h !! Store.precision qms) as [[|p| |]|]; try done.
  destruct (h !! Store.recall qms) as [[|r| |]|]; try done.
  destruct (h !! Store.ap qms) as [[|a| |]|]; try done.
  by intros [= <-].
Qed.

Lemma ap_rows_loop h pqs pq :
  represents h pqs pq → ∀ rows : list (list Q),
  Store.for_each_in_store (dict_values pqs)
    (λ rows query_metrics,
       row ← Store.read_floats (Store.ap query_metrics);
       Store.ret (rows ++ [row])) rows h
  = (Ok (rows ++ (ap <$> dict_values pq)), h).
Proof.
  induction 1 as [|[q1 s1] [q2 v2] pqs pq [_ Hd] Hrep IH]; intros rows.
  - cbn. by rewrite app_nil_r.
  - cbn [dict_values fmap list_fmap snd Store.for_each_in_store]. cbn [snd] in Hd.
    unfold Store.bind at 1.
    rewrite (bind_read_floats_run _ _ _ _ (deref_query_ap _ _ _ Hd)).
    unfold Store.ret at 1. fold (dict_values pqs). rewrite IH.
    fold (dict_values pq). by rewrite <- app_assoc.
Qed.

Lemma ap_rows_run h pqs pq :
  represents h pqs pq →
  Store.ap_rows pqs h = (Ok (ap <$> dict_values pq), h).
Proof. intros Hrep. unfold Store.ap_rows. by rewrite (ap_rows_loop h pqs pq Hrep). Qed.

Lemma represents_length h pqs pq : represents h pqs pq → py_len pqs = py_len pq.
Proof. intros Hrep. unfold py_len. by rewrite (Forall2_length _ _ _ Hrep). Qed.

Lemma aggregate_refines h pqs pq (sp sr sm sf : Store.loc) (spv srv zm zf : list Q) :
  sp ≠ sr →
  h !! sp = Some (Store.NpArray spv) → h !! sr = Some (Store.NpArray srv) →
  h !! sm = Some (Store.NpArray zm) → h !! sf = Some (Store.NpArray zf) →
  represents h pqs pq →
  ∃ h' sm' sf',
    Store.aggregate pqs sp sr sm sf h = (Ok (sm', sf'), h')
    ∧ h' !! sp = Some (Store.NpArray (aggregate pq spv srv zm zf).1.1.1)
    ∧ h' !! sr = Some (Store.NpArray (aggregate pq spv srv zm zf).1.1.2)
    ∧ h' !! sm' = Some (Store.NpArray (aggregate pq spv srv zm zf).1.2)
    ∧ h' !! sf' = Some (Store.NpArray (aggregate pq spv srv zm zf).2)
    ∧ others_kept h h' sp sr.
Proof.
  intros Hne Hsp Hsr Hsm Hsf Hrep. unfold aggregate, Store.aggregate.
  rewrite (represents_length _ _ _ Hrep).
  destruct (decide (0 < py_len pq)) as [Hn|Hn]; cbn [fst snd].
  2:{ exists h, sm, sf. repeat split; [done..|]. by intros l o Hl _ _. }
  rewrite (bind_np_idiv_in_place_run _ _ _ _ _ Hsp).
  set (h1 := <[sp := Store.NpArray (np_idiv spv (py_len pq))]> h).
  erewrite bind_np_idiv_in_place_run by (unfold h1; by rewrite lookup_insert_ne).
  set (h2 := <[sr := Store.NpArray (np_idiv srv (py_len pq))]> h1).
  assert (others_kept h h2 sp sr) as Hkept.
  { intros l o Hl Hlsp Hlsr. unfold h2, h1. by rewrite !lookup_insert_ne. }
  rewrite bind_run, (ap_rows_run h2 pqs pq) by (by eapply represents_kept).
  rewrite bind_alloc_run.
  set (m := fresh (dom (D:=gset Store.loc) h2)).
  set (h3 := <[m := Store.NpArray (np_mean_axis0 (ap <$> dict_values pq))]> h2).
  assert (h2 !! m = None) as Hm by (apply not_elem_of_dom, is_fresh).
  assert (h2 !! sp = Some (Store.NpArray (np_idiv spv (py_len pq)))) as Hsp2.
  { unfold h2, h1. rewrite lookup_insert_ne by done. apply lookup_insert_eq. }
  assert (h2 !! sr = Some (Store.NpArray (np_idiv srv (py_len pq)))) as Hsr2
    by apply lookup_insert_eq.
  assert (m ≠ sp ∧ m ≠ sr) as [Hmsp Hmsr] by (split; congruence).
  erewrite bind_read_array_run by (unfold h3; rewrite lookup_insert_ne by done; exact Hsp2).
  erewrite bind_read_array_run by (unfold h3; rewrite lookup_insert_ne by done; exact Hsr2).
  rewrite bind_alloc_run.
  set (f := fresh (dom (D:=gset Store.loc) h3)).
  assert (h3 !! f = None) as Hf by (apply not_elem_of_dom, is_fresh).
  assert (f ≠ m) as Hfm by (intros Heq; rewrite Heq in Hf; unfold h3 in Hf;
                             by rewrite lookup_insert_eq in Hf).
  assert (h2 !! f = None) as Hf2 by (unfold h3 in Hf; by rewrite lookup_insert_ne in Hf).
  assert (f ≠ sp ∧ f ≠ sr) as [Hfsp Hfsr] by (split; congruence).
  eexists _, m, f. split; [reflexivity|].
  unfold h3. repeat split.
  - by rewrite !lookup_insert_ne.
  - by rewrite !lookup_insert_ne.
  - rewrite lookup_insert_ne by done. apply lookup_insert_eq.
  - apply lookup_insert_eq.
  - intros l o Hl Hlsp Hlsr.
    assert (h2 !! l = Some o) as Hl2 by (by apply Hkept).
    rewrite !lookup_insert_ne by congruence. done.
Qed.

Lemma represents_mapM h pqs pq :
  represents h pqs pq →
  mapM (λ e, qm ← deref_query h e.2; Some (e.1, qm)) pqs = Some pq.
Proof.
  intros Hrep. apply mapM_Some. eapply Forall2_impl; [exact Hrep|].
  intros [q1 s1] [q2 v2] [Hk Hd]. cbn [fst snd] in *. rewrite Hd. cbn. by subst.
Qed.

(** The computation on the store returns the report of the computation on
    values, or raises the same exception. *)
Lemma calcMetrics_core_refines h max_k k_range (resultFile groundtruth : Store.loc)
    (rf_entries gt_entries : dict QId Store.loc)
    (resultFile_v groundtruth_v : dict QId (list Id)) :
  h !! resultFile = Some (Store.PyDict rf_entries) →
  Store.holds h rf_entries resultFile_v →
  h !! groundtruth = Some (Store.PyDict gt_entries) →
  Store.holds h gt_entries groundtruth_v →
  match calcMetrics_core max_k k_range resultFile_v groundtruth_v with
  | Ok report =>
      ∃ h' report_s,
        Store.calcMetrics_core max_k k_range resultFile groundtruth h = (Ok report_s, h')
        ∧ deref_report h' report_s = Some report
  | Raise e =>
      ∃ h', Store.calcMetrics_core max_k k_range resultFile groundtruth h = (Raise e, h')
  end.
Proof.
  intros Hrf Hrfh Hgt Hgth. unfold calcMetrics_core, Store.calcMetrics_core.
  rewrite bind_lift_run.
  destruct (np_zeros max_k) as [zeros|e]; cbn [mbind result_bind]; [|by eexists].
  rewrite !bind_alloc_run.
  set (sp := fresh (dom (D:=gset Store.loc) h)).
  set (h1 := <[sp := Store.NpArray zeros]> h).
  set (sr := fresh (dom (D:=gset Store.loc) h1)).
  set (h2 := <[sr := Store.NpArray zeros]> h1).
  set (sm := fresh (dom (D:=gset Store.loc) h2)).
  set (h3 := <[sm := Store.NpArray zeros]> h2).
  set (sf := fresh (dom (D:=gset Store.loc) h3)).
  set (h4 := <[sf := Store.NpArray zeros]> h3).
  assert (h !! sp = None) as Hsp by (apply not_elem_of_dom, is_fresh).
  assert (h1 !! sr = None) as Hsr by (apply not_elem_of_dom, is_fresh).
  assert (h2 !! sm = None) as Hsm by (apply not_elem_of_dom, is_fresh).
  assert (h3 !! sf = None) as Hsf by (apply not_elem_of_dom, is_fresh).
  assert (h ⊆ h4) as Hsub.
  { unfold h4, h3, h2, h1.
    repeat (etrans; [|by apply insert_subseteq]). done. }
  assert (sr ≠ sp) as Hrp by (intros Heq; rewrite Heq in Hsr; unfold h1 in Hsr;
                               by rewrite lookup_insert_eq in Hsr).
  assert (sm ≠ sr) as Hmr by (intros Heq; rewrite Heq in Hsm; unfold h2 in Hsm;
                               by rewrite lookup_insert_eq in Hsm).
  assert (sm ≠ sp) as Hmp.
  { intros Heq; rewrite Heq in Hsm; unfold h2, h1 in Hsm.
    rewrite lookup_insert_ne in Hsm by done. by rewrite lookup_insert_eq in Hsm. }
  assert (sf ≠ sm) as Hfm by (intros Heq; rewrite Heq in Hsf; unfold h3 in Hsf;
                               by rewrite lookup_insert_eq in Hsf).
  assert (sf ≠ sr) as Hfr.
  { intros Heq; rewrite Heq in Hsf; unfold h3, h2 in Hsf.
    rewrite lookup_insert_ne in Hsf by done. by rewrite lookup_insert_eq in Hsf. }
  assert (sf ≠ sp) as Hfp.
  { intros Heq; rewrite Heq in Hsf; unfold h3, h2, h1 in Hsf.
    rewrite !lookup_insert_ne in Hsf by done. by rewrite lookup_insert_eq in Hsf. }
  assert (h4 !! sp = Some (Store.NpArray zeros)) as Hsp4.
  { unfold h4, h3, h2, h1. rewrite !lookup_insert_ne by done. apply lookup_insert_eq. }
  assert (h4 !! sr = Some (Store.NpArray zeros)) as Hsr4.
  { unfold h4, h3, h2. rewrite !lookup_insert_ne by done. apply lookup_insert_eq. }
  assert (h4 !! sm = Some (Store.NpArray zeros)) as Hsm4.
  { unfold h4, h3. rewrite !lookup_insert_ne by done. apply lookup_insert_eq. }
  assert (h4 !! sf = Some (Store.NpArray zeros)) as Hsf4 by apply lookup_insert_eq.
  rewrite (bind_read_dict_run h4 resultFile rf_entries)
    by (eapply lookup_weaken; [exact Hrf|exact Hsub]).
  pose proof (query_loop_refines max_k groundtruth sp sr gt_entries groundtruth_v
                rf_entries ltac:(done) resultFile_v h4 [] [] zeros zeros) as Hloop.
  rewrite bind_run.
  destruct (for_each resultFile_v _ _) as [[[pq spv] srv]|e].
  2:{ destruct Hloop as (h' & ->); try done.
      - eapply lookup_weaken; [exact Hgt|exact Hsub].
      - by eapply holds_weaken.
      - by eapply holds_weaken.
      - constructor.
      - by eexists. }
  destruct Hloop as (h5 & pqs & -> & Hsp5 & Hsr5 & Hrep & Hkept); try done.
  { eapply lookup_weaken; [exact Hgt|exact Hsub]. }
  { by eapply holds_weaken. }
  { by eapply holds_weaken. }
  { constructor. }
  cbn [mbind result_bind fst snd] in *.
  destruct (aggregate_refines h5 pqs pq sp sr sm sf spv srv zeros zeros)
    as (h6 & sm' & sf' & Hagg & Hsp6 & Hsr6 & Hsm6 & Hsf6 & Hkept6); try done.
  { by apply Hkept. }
  { by apply Hkept. }
  rewrite bind_run, Hagg.
  destruct (aggregate pq spv srv zeros zeros) as [[[P R] M] F]. cbn [fst snd] in *.
  rewrite bind_lift_run.
  destruct (reporting_points max_k k_range) as [used|e]; cbn [mbind result_bind];
    [|by eexists].
  rewrite (bind_read_array_run _ _ _ _ Hsp6), (bind_read_array_run _ _ _ _ Hsr6),
    (bind_read_array_run _ _ _ _ Hsm6), (bind_read_array_run _ _ _ _ Hsf6).
  rewrite bind_lift_run.
  destruct (for_each used _ _) as [at_k|e]; cbn [mbind result_bind]; [|by eexists].
  eexists _, _. split; [reflexivity|].
  unfold deref_report. cbn [Store.per_query_metrics Store.system_metrics].
  rewrite (represents_mapM h6 pqs pq); [done|].
  by eapply represents_kept.
Qed.

(** [calcMetrics] on a store whose dictionary [resultFile] holds the
    results mapping returns, read back from the store, the report of
    [calcMetrics] on values, logs the same metrics, and raises the same
    exceptions. *)
Lemma calcMetrics_refines max_k k_range (resultFile : Store.loc)
    (rf_entries : dict QId Store.loc) (resultFile_v : dict QId (list Id))
    gtPath resPath record verbose (w : World) h :
  h !! resultFile = Some (Store.PyDict rf_entries) →
  Store.holds h rf_entries resultFile_v →
  let out := Store.calcMetrics max_k k_range resultFile gtPath resPath record verbose w h in
  let out_v := calcMetrics max_k k_range resultFile_v gtPath resPath record verbose w in
  out.1.2 = out_v.2
  ∧ match out_v.1 with
    | Ok report => ∃ report_s, out.1.1 = Ok report_s
                               ∧ deref_report out.2 report_s = Some report
    | Raise e => out.1.1 = Raise e
    end.
Proof.
  intros Hrf Hrfh. cbv zeta. unfold Store.calcMetrics, calcMetrics.
  rewrite bind_run.
  destruct (load_spec gtPath w h) as [Hsub Hload].
  destruct (Store.loadDictionaryFromPickleFile gtPath w h) as [rl h1].
  cbn [fst snd] in *.
  destruct (loadDictionaryFromPickleFile gtPath w) as [groundtruth_v|e].
  2:{ by rewrite Hload. }
  destruct Hload as (groundtruth & gt_entries & -> & Hgt & Hgth).
  pose proof (calcMetrics_core_refines h1 max_k k_range resultFile groundtruth
                rf_entries gt_entries resultFile_v groundtruth_v) as Hcore.
  destruct (calcMetrics_core max_k k_range resultFile_v groundtruth_v) as [report|e].
  - destruct Hcore as (h' & report_s & -> & Hderef); try done.
    { eapply lookup_weaken; [exact Hrf|exact Hsub]. }
    { by eapply holds_weaken. }
    assert (Store.system_metrics report_s = system_metrics report) as Hsm.
    { unfold deref_report in Hderef.
      destruct (mapM _ _) as [pq|]; [|done]. by injection Hderef as <-. }
    rewrite Hsm. destruct record; cbn [fst snd]; [|split; [done|by exists report_s]].
    destruct (log_metrics (system_metrics report) w) as [[u|e] w1]; cbn [fst snd];
      [split; [done|by exists report_s] | done].
  - destruct Hcore as (h' & ->); try done.
    { eapply lookup_weaken; [exact Hrf|exact Hsub]. }
    { by eapply holds_weaken. }
Qed.

End store_steps.

(** ** Reports read back from a larger store, and two calls *)

Section two_calls.
Context {QId Id : Type} `{Countable QId} `{Countable Id}.
Implicit Types (h : gmap Store.loc (Store.obj (QId:=QId) (Id:=Id))).
Implicit Types (w : World (QId:=QId) (Id:=Id)).

Lemma deref_query_weaken h h' (qms : Store.QueryMetrics) (qmv : QueryMetrics (Id:=Id)) :
  h ⊆ h' → deref_query h qms = Some qmv → deref_query h' qms = Some qmv.
Proof.
  intros Hsub. unfold deref_query.
  destruct (h !! Store.candidates qms) as [[c| | |]|] eqn:Hc; try done.
  destruct (h !! Store.ground_truth qms) as [[g| | |]|] eqn:Hg; try done.
  destruct (h !! Store.precision qms) as [[|p| |]|] eqn:Hp; try done.
  destruct (h !! Store.recall qms) as [[|r| |]|] eqn:Hr; try done.
  destruct (h !! Store.ap qms) as [[|a| |]|] eqn:Ha; try done.
  rewrite (lookup_weaken _ _ _ _ Hc Hsub), (lookup_weaken _ _ _ _ Hg Hsub),
    (lookup_weaken _ _ _ _ Hp Hsub), (lookup_weaken _ _ _ _ Hr Hsub),
    (lookup_weaken _ _ _ _ Ha Hsub).
  done.
Qed.

(** A report keeps its contents as long as the objects it refers to are
    left alone. *)
Lemma deref_report_weaken h h' (report_s : Store.Report) (report : Report (QId:=QId)) :
  h ⊆ h' → deref_report h report_s = Some report →
  deref_report h' report_s = Some report.
Proof.
  intros Hsub. unfold deref_report.
  destruct (mapM _ (Store.per_query_metrics report_s)) as [pq|] eqn:Hpq; [|done].
  cbn [mbind option_bind]. intros [= <-].
  apply mapM_Some in Hpq.
  assert (mapM (λ e, qm ← deref_query h' e.2; Some (e.1, qm))
            (Store.per_query_metrics report_s) = Some pq) as ->; [|done].
  apply mapM_Some. eapply Forall2_impl; [exact Hpq|].
  intros [q qms] [q' qmv]. cbn [fst snd].
  destruct (deref_query h qms) as [qmv0|] eqn:Hd; [|done].
  by rewrite (deref_query_weaken _ _ _ _ Hsub Hd).
Qed.

(** Two calls on two stores that hold the same results mapping, in two
    worlds whose files hold the same ground truth, end alike. *)
Lemma calcMetrics_two_stores max_k k_range
    (resultFile1 resultFile2 : Store.loc) (rf_entries1 rf_entries2 : dict QId Store.loc)
    (resultFile_v groundtruth_v : dict QId (list Id))
    gtPath1 gtPath2 resPath1 resPath2 record1 record2 verbose1 verbose2
    w1 w2 h1 h2 r1 r2 w1' w2' h1' h2' :
  h1 !! resultFile1 = Some (Store.PyDict rf_entries1) →
  Store.holds h1 rf_entries1 resultFile_v →
  h2 !! resultFile2 = Some (Store.PyDict rf_entries2) →
  Store.holds h2 rf_entries2 resultFile_v →
  loadDictionaryFromPickleFile gtPath1 w1 = Ok groundtruth_v →
  loadDictionaryFromPickleFile gtPath2 w2 = Ok groundtruth_v →
  Store.calcMetrics max_k k_range resultFile1 gtPath1 resPath1 record1 verbose1 w1 h1
    = (r1, w1', h1') →
  Store.calcMetrics max_k k_range resultFile2 gtPath2 resPath2 record2 verbose2 w2 h2
    = (r2, w2', h2') →
  match r1 with
  | Raise e => r2 = Raise e
  | Ok report1 =>
      ∃ report2 report,
        r2 = Ok report2
        ∧ deref_report h1' report1 = Some report
        ∧ deref_report h2' report2 = Some report
  end.
Proof.
  intros Hrf1 Hholds1 Hrf2 Hholds2 Hload1 Hload2 Hrun1 Hrun2.
  pose proof (calcMetrics_refines max_k k_range resultFile1 rf_entries1 resultFile_v
                gtPath1 resPath1 record1 verbose1 w1 h1 Hrf1 Hholds1) as [_ Href1].
  pose proof (calcMetrics_refines max_k k_range resultFile2 rf_entries2 resultFile_v
                gtPath2 resPath2 record2 verbose2 w2 h2 Hrf2 Hholds2) as [_ Href2].
  rewrite Hrun1 in Href1. rewrite Hrun2 in Href2. cbn [fst snd] in Href1, Href2.
  rewrite calcMetrics_outcome, Hload1 in Href1.
  rewrite calcMetrics_outcome, Hload2 in Href2.
  cbn [mbind result_bind] in Href1, Href2.
  destruct (calcMetrics_core max_k k_range resultFile_v groundtruth_v) as [report|e].
  - destruct Href1 as (report1 & -> & Hd1). destruct Href2 as (report2 & -> & Hd2).
    by exists report2, report.
  - by subst.
Qed.

End two_calls.

(** * The properties of the metric computation *)

(** C1: for a query of both mappings and a cutoff [k] in [1..max_k], the
    recorded AP@k is the walk of the specification over the first [k]
    candidates divided by [min(k, total_relevant)] (by 1 without relevant
    items); on the worked example AP@1 = 1 and AP@3 = 5/9. *)
Theorem C1_average_precision_walk :
  (∀ (QId Id : Type) `{Countable QId} `{Countable Id}
     (max_k k_range : Z) (resultFile groundtruth : dict QId (list Id))
     (gtPath resPath : option string) (record verbose : bool)
     (w : World) (report : Report) (q : QId) (results gt : list Id) (k : Z),
     loadDictionaryFromPickleFile gtPath w = Ok groundtruth →
     (calcMetrics max_k k_range resultFile gtPath resPath record verbose w).1
       = Ok report →
     dict_wf resultFile →
     dict_get resultFile q = Some results →
     dict_get groundtruth q = Some gt →
     1 ≤ k ≤ max_k →
     ∃ qm, dict_get (per_query_metrics report) q = Some qm
         ∧ ap qm !! Z.to_nat (k - 1) = Some (ap_spec results (list_to_set gt) k))
  ∧ (∃ report qm a1 a3,
       (calcMetrics 3 1 example_results (Some "gt.pickle") None false false
          (world_with example_groundtruth)).1 = Ok report
       ∧ dict_get (per_query_metrics report) "q" = Some qm
       ∧ ap qm !! 0%nat = Some a1 ∧ (a1 == 1)%Q
       ∧ ap qm !! 2%nat = Some a3 ∧ (a3 == 5 # 9)%Q).
Proof.
  split.
  - intros QId Id ? ? ? ? max_k k_range resultFile groundtruth gtPath resPath
      record verbose w report q results gt k Hload Hrun Hwf Hres Hgt Hk.
    apply calcMetrics_Ok_inv in Hrun as (groundtruth' & Hload' & Hcore).
    rewrite Hload in Hload'. injection Hload' as <-.
    exists (query_record max_k results gt). split.
    + by rewrite (report_lookup _ _ _ _ _ _ Hcore Hwf), Hgt, Hres.
    + rewrite query_record_ap by lia. do 2 f_equal. lia.
  - eexists _, _, _, _. vm_compute. repeat split; reflexivity.
Qed.

(** The worked example meets the hypotheses of C1. *)
Lemma C1_average_precision_walk_witness :
  ∃ report,
    (calcMetrics 3 1 example_results (Some "gt.pickle") None false false
       (world_with example_groundtruth)).1 = Ok report
    ∧ ∃ qm, dict_get (per_query_metrics report) "q" = Some qm
          ∧ ap qm !! Z.to_nat (3 - 1)
            = Some (ap_spec ["a"; "x"; "b"] (list_to_set ["a"; "b"; "c"]) 3).
Proof.
  eexists. split; [vm_compute; reflexivity|].
  apply (proj1 C1_average_precision_walk string string _ _ _ _
           3 1 example_results example_groundtruth (Some "gt.pickle") None
           false false (world_with example_groundtruth)).
  - reflexivity.
  - vm_compute. reflexivity.
  - unfold dict_wf. apply (bool_decide_unpack _). vm_compute. exact I.
  - reflexivity.
  - reflexivity.
  - lia.
Defined.

(** C2: claimed behaviour on a candidate list shorter than [max_k] is to
    score the shorter prefix without error.  The code instead raises
    [IndexError]: with [max_k = 2], one candidate [a] and ground truth
    [{a}], the inner loop of the cutoff [k = 2] reads
    [current_results[1]] past the end of the one-element prefix. *)
Theorem C2_short_candidate_list_raises :
  (calcMetrics 2 1 [("q", ["a"])] (Some "gt.pickle") None false false
     (world_with [("q", ["a"])])).1 = Raise IndexError.
Proof. vm_compute. reflexivity. Qed.

(** C3 as stated fails on a repeated relevant candidate: with candidates
    [a, a] and ground truth [{a}], AP@2 = (1/1 + 2/2) / min(2, 1) = 2. *)
Lemma C3_counterexample :
  ∃ report qm a2,
    (calcMetrics 2 1 [("q", ["a"; "a"])] (Some "gt.pickle") None false false
       (world_with [("q", ["a"])])).1 = Ok report
    ∧ dict_get (per_query_metrics report) "q" = Some qm
    ∧ ap qm !! 1%nat = Some a2
    ∧ ¬ (a2 <= 1)%Q.
Proof.
  eexists _, _, _. split; [vm_compute; reflexivity|].
  split; [reflexivity|]. split; [reflexivity|].
  vm_compute. intros Hle. apply Hle. reflexivity.
Qed.

(** C3 (amended): every recorded precision@k and recall@k lies in [0, 1],
    every recorded AP@k is at least 0, and AP@k is at most 1 whenever no
    relevant identifier occurs twice among the first [k] candidates. *)
Theorem C3_metrics_in_unit_interval :
  ∀ (QId Id : Type) `{Countable QId} `{Countable Id}
    (max_k k_range : Z) (resultFile : dict QId (list Id))
    (gtPath resPath : option string) (record verbose : bool)
    (w : World) (report : Report) (q : QId) (qm : QueryMetrics) (k : Z),
    (calcMetrics max_k k_range resultFile gtPath resPath record verbose w).1
      = Ok report →
    dict_get (per_query_metrics report) q = Some qm →
    1 ≤ k ≤ max_k →
    ∃ p r a,
      precision qm !! Z.to_nat (k - 1) = Some p
      ∧ recall qm !! Z.to_nat (k - 1) = Some r
      ∧ ap qm !! Z.to_nat (k - 1) = Some a
      ∧ (0 <= p <= 1)%Q ∧ (0 <= r <= 1)%Q ∧ (0 <= a)%Q
      ∧ (NoDup (relevant (list_to_set (ground_truth qm))
                  (py_slice_to (candidates qm) k)) → (a <= 1)%Q).
Proof.
  intros QId Id ? ? ? ? max_k k_range resultFile gtPath resPath record verbose
    w report q qm k Hrun Hqm Hk.
  apply calcMetrics_Ok_inv in Hrun as (groundtruth & _ & Hcore).
  destruct (report_record _ _ _ _ _ _ _ Hcore Hqm) as (results & gt & _ & _ & ->).
  rewrite query_record_precision, query_record_recall, query_record_ap by lia.
  replace (Z.of_nat (S (Z.to_nat (k - 1)))) with k by lia.
  eexists _, _, _. do 3 (split; [done|]).
  split; [apply precision_at_bounds; lia|].
  split; [apply recall_at_bounds|].
  split; [apply ap_spec_nonneg; lia|].
  cbn [query_record push_all ground_truth candidates].
  apply ap_spec_le_1. lia.
Qed.

(** The worked example meets the hypotheses of C3, at [k = 3]. *)
Lemma C3_metrics_in_unit_interval_witness :
  ∃ report,
    (calcMetrics 3 1 example_results (Some "gt.pickle") None false false
       (world_with example_groundtruth)).1 = Ok report
    ∧ ∃ qm, dict_get (per_query_metrics report) "q" = Some qm
    ∧ ∃ p r a,
      precision qm !! Z.to_nat (3 - 1) = Some p
      ∧ recall qm !! Z.to_nat (3 - 1) = Some r
      ∧ ap qm !! Z.to_nat (3 - 1) = Some a
      ∧ (0 <= p <= 1)%Q ∧ (0 <= r <= 1)%Q ∧ (0 <= a)%Q
      ∧ (NoDup (relevant (list_to_set (ground_truth qm))
                  (py_slice_to (candidates qm) 3)) → (a <= 1)%Q).
Proof.
  eexists. split; [vm_compute; reflexivity|].
  eexists. split; [reflexivity|].
  eapply (C3_metrics_in_unit_interval string string
            3 1 example_results (Some "gt.pickle") None false false
            (world_with example_groundtruth)) with (q := "q").
  - vm_compute. reflexivity.
  - reflexivity.
  - lia.
Defined.

(** C4: no division by zero surfaces.  [calcMetrics] never raises
    [ZeroDivisionError]; it returns when no query is scored; and in every
    returned report a query with an empty ground-truth set has recall@k = 0
    and AP@k = 0 for every [k], the four system-wide arrays are all zeros
    when no query was scored, and F1@k = 0 wherever mean precision@k plus
    mean recall@k is 0. *)
Theorem C4_division_by_zero_resolves_to_zero :
  ∀ (QId Id : Type) `{Countable QId} `{Countable Id}
    (max_k k_range : Z) (resultFile : dict QId (list Id))
    (gtPath resPath : option string) (record verbose : bool) (w : World),
    (calcMetrics max_k k_range resultFile gtPath resPath record verbose w).1
      ≠ Raise ZeroDivisionError
    ∧ (∀ groundtruth,
         loadDictionaryFromPickleFile gtPath w = Ok groundtruth →
         (∀ q, q ∈ dict_keys resultFile → dict_get groundtruth q = None) →
         1 ≤ k_range ≤ max_k →
         ∃ report,
           (calcMetrics max_k k_range resultFile gtPath resPath record verbose w).1
             = Ok report
           ∧ per_query_metrics report = [])
    ∧ (∀ report,
         (calcMetrics max_k k_range resultFile gtPath resPath record verbose w).1
           = Ok report →
         (∀ q qm k,
            dict_get (per_query_metrics report) q = Some qm →
            (list_to_set (ground_truth qm) : gset Id) = ∅ →
            1 ≤ k ≤ max_k →
            ∃ r a, recall qm !! Z.to_nat (k - 1) = Some r ∧ (r == 0)%Q
                 ∧ ap qm !! Z.to_nat (k - 1) = Some a ∧ (a == 0)%Q)
         ∧ (per_query_metrics report = [] →
            sys_precision (system_metrics report) = replicate (Z.to_nat max_k) 0%Q
            ∧ sys_recall (system_metrics report) = replicate (Z.to_nat max_k) 0%Q
            ∧ sys_map (system_metrics report) = replicate (Z.to_nat max_k) 0%Q
            ∧ sys_f1 (system_metrics report) = replicate (Z.to_nat max_k) 0%Q)
         ∧ (∀ (j : nat) p r f,
              sys_precision (system_metrics report) !! j = Some p →
              sys_recall (system_metrics report) !! j = Some r →
              sys_f1 (system_metrics report) !! j = Some f →
              (p + r == 0)%Q → (f == 0)%Q)).
Proof.
  intros QId Id ? ? ? ? max_k k_range resultFile gtPath resPath record verbose w.
  split; [|split].
  - rewrite calcMetrics_outcome.
    destruct (loadDictionaryFromPickleFile gtPath w) as [groundtruth|e] eqn:Hload.
    + cbn [mbind result_bind]. intros Hcore.
      by apply calcMetrics_core_exn in Hcore as [|].
    + unfold loadDictionaryFromPickleFile in Hload.
      repeat case_match; by simplify_eq.
  - intros groundtruth Hload Hnone Hk.
    pose proof (scored_nil _ _ Hnone) as Hs.
    destruct (calcMetrics_total max_k k_range resultFile gtPath resPath record
                verbose w groundtruth Hload Hk) as [report Hrun].
    { rewrite Hs. constructor. }
    exists report. split; [done|].
    apply calcMetrics_Ok_inv in Hrun as (groundtruth' & Hload' & Hcore).
    rewrite Hload in Hload'. injection Hload' as <-.
    apply calcMetrics_core_Ok in Hcore as (_ & _ & -> & _).
    unfold records. by rewrite Hs.
  - intros report Hrun.
    apply calcMetrics_Ok_inv in Hrun as (groundtruth & _ & Hcore).
    split; [|split].
    + intros q qm k Hqm Hempty Hk.
      destruct (report_record _ _ _ _ _ _ _ Hcore Hqm) as (results & gt & _ & _ & ->).
      cbn [query_record push_all ground_truth] in Hempty.
      rewrite query_record_recall, query_record_ap by lia.
      eexists _, _. split; [done|]. split; [|split; [done|]].
      * rewrite recall_at_empty; [done|]. by rewrite Hempty, size_empty.
      * apply ap_spec_empty. by rewrite Hempty, size_empty.
    + intros Hnil. by apply (report_unscored _ _ _ _ _ Hcore).
    + intros j p r f. by apply (report_f1_zero _ _ _ _ _ _ _ _ _ Hcore).
Qed.

(** Two runs meet the hypotheses of C4: one where no query is scored, one
    where the ground truth of the query is empty. *)
Lemma C4_division_by_zero_resolves_to_zero_witness :
  (∃ report,
     (calcMetrics 10 5 [("q", ["a"])] (Some "gt.pickle") None true false
        (world_with [])).1 = Ok report
     ∧ per_query_metrics report = [])
  ∧ (∃ report,
       (calcMetrics 1 1 [("q", ["a"])] (Some "gt.pickle") None true false
          (world_with [("q", [])])).1 = Ok report
       ∧ (∃ qm, dict_get (per_query_metrics report) "q" = Some qm
           ∧ ∃ r a, recall qm !! Z.to_nat (1 - 1) = Some r ∧ (r == 0)%Q
                  ∧ ap qm !! Z.to_nat (1 - 1) = Some a ∧ (a == 0)%Q)
       ∧ (∃ f, sys_f1 (system_metrics report) !! 0%nat = Some f ∧ (f == 0)%Q)).
Proof.
  split.
  - pose proof (C4_division_by_zero_resolves_to_zero string string
      10 5 [("q", ["a"])] (Some "gt.pickle") None true false
      (world_with [])) as (_ & Hzero & _).
    apply (Hzero []).
    + reflexivity.
    + intros q _. reflexivity.
    + lia.
  - eexists. split; [vm_compute; reflexivity|].
    pose proof (C4_division_by_zero_resolves_to_zero string string
      1 1 [("q", ["a"])] (Some "gt.pickle") None true false
      (world_with [("q", [])])) as (_ & _ & Hrep).
    edestruct Hrep as (Hempty & _ & Hf1); [vm_compute; reflexivity|].
    split.
    + eexists. split; [reflexivity|].
      apply (Hempty "q"); [reflexivity|reflexivity|lia].
    + eexists. split; [reflexivity|].
      eapply (Hf1 0%nat); reflexivity.
Defined.

(** C5: for a scored query, recall@k ≤ recall@(k+1) for every [k] with
    [1 ≤ k < max_k]. *)
Theorem C5_recall_non_decreasing :
  ∀ (QId Id : Type) `{Countable QId} `{Countable Id}
    (max_k k_range : Z) (resultFile : dict QId (list Id))
    (gtPath resPath : option string) (record verbose : bool)
    (w : World) (report : Report) (q : QId) (qm : QueryMetrics) (k : Z),
    (calcMetrics max_k k_range resultFile gtPath resPath record verbose w).1
      = Ok report →
    dict_get (per_query_metrics report) q = Some qm →
    1 ≤ k < max_k →
    ∃ r r', recall qm !! Z.to_nat (k - 1) = Some r
          ∧ recall qm !! Z.to_nat k = Some r'
          ∧ (r <= r')%Q.
Proof.
  intros QId Id ? ? ? ? max_k k_range resultFile gtPath resPath record verbose
    w report q qm k Hrun Hqm Hk.
  apply calcMetrics_Ok_inv in Hrun as (groundtruth & _ & Hcore).
  destruct (report_record _ _ _ _ _ _ _ Hcore Hqm) as (results & gt & _ & _ & ->).
  rewrite !query_record_recall by lia.
  replace (Z.of_nat (S (Z.to_nat (k - 1)))) with k by lia.
  replace (Z.of_nat (S (Z.to_nat k))) with (k + 1) by lia.
  eexists _, _. do 2 (split; [done|]). apply recall_at_mono. lia.
Qed.

(** The worked example meets the hypotheses of C5, at [k = 2]. *)
Lemma C5_recall_non_decreasing_witness :
  ∃ report,
    (calcMetrics 3 1 example_results (Some "gt.pickle") None false false
       (world_with example_groundtruth)).1 = Ok report
    ∧ ∃ qm, dict_get (per_query_metrics report) "q" = Some qm
    ∧ ∃ r r', recall qm !! Z.to_nat (2 - 1) = Some r
            ∧ recall qm !! Z.to_nat 2 = Some r'
            ∧ (r <= r')%Q.
Proof.
  eexists. split; [vm_compute; reflexivity|].
  eexists. split; [reflexivity|].
  eapply (C5_recall_non_decreasing string string
            3 1 example_results (Some "gt.pickle") None false false
            (world_with example_groundtruth)) with (q := "q").
  - vm_compute. reflexivity.
  - reflexivity.
  - lia.
Defined.

(** C6: a query of the results mapping that has no ground truth is
    skipped entirely: the outcome of [calcMetrics] (report, or exception,
    and tracker log) is the one obtained without that entry, and a returned
    report has no per-query record for it. *)
Theorem C6_query_without_ground_truth_skipped :
  ∀ (QId Id : Type) `{Countable QId} `{Countable Id}
    (max_k k_range : Z) (resultFile groundtruth : dict QId (list Id))
    (gtPath resPath : option string) (record verbose : bool)
    (w : World) (q : QId),
    loadDictionaryFromPickleFile gtPath w = Ok groundtruth →
    dict_get groundtruth q = None →
    calcMetrics max_k k_range resultFile gtPath resPath record verbose w
    = calcMetrics max_k k_range (without q resultFile) gtPath resPath record verbose w
    ∧ ∀ report,
        (calcMetrics max_k k_range resultFile gtPath resPath record verbose w).1
          = Ok report →
        dict_get (per_query_metrics report) q = None.
Proof.
  intros QId Id ? ? ? ? max_k k_range resultFile groundtruth gtPath resPath
    record verbose w q Hload Hq. split.
  - unfold calcMetrics. rewrite Hload. by rewrite calcMetrics_core_without.
  - intros report Hrun.
    apply calcMetrics_Ok_inv in Hrun as (groundtruth' & Hload' & Hcore).
    rewrite Hload in Hload'. injection Hload' as <-.
    destruct (dict_get (per_query_metrics report) q) as [qm|] eqn:Hqm; [|done].
    destruct (report_record _ _ _ _ _ _ _ Hcore Hqm) as (results & gt & _ & Hgt & _).
    congruence.
Qed.

(** The worked example with a second query, [other], that has no ground
    truth (and a single candidate). *)
Lemma C6_query_without_ground_truth_skipped_witness :
  calcMetrics 3 1 (example_results ++ [("other", ["a"])]) (Some "gt.pickle") None
    true false (world_with example_groundtruth)
  = calcMetrics 3 1 (without "other" (example_results ++ [("other", ["a"])]))
      (Some "gt.pickle") None true false (world_with example_groundtruth)
  ∧ ∀ report,
      (calcMetrics 3 1 (example_results ++ [("other", ["a"])]) (Some "gt.pickle")
         None true false (world_with example_groundtruth)).1 = Ok report →
      dict_get (per_query_metrics report) "other" = None.
Proof.
  apply (C6_query_without_ground_truth_skipped string string
           3 1 (example_results ++ [("other", ["a"])]) example_groundtruth
           (Some "gt.pickle") None true false (world_with example_groundtruth)
           "other").
  - reflexivity.
  - reflexivity.
Defined.

(** C7: in a returned report with a positive step, [used_k] lists
    [k_range, 2·k_range, ...] up to the last multiple not exceeding
    [max_k]: exactly the multiples of [k_range] between [k_range] and
    [max_k], in increasing order; every selected [k] has a snapshot in
    [metrics_at_k], equal to the four system-wide arrays at index [k - 1].
    For [max_k = 10], [k_range = 5] the points are [5, 10]; for
    [max_k = 60], [k_range = 10] they are [10, 20, 30, 40, 50, 60]. *)
Theorem C7_reporting_points :
  (∀ (QId Id : Type) `{Countable QId} `{Countable Id}
     (max_k k_range : Z) (resultFile : dict QId (list Id))
     (gtPath resPath : option string) (record verbose : bool)
     (w : World) (report : Report),
     (calcMetrics max_k k_range resultFile gtPath resPath record verbose w).1
       = Ok report →
     0 < k_range →
     let sm := system_metrics report in
     used_k sm = (λ i, i * k_range) <$> seqZ 1 (max_k / k_range)
     ∧ (∀ k, k ∈ used_k sm ↔ k_range ≤ k ≤ max_k ∧ (k_range | k))
     ∧ StronglySorted Z.lt (used_k sm)
     ∧ head (used_k sm) = Some k_range
     ∧ ∀ k, k ∈ used_k sm →
         ∃ snap, dict_get (metrics_at_k sm) k = Some snap
           ∧ sys_precision sm !! Z.to_nat (k - 1) = Some (snap_precision snap)
           ∧ sys_recall sm !! Z.to_nat (k - 1) = Some (snap_recall snap)
           ∧ sys_map sm !! Z.to_nat (k - 1) = Some (snap_map snap)
           ∧ sys_f1 sm !! Z.to_nat (k - 1) = Some (snap_f1 snap))
  ∧ (∃ report,
       (calcMetrics 10 5 [] (Some "gt.pickle") None false false
          (world_with example_groundtruth)).1 = Ok report
       ∧ used_k (system_metrics report) = [5; 10])
  ∧ (∃ report,
       (calcMetrics 60 10 [] (Some "gt.pickle") None false false
          (world_with example_groundtruth)).1 = Ok report
       ∧ used_k (system_metrics report) = [10; 20; 30; 40; 50; 60]).
Proof.
  split; [|split].
  - intros QId Id ? ? ? ? max_k k_range resultFile gtPath resPath record verbose
      w report Hrun Hpos sm.
    apply calcMetrics_Ok_inv in Hrun as (groundtruth & _ & Hcore).
    pose proof (calcMetrics_core_Ok _ _ _ _ _ Hcore) as (_ & _ & _ & _ & Hused & Hsnap).
    fold sm in Hused, Hsnap.
    assert (k_range ≤ max_k) as Hle.
    { destruct (reporting_points_head _ _ _ Hused) as [more Hmore].
      rewrite Hmore in Hsnap. cbn [for_each] in Hsnap.
      unfold snapshot_body at 1 in Hsnap.
      destruct (py_getitem (sys_precision sm) (k_range - 1)) as [p|] eqn:HP; [|done].
      apply py_getitem_Ok in HP as [_ HP].
      destruct (calcMetrics_core_Ok _ _ _ _ _ Hcore) as (_ & _ & _ & Hagg & _).
      symmetry in Hagg. apply aggregate_lengths in Hagg as (Hlen & _).
      fold sm in Hlen. unfold py_len in HP. lia. }
    rewrite reporting_points_multiples in Hused by lia.
    injection Hused as Hused. rewrite <- Hused.
    split; [done|]. split; [intros k; by apply elem_of_multiples|].
    split; [by apply multiples_sorted|]. split.
    { assert (1 ≤ max_k / k_range) by (apply Z.div_le_lower_bound; lia).
      rewrite seqZ_cons by lia. cbn. f_equal. lia. }
    intros k Hk.
    apply snapshot_loop_Ok in Hsnap as [Hall Hin]; [|done].
    destruct (Hin k) as [snap Hsnapk]; [left; by rewrite <- Hused|].
    exists snap. split; [done|].
    apply elem_of_multiples in Hk as [[Hlo Hhi] _]; [|done].
    destruct (Hall k snap Hsnapk) as (HP & HR & HM & HF).
    by rewrite <- !py_getitem_pred by lia.
  - eexists. split; vm_compute; reflexivity.
  - eexists. split; vm_compute; reflexivity.
Qed.

(** The worked example with step 2 meets the hypotheses of C7. *)
Lemma C7_reporting_points_witness :
  ∃ report,
    (calcMetrics 3 2 example_results (Some "gt.pickle") None false false
       (world_with example_groundtruth)).1 = Ok report
    ∧ let sm := system_metrics report in
      used_k sm = (λ i, i * 2) <$> seqZ 1 (3 / 2)
      ∧ (∀ k, k ∈ used_k sm ↔ 2 ≤ k ≤ 3 ∧ (2 | k))
      ∧ StronglySorted Z.lt (used_k sm)
      ∧ head (used_k sm) = Some 2
      ∧ ∀ k, k ∈ used_k sm →
          ∃ snap, dict_get (metrics_at_k sm) k = Some snap
            ∧ sys_precision sm !! Z.to_nat (k - 1) = Some (snap_precision snap)
            ∧ sys_recall sm !! Z.to_nat (k - 1) = Some (snap_recall snap)
            ∧ sys_map sm !! Z.to_nat (k - 1) = Some (snap_map snap)
            ∧ sys_f1 sm !! Z.to_nat (k - 1) = Some (snap_f1 snap).
Proof.
  eexists. split; [vm_compute; reflexivity|].
  apply (proj1 C7_reporting_points string string _ _ _ _
           3 2 example_results (Some "gt.pickle") None false false
           (world_with example_groundtruth)).
  - vm_compute. reflexivity.
  - lia.
Defined.

(** C8: when at least one query is scored, for every [k] in [1..max_k]
    the system-wide precision@k, recall@k and MAP@k are the sums of the
    per-query precision@k, recall@k and AP@k over the scored queries,
    divided by the number of scored queries. *)
Theorem C8_system_means :
  ∀ (QId Id : Type) `{Countable QId} `{Countable Id}
    (max_k k_range : Z) (resultFile : dict QId (list Id))
    (gtPath resPath : option string) (record verbose : bool)
    (w : World) (report : Report) (k : Z),
    (calcMetrics max_k k_range resultFile gtPath resPath record verbose w).1
      = Ok report →
    dict_wf resultFile →
    per_query_metrics report ≠ [] →
    1 ≤ k ≤ max_k →
    ∃ p r m,
      sys_precision (system_metrics report) !! Z.to_nat (k - 1) = Some p
      ∧ sys_recall (system_metrics report) !! Z.to_nat (k - 1) = Some r
      ∧ sys_map (system_metrics report) !! Z.to_nat (k - 1) = Some m
      ∧ (p == mean_at precision (per_query_metrics report) (Z.to_nat (k - 1)))%Q
      ∧ (r == mean_at recall (per_query_metrics report) (Z.to_nat (k - 1)))%Q
      ∧ (m == mean_at ap (per_query_metrics report) (Z.to_nat (k - 1)))%Q.
Proof.
  intros QId Id ? ? ? ? max_k k_range resultFile gtPath resPath record verbose
    w report k Hrun Hwf Hne Hk.
  apply calcMetrics_Ok_inv in Hrun as (groundtruth & _ & Hcore).
  apply (report_means _ _ _ _ _ _ Hcore Hwf Hne). lia.
Qed.

(** Two scored queries meet the hypotheses of C8, at [k = 3]. *)
Lemma C8_system_means_witness :
  ∃ report,
    (calcMetrics 3 1 two_results (Some "gt.pickle") None false false
       (world_with two_groundtruth)).1 = Ok report
    ∧ ∃ p r m,
        sys_precision (system_metrics report) !! Z.to_nat (3 - 1) = Some p
        ∧ sys_recall (system_metrics report) !! Z.to_nat (3 - 1) = Some r
        ∧ sys_map (system_metrics report) !! Z.to_nat (3 - 1) = Some m
        ∧ (p == mean_at precision (per_query_metrics report) (Z.to_nat (3 - 1)))%Q
        ∧ (r == mean_at recall (per_query_metrics report) (Z.to_nat (3 - 1)))%Q
        ∧ (m == mean_at ap (per_query_metrics report) (Z.to_nat (3 - 1)))%Q.
Proof.
  eexists. split; [vm_compute; reflexivity|].
  apply (C8_system_means string string
           3 1 two_results (Some "gt.pickle") None false false
           (world_with two_groundtruth)).
  - vm_compute. reflexivity.
  - unfold dict_wf. apply (bool_decide_unpack _). vm_compute. exact I.
  - discriminate.
  - lia.
Defined.

(** C9: the report is a function of [max_k], [k_range], the results
    mapping and the ground-truth mapping alone, and no state is carried
    from one call to the next.  On the store: a second call, started from
    the world and the store that a first call left behind, on the same
    dictionary of results, ends as the first one did; the report it
    returns reads back as the report of the first call, and the report of
    the first call still reads back the same after it.  And two calls on
    any two stores that hold the same results mapping, in any two worlds
    whose files hold the same ground truth, end alike, whatever the file
    names, the deprecated [resPath], the [record] and [verbose] flags and
    the state of the tracker. *)
Theorem C9_deterministic_report :
  ∀ (QId Id : Type) `{Countable QId} `{Countable Id}
    (max_k k_range : Z) (resultFile_v groundtruth_v : dict QId (list Id))
    (gtPath1 gtPath2 resPath1 resPath2 : option string)
    (record1 record2 verbose1 verbose2 : bool),
    (∀ (resultFile : Store.loc) (rf_entries : dict QId Store.loc)
       (w w1 w2 : World) (h h1 h2 : gmap Store.loc Store.obj)
       (r1 r2 : result Store.Report),
       h !! resultFile = Some (Store.PyDict rf_entries) →
       Store.holds h rf_entries resultFile_v →
       loadDictionaryFromPickleFile gtPath1 w = Ok groundtruth_v →
       loadDictionaryFromPickleFile gtPath2 w = Ok groundtruth_v →
       Store.calcMetrics max_k k_range resultFile gtPath1 resPath1 record1 verbose1
         w h = (r1, w1, h1) →
       Store.calcMetrics max_k k_range resultFile gtPath2 resPath2 record2 verbose2
         w1 h1 = (r2, w2, h2) →
       match r1 with
       | Raise e => r2 = Raise e
       | Ok report1 =>
           ∃ report2 report,
             r2 = Ok report2
             ∧ deref_report h1 report1 = Some report
             ∧ deref_report h2 report2 = Some report
             ∧ deref_report h2 report1 = Some report
       end)
    ∧ (∀ (resultFile1 resultFile2 : Store.loc)
         (rf_entries1 rf_entries2 : dict QId Store.loc)
         (w1 w2 w1' w2' : World) (h1 h2 h1' h2' : gmap Store.loc Store.obj)
         (r1 r2 : result Store.Report),
         h1 !! resultFile1 = Some (Store.PyDict rf_entries1) →
         Store.holds h1 rf_entries1 resultFile_v →
         h2 !! resultFile2 = Some (Store.PyDict rf_entries2) →
         Store.holds h2 rf_entries2 resultFile_v →
         loadDictionaryFromPickleFile gtPath1 w1 = Ok groundtruth_v →
         loadDictionaryFromPickleFile gtPath2 w2 = Ok groundtruth_v →
         Store.calcMetrics max_k k_range resultFile1 gtPath1 resPath1 record1 verbose1
           w1 h1 = (r1, w1', h1') →
         Store.calcMetrics max_k k_range resultFile2 gtPath2 resPath2 record2 verbose2
           w2 h2 = (r2, w2', h2') →
         match r1 with
         | Raise e => r2 = Raise e
         | Ok report1 =>
             ∃ report2 report,
               r2 = Ok report2
               ∧ deref_report h1' report1 = Some report
               ∧ deref_report h2' report2 = Some report
         end).
Proof.
  intros QId Id ? ? ? ? max_k k_range resultFile_v groundtruth_v gtPath1 gtPath2
    resPath1 resPath2 record1 record2 verbose1 verbose2.
  split.
  - intros resultFile rf_entries w w1 w2 h h1 h2 r1 r2 Hrf Hholds Hload1 Hload2
      Hrun1 Hrun2.
    destruct (calcMetrics_frame _ _ _ _ _ _ _ _ _ _ _ _ Hrun1) as (Hsub1 & Hw1 & _).
    destruct (calcMetrics_frame _ _ _ _ _ _ _ _ _ _ _ _ Hrun2) as (Hsub2 & _ & _).
    assert (loadDictionaryFromPickleFile gtPath2 w1 = Ok groundtruth_v) as Hload2'.
    { unfold loadDictionaryFromPickleFile in Hload2 |- *. by rewrite Hw1. }
    pose proof (calcMetrics_two_stores max_k k_range resultFile resultFile
                  rf_entries rf_entries resultFile_v groundtruth_v
                  gtPath1 gtPath2 resPath1 resPath2 record1 record2 verbose1 verbose2
                  w w1 h h1 r1 r2 w1 w2 h1 h2 Hrf Hholds
                  (lookup_weaken _ _ _ _ Hrf Hsub1)
                  (holds_weaken _ _ _ _ Hsub1 Hholds)
                  Hload1 Hload2' Hrun1 Hrun2) as Htwo.
    destruct r1 as [report1|e]; [|done].
    destruct Htwo as (report2 & report & -> & Hd1 & Hd2).
    exists report2, report. do 3 (split; [done|]).
    by apply (deref_report_weaken h1 h2).
  - intros resultFile1 resultFile2 rf_entries1 rf_entries2 w1 w2 w1' w2'
      h1 h2 h1' h2' r1 r2.
    apply calcMetrics_two_stores.
Qed.

(** Three calls on the worked example: one, a second one after it on the
    same store, and one on another store in another world. *)
Lemma C9_deterministic_report_witness :
  (∃ report1, example_call.1.1 = Ok report1)
  ∧ match example_call.1.1 with
    | Raise e => example_second_call.1.1 = Raise e
    | Ok report1 =>
        ∃ report2 report,
          example_second_call.1.1 = Ok report2
          ∧ deref_report example_call.2 report1 = Some report
          ∧ deref_report example_second_call.2 report2 = Some report
          ∧ deref_report example_second_call.2 report1 = Some report
    end
  ∧ match example_call.1.1 with
    | Raise e => example_other_call.1.1 = Raise e
    | Ok report1 =>
        ∃ report2 report,
          example_other_call.1.1 = Ok report2
          ∧ deref_report example_call.2 report1 = Some report
          ∧ deref_report example_other_call.2 report2 = Some report
    end.
Proof.
  split; [eexists; vm_compute; reflexivity|]. split.
  - apply (proj1 (C9_deterministic_report string string 3 1
                    example_results example_groundtruth
                    (Some "gt.pickle") (Some "gt.pickle") None (Some "results.pkl")
                    true false false true)
             2%positive [("q", 1%positive)] (world_with example_groundtruth)
             example_call.1.2 example_second_call.1.2
             example_store example_call.2 example_second_call.2
             example_call.1.1 example_second_call.1.1).
    + reflexivity.
    + constructor; [split; reflexivity | constructor].
    + reflexivity.
    + reflexivity.
    + change (example_call = (example_call.1.1, example_call.1.2, example_call.2)).
      by destruct example_call as [[r w'] h'].
    + change (example_second_call
              = (example_second_call.1.1, example_second_call.1.2,
                 example_second_call.2)).
      by destruct example_second_call as [[r w'] h'].
  - apply (proj2 (C9_deterministic_report string string 3 1
                    example_results example_groundtruth
                    (Some "gt.pickle") (Some "truth.pkl") None None
                    true false false true)
             2%positive 7%positive [("q", 1%positive)] [("q", 5%positive)]
             (world_with example_groundtruth) other_world
             example_call.1.2 example_other_call.1.2
             example_store other_store example_call.2 example_other_call.2
             example_call.1.1 example_other_call.1.1).
    + reflexivity.
    + constructor; [split; reflexivity | constructor].
    + reflexivity.
    + constructor; [split; reflexivity | constructor].
    + reflexivity.
    + reflexivity.
    + change (example_call = (example_call.1.1, example_call.1.2, example_call.2)).
      by destruct example_call as [[r w'] h'].
    + change (example_other_call
              = (example_other_call.1.1, example_other_call.1.2,
                 example_other_call.2)).
      by destruct example_other_call as [[r w'] h'].
Defined.

(** C10: [calcMetrics] mutates neither mapping.  On the store: a call
    leaves every object that existed before it unchanged (the dictionary of
    results and its candidate lists among them) and no pickle file is
    touched; when it returns, the ground truth it loaded is intact, and the
    ['candidates'] and ['ground_truth'] entries of every per-query record
    are the very list objects that the results mapping and the ground
    truth hold for that query.  The report read back from the store is
    the report computed on values, where the record of a scored query
    carries the input candidate list, in order, and the ground-truth value
    of the query. *)
Theorem C10_inputs_not_mutated :
  ∀ (QId Id : Type) `{Countable QId} `{Countable Id}
    (max_k k_range : Z) (gtPath resPath : option string) (record verbose : bool)
    (w : World (QId:=QId) (Id:=Id)),
    (∀ (resultFile : Store.loc) (h h' : gmap Store.loc Store.obj)
       (r : result Store.Report) (w' : World),
       Store.calcMetrics max_k k_range resultFile gtPath resPath record verbose w h
         = (r, w', h') →
       h ⊆ h'
       ∧ pickles w' = pickles w
       ∧ ∀ report, r = Ok report →
           ∃ dictionary groundtruth gt_entries,
             loadDictionaryFromPickleFile gtPath w = Ok dictionary
             ∧ h' !! groundtruth = Some (Store.PyDict gt_entries)
             ∧ Store.holds h' gt_entries dictionary
             ∧ ∀ rf_entries, h !! resultFile = Some (Store.PyDict rf_entries) →
                 ∀ q qm, dict_get (Store.per_query_metrics report) q = Some qm →
                   (q, Store.candidates qm) ∈ rf_entries
                   ∧ (dict_wf rf_entries →
                      dict_get rf_entries q = Some (Store.candidates qm))
                   ∧ dict_get gt_entries q = Some (Store.ground_truth qm))
    ∧ (∀ (resultFile : Store.loc) (rf_entries : dict QId Store.loc)
         (resultFile_v : dict QId (list Id)) (h : gmap Store.loc Store.obj),
         h !! resultFile = Some (Store.PyDict rf_entries) →
         Store.holds h rf_entries resultFile_v →
         let out := Store.calcMetrics max_k k_range resultFile gtPath resPath
                      record verbose w h in
         let out_v := calcMetrics max_k k_range resultFile_v gtPath resPath
                        record verbose w in
         out.1.2 = out_v.2
         ∧ match out_v.1 with
           | Ok report => ∃ report_s, out.1.1 = Ok report_s
                                      ∧ deref_report out.2 report_s = Some report
           | Raise e => out.1.1 = Raise e
           end)
    ∧ (∀ (resultFile groundtruth : dict QId (list Id)) (report : Report)
         (q : QId) (results gt : list Id),
         loadDictionaryFromPickleFile gtPath w = Ok groundtruth →
         (calcMetrics max_k k_range resultFile gtPath resPath record verbose w).1
           = Ok report →
         dict_wf resultFile →
         dict_get resultFile q = Some results →
         dict_get groundtruth q = Some gt →
         ∃ qm, dict_get (per_query_metrics report) q = Some qm
             ∧ candidates qm = results ∧ ground_truth qm = gt).
Proof.
  intros QId Id ? ? ? ? max_k k_range gtPath resPath record verbose w.
  split; [|split].
  - intros resultFile h h' r w' Hrun.
    destruct (calcMetrics_frame _ _ _ _ _ _ _ _ _ _ _ _ Hrun) as (Hsub & Hw & Hrep).
    split; [done|]. split; [done|]. intros report Hr.
    destruct (Hrep report Hr) as (dictionary & groundtruth & gt_entries
                                   & Hload & Hgt & Hholds & Halias).
    exists dictionary, groundtruth, gt_entries. do 3 (split; [done|]).
    intros rf_entries Hrf q qm Hqm.
    destruct (Halias rf_entries Hrf q qm Hqm) as [Hc Hg].
    split; [done|]. split; [|done]. intros Hwf. by apply dict_get_NoDup.
  - intros resultFile rf_entries resultFile_v h Hrf Hholds.
    by apply calcMetrics_refines with (rf_entries := rf_entries).
  - intros resultFile groundtruth report q results gt Hload Hrun Hwf Hres Hgt.
    apply calcMetrics_Ok_inv in Hrun as (groundtruth' & Hload' & Hcore).
    rewrite Hload in Hload'. injection Hload' as <-.
    exists (query_record max_k results gt). split; [|done].
    by rewrite (report_lookup _ _ _ _ _ _ Hcore Hwf), Hgt, Hres.
Qed.

(** The call of the worked example on [example_store] meets the hypotheses
    of C10. *)
Lemma C10_inputs_not_mutated_witness :
  (example_store ⊆ example_call.2
   ∧ pickles example_call.1.2 = pickles (world_with example_groundtruth))
  ∧ (let out_v := calcMetrics 3 1 example_results (Some "gt.pickle") None true false
                    (world_with example_groundtruth) in
     example_call.1.2 = out_v.2
     ∧ match out_v.1 with
       | Ok report => ∃ report_s, example_call.1.1 = Ok report_s
                                  ∧ deref_report example_call.2 report_s = Some report
       | Raise e => example_call.1.1 = Raise e
       end)
  ∧ ∃ report,
      (calcMetrics 3 1 example_results (Some "gt.pickle") None true false
         (world_with example_groundtruth)).1 = Ok report
      ∧ ∃ qm, dict_get (per_query_metrics report) "q" = Some qm
            ∧ candidates qm = ["a"; "x"; "b"] ∧ ground_truth qm = ["a"; "b"; "c"].
Proof.
  pose proof (C10_inputs_not_mutated string string 3 1 (Some "gt.pickle") None
                true false (world_with example_groundtruth))
    as (Hstore & Hrefines & Hvalues).
  split; [|split].
  - destruct (Hstore 2%positive example_store example_call.2
                example_call.1.1 example_call.1.2) as (Hsub & Hw & _).
    + change (example_call = (example_call.1.1, example_call.1.2, example_call.2)).
      by destruct example_call as [[r w'] h'].
    + by split.
  - apply (Hrefines 2%positive [("q", 1%positive)] example_results example_store).
    + reflexivity.
    + constructor; [split; reflexivity | constructor].
  - eexists. split; [vm_compute; reflexivity|].
    apply (Hvalues example_results example_groundtruth).
    + reflexivity.
    + vm_compute. reflexivity.
    + unfold dict_wf. apply (bool_decide_unpack _). vm_compute. exact I.
    + reflexivity.
    + reflexivity.
Defined.

(** * Further properties *)

(** ** Pickle files and the tracker *)

Section files_and_tracker.
Context {QId Id : Type} `{Countable QId} `{Countable Id}.
Implicit Types (resultFile groundtruth dictionary : dict QId (list Id)).
Implicit Types (w : World (QId:=QId) (Id:=Id)).

Lemma calcMetrics_pickles max_k k_range resultFile gtPath resPath record verbose w :
  pickles (calcMetrics max_k k_range resultFile gtPath resPath record verbose w).2
  = pickles w.
Proof.
  unfold calcMetrics.
  destruct (loadDictionaryFromPickleFile gtPath w) as [groundtruth|]; [|done].
  destruct (calcMetrics_core _ _ _ _) as [report|]; [|done].
  destruct record; [|done].
  pose proof (log_metrics_pickles (system_metrics report) w) as Hlog.
  by destruct (log_metrics (system_metrics report) w) as [[u|e] w'].
Qed.

(** What logging appends: the last cell of each of the four arrays. *)
Lemma log_metrics_log (sm : SystemMetrics) w (m p r f : Q) :
  py_getitem (sys_map sm) (-1) = Ok m →
  py_getitem (sys_precision sm) (-1) = Ok p →
  py_getitem (sys_recall sm) (-1) = Ok r →
  py_getitem (sys_f1 sm) (-1) = Ok f →
  ∃ w', log_metrics sm w = (Ok (), w')
      ∧ mlflow_log w' = mlflow_log w ++
          [("mean_avg_precision", m); ("prec_k", p); ("recall_k", r); ("f1_k", f)].
Proof.
  intros Hm Hp Hr Hf. unfold log_metrics, log_last. rewrite Hm, Hp, Hr, Hf.
  eexists. split; [done|]. cbn [mlflow_log_metric mlflow_log].
  by rewrite <- !app_assoc.
Qed.

Lemma py_getitem_minus_1 {A : Type} (l : list A) (n : Z) :
  1 ≤ n → length l = Z.to_nat n →
  py_getitem l (-1) = py_getitem l (n - 1).
Proof.
  intros Hn Hlen. unfold py_getitem, py_len. rewrite Hlen.
  destruct (decide (-1 < 0)); [|lia]. destruct (decide (n - 1 < 0)); [lia|].
  replace (Z.of_nat (Z.to_nat n) + -1) with (n - 1) by lia. done.
Qed.

End files_and_tracker.

Section report_shape.
Context {QId Id : Type} `{Countable QId} `{Countable Id}.
Implicit Types (resultFile groundtruth : dict QId (list Id)).

(** The four arrays of a returned report have [max_k] cells, and [max_k]
    is at least 1. *)
Lemma report_lengths max_k k_range resultFile groundtruth report :
  calcMetrics_core max_k k_range resultFile groundtruth = Ok report →
  1 ≤ max_k
  ∧ length (sys_precision (system_metrics report)) = Z.to_nat max_k
  ∧ length (sys_recall (system_metrics report)) = Z.to_nat max_k
  ∧ length (sys_map (system_metrics report)) = Z.to_nat max_k
  ∧ length (sys_f1 (system_metrics report)) = Z.to_nat max_k.
Proof.
  intros Hcore.
  pose proof (calcMetrics_core_nonempty _ _ _ _ _ Hcore) as (HP & _).
  apply calcMetrics_core_Ok in Hcore as (Hk & _ & _ & Hagg & _).
  symmetry in Hagg. apply aggregate_lengths in Hagg as (LP & LR & LM & LF).
  split; [|done].
  destruct (sys_precision (system_metrics report)); [done|]. cbn [length] in LP. lia.
Qed.

End report_shape.

(** X3: [calcMetrics] writes no pickle file; with [record=False] it leaves
    the world as it found it; and a call that raises has logged nothing to
    the tracker. *)
Theorem X3_effects_on_the_world :
  ∀ (QId Id : Type) `{Countable QId} `{Countable Id}
    (max_k k_range : Z) (resultFile : dict QId (list Id))
    (gtPath resPath : option string) (record verbose : bool) (w : World),
    pickles (calcMetrics max_k k_range resultFile gtPath resPath record verbose w).2
    = pickles w
    ∧ (record = false →
       (calcMetrics max_k k_range resultFile gtPath resPath record verbose w).2 = w)
    ∧ (∀ e,
         (calcMetrics max_k k_range resultFile gtPath resPath record verbose w).1
           = Raise e →
         (calcMetrics max_k k_range resultFile gtPath resPath record verbose w).2 = w).
Proof.
  intros QId Id ? ? ? ? max_k k_range resultFile gtPath resPath record verbose w.
  split; [apply calcMetrics_pickles|]. split.
  - intros ->. unfold calcMetrics.
    destruct (loadDictionaryFromPickleFile gtPath w) as [groundtruth|]; [|done].
    by destruct (calcMetrics_core _ _ _ _).
  - intros e. unfold calcMetrics.
    destruct (loadDictionaryFromPickleFile gtPath w) as [groundtruth|]; [|done].
    destruct (calcMetrics_core _ _ _ _) as [report|] eqn:Hcore; [|done].
    destruct record; [|done].
    apply calcMetrics_core_nonempty in Hcore as (HP & HR & HM & HF).
    by destruct (log_metrics_total (system_metrics report) w HP HR HM HF) as (w' & ->).
Qed.

(** A call with [record=True] that raises (the candidate list is shorter
    than [max_k]) and a call with [record=False]. *)
Lemma X3_effects_on_the_world_witness :
  (calcMetrics 2 1 [("q", ["a"])] (Some "gt.pickle") None true false
     (world_with [("q", ["a"])])).2 = world_with [("q", ["a"])]
  ∧ (calcMetrics 3 1 example_results (Some "gt.pickle") None false false
       other_world).2 = other_world.
Proof.
  split.
  - apply (X3_effects_on_the_world string string 2 1 [("q", ["a"])]
             (Some "gt.pickle") None true false (world_with [("q", ["a"])]))
      with (e := IndexError).
    vm_compute. reflexivity.
  - apply (X3_effects_on_the_world string string 3 1 example_results
             (Some "gt.pickle") None false false other_world).
    reflexivity.
Defined.

(** X4: a call with [record=True] that returns appends four entries to
    the tracker, in this order: [mean_avg_precision], [prec_k], [recall_k]
    and [f1_k], with the values of the four system-wide arrays at the last
    cutoff [max_k]. *)
Theorem X4_logged_metrics :
  ∀ (QId Id : Type) `{Countable QId} `{Countable Id}
    (max_k k_range : Z) (resultFile : dict QId (list Id))
    (gtPath resPath : option string) (verbose : bool) (w : World) (report : Report),
    (calcMetrics max_k k_range resultFile gtPath resPath true verbose w).1
      = Ok report →
    ∃ m p r f,
      1 ≤ max_k
      ∧ sys_map (system_metrics report) !! Z.to_nat (max_k - 1) = Some m
      ∧ sys_precision (system_metrics report) !! Z.to_nat (max_k - 1) = Some p
      ∧ sys_recall (system_metrics report) !! Z.to_nat (max_k - 1) = Some r
      ∧ sys_f1 (system_metrics report) !! Z.to_nat (max_k - 1) = Some f
      ∧ mlflow_log
          (calcMetrics max_k k_range resultFile gtPath resPath true verbose w).2
        = mlflow_log w ++
            [("mean_avg_precision", m); ("prec_k", p); ("recall_k", r); ("f1_k", f)].
Proof.
  intros QId Id ? ? ? ? max_k k_range resultFile gtPath resPath verbose w report Hrun.
  apply calcMetrics_Ok_inv in Hrun as (groundtruth & Hload & Hcore).
  destruct (report_lengths _ _ _ _ _ Hcore) as (Hk & LP & LR & LM & LF).
  destruct (lookup_lt_is_Some_2 (sys_map (system_metrics report))
              (Z.to_nat (max_k - 1))) as [m Hm]; [lia|].
  destruct (lookup_lt_is_Some_2 (sys_precision (system_metrics report))
              (Z.to_nat (max_k - 1))) as [p Hp]; [lia|].
  destruct (lookup_lt_is_Some_2 (sys_recall (system_metrics report))
              (Z.to_nat (max_k - 1))) as [r Hr]; [lia|].
  destruct (lookup_lt_is_Some_2 (sys_f1 (system_metrics report))
              (Z.to_nat (max_k - 1))) as [f Hf]; [lia|].
  exists m, p, r, f. do 5 (split; [done|]).
  destruct (log_metrics_log (system_metrics report) w m p r f) as (w' & Hlog & Hw').
  - rewrite (py_getitem_minus_1 _ max_k) by done. by apply py_getitem_pred.
  - rewrite (py_getitem_minus_1 _ max_k) by done. by apply py_getitem_pred.
  - rewrite (py_getitem_minus_1 _ max_k) by done. by apply py_getitem_pred.
  - rewrite (py_getitem_minus_1 _ max_k) by done. by apply py_getitem_pred.
  - unfold calcMetrics. by rewrite Hload, Hcore, Hlog.
Qed.

(** The worked example, on a tracker that already holds one entry. *)
Lemma X4_logged_metrics_witness :
  ∃ report,
    (calcMetrics 3 1 example_results (Some "truth.pkl") None true false
       other_world).1 = Ok report
    ∧ ∃ m p r f,
        1 ≤ 3
        ∧ sys_map (system_metrics report) !! Z.to_nat (3 - 1) = Some m
        ∧ sys_precision (system_metrics report) !! Z.to_nat (3 - 1) = Some p
        ∧ sys_recall (system_metrics report) !! Z.to_nat (3 - 1) = Some r
        ∧ sys_f1 (system_metrics report) !! Z.to_nat (3 - 1) = Some f
        ∧ mlflow_log
            (calcMetrics 3 1 example_results (Some "truth.pkl") None true false
               other_world).2
          = mlflow_log other_world ++
              [("mean_avg_precision", m); ("prec_k", p); ("recall_k", r);
               ("f1_k", f)].
Proof.
  eexists. split; [vm_compute; reflexivity|].
  apply (X4_logged_metrics string string 3 1 example_results
           (Some "truth.pkl") None false other_world).
  vm_compute. reflexivity.
Defined.

(** ** The parameters for which [calcMetrics] returns *)

Lemma py_getitem_total {A : Type} (l : list A) (i : Z) :
  - py_len l ≤ i < py_len l → ∃ x, py_getitem l i = Ok x.
Proof.
  intros Hi. unfold py_getitem. unfold py_len in *.
  rewrite decide_True by (case_decide; lia).
  destruct (lookup_lt_is_Some_2 l
    (Z.to_nat (if decide (i < 0) then Z.of_nat (length l) + i else i))) as [x ->].
  - case_decide; lia.
  - by exists x.
Qed.

Lemma reporting_points_negative (max_k k_range : Z) :
  k_range < 0 → 0 ≤ max_k → reporting_points max_k k_range = Ok [k_range].
Proof.
  intros Hneg Hk. unfold reporting_points, py_range.
  rewrite decide_True by lia. rewrite decide_False by lia.
  rewrite decide_False by lia. rewrite decide_False by lia. done.
Qed.

Lemma reporting_points_zero (max_k : Z) :
  0 < max_k → reporting_points max_k 0 = Raise ValueError.
Proof.
  intros Hk. unfold reporting_points, py_range.
  rewrite decide_True by lia. by rewrite decide_True by lia.
Qed.

Lemma reporting_points_exn (max_k k_range : Z) (e : exn) :
  reporting_points max_k k_range = Raise e →
  e = ValueError ∧ k_range = 0 ∧ 0 < max_k.
Proof.
  unfold reporting_points, py_range. repeat case_decide; simplify_eq/=; try done.
  intros [= <-]. split; [done|]. split; [done|lia].
Qed.

Section domain.
Context {QId Id : Type} `{Countable QId} `{Countable Id}.
Implicit Types (resultFile groundtruth : dict QId (list Id)).

(** Every scored query has at least [max_k] candidates, in the words of
    the two mappings. *)
Lemma long_enough_candidates max_k resultFile groundtruth :
  Forall (long_enough max_k) (scored resultFile groundtruth)
  ↔ ∀ q results gt,
      (q, results) ∈ resultFile → dict_get groundtruth q = Some gt →
      max_k ≤ py_len results.
Proof.
  rewrite Forall_forall. split.
  - intros Hall q results gt Hin Hgt.
    assert ((q, results, gt) ∈ scored resultFile groundtruth) as Hs
      by by apply elem_of_scored.
    apply Hall in Hs. unfold long_enough, py_len in *. cbn [fst snd] in Hs. lia.
  - intros Hall [[q results] gt] [Hin Hgt]%elem_of_scored.
    specialize (Hall q results gt Hin Hgt).
    unfold long_enough, py_len in *. cbn [fst snd]. lia.
Qed.

Lemma calcMetrics_core_returns_iff max_k k_range resultFile groundtruth :
  (∃ report, calcMetrics_core max_k k_range resultFile groundtruth = Ok report)
  ↔ Forall (long_enough max_k) (scored resultFile groundtruth)
    ∧ k_range ≠ 0 ∧ 1 - max_k ≤ k_range ≤ max_k.
Proof.
  split.
  - intros [report Hcore].
    destruct (report_lengths _ _ _ _ _ Hcore) as (Hk & LP & _).
    apply calcMetrics_core_Ok in Hcore as (_ & Hlong & _ & _ & Hused & Hsnap).
    split; [done|].
    destruct (reporting_points_head _ _ _ Hused) as [more Hmore].
    rewrite Hmore in Hsnap. cbn [for_each] in Hsnap.
    unfold snapshot_body at 1 in Hsnap.
    destruct (py_getitem (sys_precision _) _) as [p|] eqn:HP; [|done].
    apply py_getitem_Ok in HP as [_ HP]. unfold py_len in HP. rewrite LP in HP.
    split; [|lia]. intros ->.
    by rewrite reporting_points_zero in Hused by lia.
  - intros (Hlong & Hne & Hk).
    destruct (decide (0 < k_range)) as [Hpos|Hneg].
    { apply calcMetrics_core_total; [lia|done]. }
    rewrite calcMetrics_core_unfold.
    rewrite decide_False by lia. rewrite decide_True by done.
    destruct (aggregate _ _ _ _ _) as [[[P R] M] F] eqn:Hagg.
    apply aggregate_lengths in Hagg as (LP & LR & LM & LF).
    rewrite reporting_points_negative by lia. cbn [mbind result_bind].
    destruct (snapshot_loop_total P R M F [k_range] []) as [at_k ->].
    + intros k ->%list_elem_of_singleton.
      destruct (py_getitem_total P (k_range - 1)) as [p Hp]; [unfold py_len; lia|].
      destruct (py_getitem_total R (k_range - 1)) as [r Hr]; [unfold py_len; lia|].
      destruct (py_getitem_total M (k_range - 1)) as [m Hm]; [unfold py_len; lia|].
      destruct (py_getitem_total F (k_range - 1)) as [f Hf]; [unfold py_len; lia|].
      by exists p, r, m, f.
    + by eexists.
Qed.

Lemma calcMetrics_core_ValueError_iff max_k k_range resultFile groundtruth :
  calcMetrics_core max_k k_range resultFile groundtruth = Raise ValueError
  ↔ max_k < 0
    ∨ (k_range = 0 ∧ 0 < max_k
       ∧ Forall (long_enough max_k) (scored resultFile groundtruth)).
Proof.
  rewrite calcMetrics_core_unfold.
  destruct (decide (max_k < 0)) as [Hneg|Hk]; [by split; [left|]|].
  destruct (decide (Forall _ _)) as [Hlong|Hshort].
  - destruct (aggregate _ _ _ _ _) as [[[P R] M] F].
    destruct (reporting_points max_k k_range) as [used|e] eqn:Hused;
      cbn [mbind result_bind].
    + split.
      * destruct (for_each used _ []) as [at_k|e] eqn:Hsnap; [done|].
        cbn [mbind result_bind]. apply snapshot_loop_exn in Hsnap as ->. done.
      * intros [?|(-> & Hpos & _)]; [lia|].
        by rewrite reporting_points_zero in Hused.
    + apply reporting_points_exn in Hused as (-> & -> & Hpos).
      split; [|done]. intros _. by right.
  - split; [done|]. intros [?|(_ & _ & ?)]; [lia|done].
Qed.

End domain.

(** X5: once the ground truth is loaded, [calcMetrics] returns a report
    only when every scored query has at least [max_k] candidates,
    [k_range] is not 0 and [1 - max_k ≤ k_range ≤ max_k]: a scored query
    with a shorter candidate list, a zero step, a step above [max_k] and a
    step below [1 - max_k] never yield a report.  The code does not reject
    a negative [k_range] within this range: the report then has the single
    reporting point [k_range], read from the end of the arrays. *)
Theorem X5_returns_only_when :
  ∀ (QId Id : Type) `{Countable QId} `{Countable Id}
    (max_k k_range : Z) (resultFile groundtruth : dict QId (list Id))
    (gtPath resPath : option string) (record verbose : bool) (w : World)
    (report : Report),
    loadDictionaryFromPickleFile gtPath w = Ok groundtruth →
    (calcMetrics max_k k_range resultFile gtPath resPath record verbose w).1
      = Ok report →
    (∀ q results gt,
       (q, results) ∈ resultFile → dict_get groundtruth q = Some gt →
       max_k ≤ py_len results)
    ∧ k_range ≠ 0 ∧ 1 - max_k ≤ k_range ≤ max_k
    ∧ (k_range < 0 →
       used_k (system_metrics report) = [k_range]
       ∧ ∃ snap, metrics_at_k (system_metrics report) = [(k_range, snap)]
           ∧ sys_precision (system_metrics report)
               !! Z.to_nat (max_k + k_range - 1) = Some (snap_precision snap)).
Proof.
  intros QId Id ? ? ? ? max_k k_range resultFile groundtruth gtPath resPath
    record verbose w report Hload.
  rewrite calcMetrics_outcome, Hload. cbn [mbind result_bind]. intros Hcore.
  assert (∃ r, calcMetrics_core max_k k_range resultFile groundtruth = Ok r)
    as (Hlong & Hne & Hk)%calcMetrics_core_returns_iff by by exists report.
  split; [by apply long_enough_candidates|]. do 2 (split; [done|]).
  intros Hneg.
  destruct (report_lengths _ _ _ _ _ Hcore) as (_ & LP & _).
  apply calcMetrics_core_Ok in Hcore as (_ & _ & _ & _ & Hused & Hsnap).
  rewrite reporting_points_negative in Hused by lia. injection Hused as Hused.
  rewrite <- Hused in Hsnap |- *. split; [done|].
  cbn [for_each] in Hsnap. unfold snapshot_body in Hsnap.
  destruct (py_getitem (sys_precision _) _) as [p|] eqn:HP; [|done].
  destruct (py_getitem (sys_recall _) _) as [r|]; [|done].
  destruct (py_getitem (sys_map _) _) as [m|]; [|done].
  destruct (py_getitem (sys_f1 _) _) as [f|]; [|done].
  cbn [mbind result_bind dict_set] in Hsnap. injection Hsnap as <-.
  eexists. split; [done|]. cbn [snap_precision].
  apply py_getitem_Ok in HP as [HP _]. rewrite decide_True in HP by lia.
  unfold py_len in HP. rewrite LP in HP. rewrite <- HP. f_equal. lia.
Qed.

(** The worked example with the step [-1]: the call returns, with the
    reporting point [-1] read from the second of the three cells. *)
Lemma X5_returns_only_when_witness :
  ∃ report,
    (calcMetrics 3 (-1) example_results (Some "gt.pickle") None false false
       (world_with example_groundtruth)).1 = Ok report
    ∧ (∀ q results gt,
         (q, results) ∈ example_results →
         dict_get example_groundtruth q = Some gt →
         3 ≤ py_len results)
    ∧ -1 ≠ 0 ∧ 1 - 3 ≤ -1 ≤ 3
    ∧ (-1 < 0 →
       used_k (system_metrics report) = [-1]
       ∧ ∃ snap, metrics_at_k (system_metrics report) = [(-1, snap)]
           ∧ sys_precision (system_metrics report)
               !! Z.to_nat (3 + -1 - 1) = Some (snap_precision snap)).
Proof.
  eexists. split; [vm_compute; reflexivity|].
  apply (X5_returns_only_when string string 3 (-1) example_results
           example_groundtruth (Some "gt.pickle") None false false
           (world_with example_groundtruth)).
  - reflexivity.
  - vm_compute. reflexivity.
Defined.

(** X6: with the ground truth loaded, a negative [max_k] makes
    [calcMetrics] raise [ValueError] (from [np.zeros]) and [max_k = 0]
    makes it raise [IndexError] (the first snapshot reads an empty array),
    whatever [k_range] and the results mapping are. *)
Theorem X6_degenerate_max_k :
  ∀ (QId Id : Type) `{Countable QId} `{Countable Id}
    (max_k k_range : Z) (resultFile groundtruth : dict QId (list Id))
    (gtPath resPath : option string) (record verbose : bool) (w : World),
    loadDictionaryFromPickleFile gtPath w = Ok groundtruth →
    (max_k < 0 →
     (calcMetrics max_k k_range resultFile gtPath resPath record verbose w).1
       = Raise ValueError)
    ∧ (max_k = 0 →
       (calcMetrics max_k k_range resultFile gtPath resPath record verbose w).1
         = Raise IndexError).
Proof.
  intros QId Id ? ? ? ? max_k k_range resultFile groundtruth gtPath resPath
    record verbose w Hload.
  rewrite calcMetrics_outcome, Hload. cbn [mbind result_bind]. split.
  - intros Hneg. apply calcMetrics_core_ValueError_iff. by left.
  - intros ->.
    destruct (calcMetrics_core 0 k_range resultFile groundtruth)
      as [report|e] eqn:Hcore.
    + assert (∃ r, calcMetrics_core 0 k_range resultFile groundtruth = Ok r)
        as Hret by by exists report.
      apply calcMetrics_core_returns_iff in Hret. lia.
    + destruct (calcMetrics_core_exn _ _ _ _ _ Hcore) as [->| ->]; [|done].
      apply calcMetrics_core_ValueError_iff in Hcore. lia.
Qed.

(** The worked example with [max_k = -1] and with [max_k = 0]. *)
Lemma X6_degenerate_max_k_witness :
  (calcMetrics (-1) 1 example_results (Some "gt.pickle") None false false
     (world_with example_groundtruth)).1 = Raise ValueError
  ∧ (calcMetrics 0 1 example_results (Some "gt.pickle") None false false
       (world_with example_groundtruth)).1 = Raise IndexError.
Proof.
  split.
  - apply (X6_degenerate_max_k string string (-1) 1 example_results
             example_groundtruth (Some "gt.pickle") None false false
             (world_with example_groundtruth) eq_refl).
    lia.
  - apply (X6_degenerate_max_k string string 0 1 example_results
             example_groundtruth (Some "gt.pickle") None false false
             (world_with example_groundtruth) eq_refl).
    reflexivity.
Defined.

(** ** The shape of a returned report *)

Lemma StronglySorted_lt_NoDup (l : list Z) : StronglySorted Z.lt l → NoDup l.
Proof.
  induction 1 as [|x l _ IH Hx]; constructor; [|done].
  intros Hin. rewrite Forall_forall in Hx. specialize (Hx x Hin). lia.
Qed.

Lemma snapshot_loop_keys (P R M F : list Q) (used : list Z) :
  ∀ (d d' : dict Z Snapshot),
  for_each used (snapshot_body P R M F) d = Ok d' →
  NoDup (dict_keys d ++ used) →
  dict_keys d' = dict_keys d ++ used.
Proof.
  induction used as [|k used IH]; intros d d' Hrun Hnd.
  - injection Hrun as <-. by rewrite app_nil_r.
  - cbn [for_each] in Hrun. unfold snapshot_body at 1 in Hrun.
    destruct (py_getitem P (k - 1)) as [p|]; [|done].
    destruct (py_getitem R (k - 1)) as [r|]; [|done].
    destruct (py_getitem M (k - 1)) as [m|]; [|done].
    destruct (py_getitem F (k - 1)) as [f|]; [|done].
    cbn [mbind result_bind] in Hrun.
    assert (k ∉ dict_keys d) as Hk.
    { apply NoDup_app in Hnd as (_ & Hdisj & _).
      intros Hin. apply (Hdisj _ Hin). by left. }
    rewrite dict_set_fresh in Hrun by done.
    apply IH in Hrun.
    + rewrite Hrun. unfold dict_keys. rewrite fmap_app. cbn [fmap list_fmap fst].
      by rewrite <- app_assoc.
    + unfold dict_keys. rewrite fmap_app. cbn [fmap list_fmap fst].
      by rewrite <- app_assoc.
Qed.

Lemma reporting_points_NoDup (max_k k_range : Z) (used : list Z) :
  0 ≤ max_k → k_range ≠ 0 →
  reporting_points max_k k_range = Ok used → NoDup used.
Proof.
  intros Hk Hne Hused.
  destruct (decide (0 < k_range ≤ max_k)) as [Hpos|Hout].
  - rewrite reporting_points_multiples in Hused by done. injection Hused as <-.
    apply StronglySorted_lt_NoDup, multiples_sorted. lia.
  - destruct (decide (k_range < 0)) as [Hneg|Hnneg].
    + rewrite reporting_points_negative in Hused by done. injection Hused as <-.
      apply NoDup_singleton.
    + unfold reporting_points in Hused. rewrite decide_False in Hused by lia.
      injection Hused as <-. apply NoDup_singleton.
Qed.

Section keys.
Context {QId Id : Type} `{Countable QId} `{Countable Id}.
Implicit Types (resultFile groundtruth : dict QId (list Id)).

Lemma scored_keys resultFile groundtruth :
  (λ s, s.1.1) <$> scored resultFile groundtruth
  = filter (λ q, is_Some (dict_get groundtruth q)) (dict_keys resultFile).
Proof.
  induction resultFile as [|[q results] l IH]; [done|].
  unfold scored. cbn [omap list_omap fst snd dict_keys fmap list_fmap].
  fold (scored l groundtruth). fold (dict_keys l). rewrite filter_cons.
  destruct (dict_get groundtruth q) as [gt|] eqn:Hgt; cbn [mbind option_bind].
  - rewrite decide_True by done. cbn [fmap list_fmap fst snd]. by rewrite IH.
  - rewrite decide_False by (by intros [? ?]). done.
Qed.

Lemma records_keys max_k resultFile groundtruth :
  dict_wf resultFile →
  dict_keys (records max_k resultFile groundtruth)
  = filter (λ q, is_Some (dict_get groundtruth q)) (dict_keys resultFile).
Proof.
  intros Hwf. rewrite records_entries by done. rewrite <- scored_keys.
  unfold dict_keys. by rewrite <- list_fmap_compose.
Qed.

End keys.

(** X7: in a returned report [max_k] is at least 1, each of the four
    system-wide arrays has [max_k] cells, each per-query record holds
    three curves of [max_k] values, and [metrics_at_k] has one snapshot per
    reporting point, in the order of [used_k]. *)
Theorem X7_report_shape :
  ∀ (QId Id : Type) `{Countable QId} `{Countable Id}
    (max_k k_range : Z) (resultFile : dict QId (list Id))
    (gtPath resPath : option string) (record verbose : bool)
    (w : World) (report : Report),
    (calcMetrics max_k k_range resultFile gtPath resPath record verbose w).1
      = Ok report →
    1 ≤ max_k
    ∧ py_len (sys_precision (system_metrics report)) = max_k
    ∧ py_len (sys_recall (system_metrics report)) = max_k
    ∧ py_len (sys_map (system_metrics report)) = max_k
    ∧ py_len (sys_f1 (system_metrics report)) = max_k
    ∧ (∀ q qm, (q, qm) ∈ per_query_metrics report →
         py_len (precision qm) = max_k
         ∧ py_len (recall qm) = max_k
         ∧ py_len (ap qm) = max_k)
    ∧ dict_keys (metrics_at_k (system_metrics report))
      = used_k (system_metrics report).
Proof.
  intros QId Id ? ? ? ? max_k k_range resultFile gtPath resPath record verbose
    w report Hrun.
  apply calcMetrics_Ok_inv in Hrun as (groundtruth & _ & Hcore).
  destruct (report_lengths _ _ _ _ _ Hcore) as (Hk & LP & LR & LM & LF).
  assert (∃ r, calcMetrics_core max_k k_range resultFile groundtruth = Ok r)
    as (_ & Hne & _)%calcMetrics_core_returns_iff by by exists report.
  apply calcMetrics_core_Ok in Hcore as (_ & _ & Hpq & _ & Hused & Hsnap).
  unfold py_len. rewrite LP, LR, LM, LF.
  do 5 (split; [lia|]). split.
  - intros q qm Hin. rewrite Hpq in Hin.
    pose proof (records_finished max_k resultFile groundtruth) as Hfin.
    rewrite Forall_forall in Hfin. destruct (Hfin _ Hin) as (results & gt & Heq).
    cbn [snd] in Heq. subst qm.
    destruct (query_record_lengths max_k results gt) as (-> & -> & ->). lia.
  - apply snapshot_loop_keys in Hsnap; [done|].
    cbn [dict_keys fmap list_fmap app].
    eapply reporting_points_NoDup; [|exact Hne|exact Hused]. lia.
Qed.

(** The worked example with the step 1. *)
Lemma X7_report_shape_witness :
  ∃ report,
    (calcMetrics 3 1 example_results (Some "gt.pickle") None false false
       (world_with example_groundtruth)).1 = Ok report
    ∧ py_len (sys_f1 (system_metrics report)) = 3
    ∧ dict_keys (metrics_at_k (system_metrics report))
      = used_k (system_metrics report).
Proof.
  eexists. split; [vm_compute; reflexivity|].
  edestruct (X7_report_shape string string 3 1 example_results
               (Some "gt.pickle") None false false
               (world_with example_groundtruth))
    as (_ & _ & _ & _ & Hf1 & _ & Hkeys); [vm_compute; reflexivity|].
  split; [exact Hf1|exact Hkeys].
Defined.

(** X8: the per-query dictionary of a returned report has one record for
    each query of the results mapping that has an entry in the ground
    truth, and no other, in the order of the results mapping. *)
Theorem X8_scored_queries_in_order :
  ∀ (QId Id : Type) `{Countable QId} `{Countable Id}
    (max_k k_range : Z) (resultFile groundtruth : dict QId (list Id))
    (gtPath resPath : option string) (record verbose : bool)
    (w : World) (report : Report),
    loadDictionaryFromPickleFile gtPath w = Ok groundtruth →
    (calcMetrics max_k k_range resultFile gtPath resPath record verbose w).1
      = Ok report →
    dict_wf resultFile →
    dict_keys (per_query_metrics report)
    = filter (λ q, is_Some (dict_get groundtruth q)) (dict_keys resultFile).
Proof.
  intros QId Id ? ? ? ? max_k k_range resultFile groundtruth gtPath resPath
    record verbose w report Hload Hrun Hwf.
  apply calcMetrics_Ok_inv in Hrun as (groundtruth' & Hload' & Hcore).
  rewrite Hload in Hload'. injection Hload' as <-.
  apply calcMetrics_core_Ok in Hcore as (_ & _ & -> & _).
  by apply records_keys.
Qed.

(** Two results, of which the ground truth knows the second only. *)
Lemma X8_scored_queries_in_order_witness :
  ∃ report,
    (calcMetrics 3 1 two_results (Some "gt.pickle") None false false
       (world_with [("r", ["b"])])).1 = Ok report
    ∧ dict_keys (per_query_metrics report)
      = filter (λ q, is_Some (dict_get [("r", ["b"])] q)) (dict_keys two_results).
Proof.
  eexists. split; [vm_compute; reflexivity|].
  apply (X8_scored_queries_in_order string string 3 1 two_results [("r", ["b"])]
           (Some "gt.pickle") None false false (world_with [("r", ["b"])])).
  - reflexivity.
  - vm_compute. reflexivity.
  - unfold dict_wf. apply (bool_decide_unpack _). vm_compute. exact I.
Defined.

(** ** The system-wide arrays of a returned report *)

Lemma Qsum_mono {A : Type} (g g' : A → Q) (l : list A) :
  (∀ a, a ∈ l → (g a <= g' a)%Q) → (Qsum (g <$> l) <= Qsum (g' <$> l))%Q.
Proof.
  induction l as [|a l IH]; intros Hle; cbn [fmap list_fmap Qsum foldr]; [lra|].
  fold (Qsum (g <$> l)). fold (Qsum (g' <$> l)).
  pose proof (Hle a ltac:(by left)).
  assert (Qsum (g <$> l) <= Qsum (g' <$> l))%Q
    by (apply IH; intros a' Ha'; apply Hle; by right).
  lra.
Qed.

Lemma Qsum_le_length (l : list Q) :
  Forall (λ x, x <= 1)%Q l → (Qsum l <= inject_Z (py_len l))%Q.
Proof.
  unfold py_len.
  induction 1 as [|x l Hx _ IH]; cbn [Qsum foldr length]; [done|].
  fold (Qsum l). rewrite Nat2Z.inj_succ. unfold Z.succ.
  rewrite (inject_Z_plus (Z.of_nat _) 1). change (inject_Z 1) with 1%Q. lra.
Qed.

Lemma Qdiv_le_compat (x y : Q) (n : Z) :
  0 < n → (x <= y)%Q → (x / inject_Z n <= y / inject_Z n)%Q.
Proof.
  intros Hn Hxy. unfold Qdiv. apply Qmult_le_compat_r; [done|].
  apply Qinv_le_0_compat. rewrite <- (Zle_Qle 0). lia.
Qed.

(** A cell of the F1 array: the harmonic mean where it is defined, and a
    value of the unit interval. *)
Lemma f1_cell_formula (p r : Q) :
  ¬ (p + r == 0)%Q →
  np_nan_to_num (np_div (2 * (p * r)) (p + r)) = (2 * (p * r) / (p + r))%Q.
Proof.
  intros Hne. unfold np_div.
  destruct (Qeq_bool (p + r) 0) eqn:Hz; [|done].
  by apply Qeq_bool_iff in Hz.
Qed.

Lemma f1_cell_bounds (p r : Q) :
  (0 <= p <= 1)%Q → (0 <= r <= 1)%Q →
  (0 <= np_nan_to_num (np_div (2 * (p * r)) (p + r)) <= 1)%Q.
Proof.
  intros Hp Hr.
  destruct (Qeq_dec (p + r) 0) as [Hz|Hnz].
  - rewrite f1_cell_zero; [lra|lra|lra|done].
  - rewrite f1_cell_formula by done.
    assert (0 < p + r)%Q as Hpos by lra.
    split.
    + apply Qle_shift_div_l; [done|]. nra.
    + apply Qle_shift_div_r; [done|]. nra.
Qed.

Section system_bounds.
Context {QId Id : Type} `{Countable QId} `{Countable Id}.
Implicit Types (resultFile groundtruth : dict QId (list Id)).
Implicit Types (pq : dict QId (QueryMetrics (Id:=Id))).

Lemma mean_at_bounds (curve : QueryMetrics (Id:=Id) → list Q) pq (j : nat) :
  pq ≠ [] →
  Forall (λ e, 0 <= default 0 (curve e.2 !! j))%Q pq →
  (0 <= mean_at curve pq j)%Q
  ∧ (Forall (λ e, default 0 (curve e.2 !! j) <= 1)%Q pq →
     (mean_at curve pq j <= 1)%Q).
Proof.
  intros Hne Hnn. unfold mean_at.
  assert (0 < py_len pq) as Hn.
  { unfold py_len. destruct pq; [done|]. cbn [length]. lia. }
  assert (0 < inject_Z (py_len pq))%Q as HnQ by (rewrite <- (Zlt_Qlt 0); lia).
  split.
  - apply Qle_shift_div_l; [done|]. rewrite Qmult_0_l.
    apply Qsum_nonneg. unfold dict_values. rewrite <- list_fmap_compose.
    apply Forall_fmap. eapply Forall_impl; [exact Hnn|]. by intros [q qm].
  - intros Hle. apply Qle_shift_div_r; [done|]. rewrite Qmult_1_l.
    eapply Qle_trans; [apply Qsum_le_length|].
    + unfold dict_values. rewrite <- list_fmap_compose.
      apply Forall_fmap. eapply Forall_impl; [exact Hle|]. by intros [q qm].
    + unfold py_len, dict_values. rewrite !length_fmap. apply Qle_refl.
Qed.

Lemma records_values_bounds max_k resultFile groundtruth (j : nat) :
  (j < Z.to_nat max_k)%nat →
  Forall (λ e : QId * QueryMetrics (Id:=Id),
            (0 <= default 0 (precision e.2 !! j) <= 1)%Q
            ∧ (0 <= default 0 (recall e.2 !! j) <= 1)%Q
            ∧ (0 <= default 0 (ap e.2 !! j))%Q)
    (records max_k resultFile groundtruth).
Proof.
  intros Hj. eapply Forall_impl; [apply records_finished|].
  intros [q qm] (results & gt & Heq). cbn [snd] in Heq |- *. subst qm.
  rewrite query_record_precision, query_record_recall, query_record_ap by done.
  cbn [default]. split; [|split].
  - apply precision_at_bounds. lia.
  - apply recall_at_bounds.
  - apply ap_spec_nonneg. lia.
Qed.

Lemma report_bounds max_k k_range resultFile groundtruth report (j : nat) :
  calcMetrics_core max_k k_range resultFile groundtruth = Ok report →
  dict_wf resultFile →
  (j < Z.to_nat max_k)%nat →
  ∃ p r m f,
    sys_precision (system_metrics report) !! j = Some p
    ∧ sys_recall (system_metrics report) !! j = Some r
    ∧ sys_map (system_metrics report) !! j = Some m
    ∧ sys_f1 (system_metrics report) !! j = Some f
    ∧ (0 <= p <= 1)%Q ∧ (0 <= r <= 1)%Q ∧ (0 <= m)%Q ∧ (0 <= f <= 1)%Q.
Proof.
  intros Hcore Hwf Hj.
  destruct (decide (per_query_metrics report = [])) as [Hnil|Hne].
  - destruct (report_unscored _ _ _ _ _ Hcore Hnil) as (-> & -> & -> & ->).
    exists 0%Q, 0%Q, 0%Q, 0%Q. rewrite !lookup_zeros by done.
    repeat split; done.
  - destruct (report_means _ _ _ _ _ j Hcore Hwf Hne Hj)
      as (p & r & m & HP & HR & HM & Hp & Hr & Hm).
    pose proof Hcore as (_ & _ & Hpq & Hagg & _)%calcMetrics_core_Ok.
    pose proof (records_values_bounds max_k resultFile groundtruth j Hj) as Hb.
    rewrite <- Hpq in Hb.
    assert (0 <= p <= 1)%Q as Hpb.
    { rewrite Hp.
      destruct (mean_at_bounds precision (per_query_metrics report) j Hne) as [Hlo Hhi].
      - eapply Forall_impl; [exact Hb|]. intros e He. apply He.
      - split; [done|]. apply Hhi.
        eapply Forall_impl; [exact Hb|]. intros e He. apply He. }
    assert (0 <= r <= 1)%Q as Hrb.
    { rewrite Hr.
      destruct (mean_at_bounds recall (per_query_metrics report) j Hne) as [Hlo Hhi].
      - eapply Forall_impl; [exact Hb|]. intros e He. apply He.
      - split; [done|]. apply Hhi.
        eapply Forall_impl; [exact Hb|]. intros e He. apply He. }
    assert (0 <= m)%Q as Hmb.
    { rewrite Hm.
      apply (mean_at_bounds ap (per_query_metrics report) j Hne).
      eapply Forall_impl; [exact Hb|]. intros e He. apply He. }
    unfold aggregate in Hagg. rewrite decide_True in Hagg.
    2:{ rewrite <- Hpq. unfold py_len.
        destruct (per_query_metrics report); [done|]. cbn [length]. lia. }
    injection Hagg as HeqP HeqR _ HeqF.
    exists p, r, m, (np_nan_to_num (np_div (2 * (p * r)) (p + r))).
    do 3 (split; [done|]). split.
    + rewrite HeqF. unfold f1_array. rewrite lookup_zip_with.
      rewrite <- HeqP, <- HeqR, HP, HR. done.
    + do 3 (split; [done|]). by apply f1_cell_bounds.
Qed.

End system_bounds.

(** X9: in a returned report, wherever mean precision plus mean recall is
    not 0, F1@k is the harmonic mean [2·P·R / (P + R)] of the mean
    precision and the mean recall at that cutoff. *)
Theorem X9_f1_is_harmonic_mean :
  ∀ (QId Id : Type) `{Countable QId} `{Countable Id}
    (max_k k_range : Z) (resultFile : dict QId (list Id))
    (gtPath resPath : option string) (record verbose : bool)
    (w : World) (report : Report) (j : nat) (p r f : Q),
    (calcMetrics max_k k_range resultFile gtPath resPath record verbose w).1
      = Ok report →
    sys_precision (system_metrics report) !! j = Some p →
    sys_recall (system_metrics report) !! j = Some r →
    sys_f1 (system_metrics report) !! j = Some f →
    ¬ (p + r == 0)%Q →
    (f == 2 * (p * r) / (p + r))%Q.
Proof.
  intros QId Id ? ? ? ? max_k k_range resultFile gtPath resPath record verbose
    w report j p r f Hrun HP HR HF Hne.
  apply calcMetrics_Ok_inv in Hrun as (groundtruth & _ & Hcore).
  destruct (decide (per_query_metrics report = [])) as [Hnil|Hsome].
  - destruct (report_unscored _ _ _ _ _ Hcore Hnil) as (HeqP & HeqR & _).
    rewrite HeqP in HP. rewrite HeqR in HR.
    apply lookup_replicate in HP as [-> _]. apply lookup_replicate in HR as [-> _].
    by destruct Hne.
  - apply calcMetrics_core_Ok in Hcore as (_ & _ & Hpq & Hagg & _).
    unfold aggregate in Hagg. rewrite decide_True in Hagg.
    2:{ rewrite <- Hpq. unfold py_len.
        destruct (per_query_metrics report); [done|]. cbn [length]. lia. }
    injection Hagg as HeqP HeqR _ HeqF.
    rewrite HeqF in HF. unfold f1_array in HF.
    apply lookup_zip_with_Some in HF as (p' & r' & -> & HP' & HR').
    rewrite <- HeqP, HP in HP'. rewrite <- HeqR, HR in HR'.
    injection HP' as <-. injection HR' as <-.
    by rewrite f1_cell_formula.
Qed.

(** The worked example at the first cutoff: P = 1, R = 1/3, F1 = 1/2. *)
Lemma X9_f1_is_harmonic_mean_witness :
  ∃ report f,
    (calcMetrics 3 1 example_results (Some "gt.pickle") None false false
       (world_with example_groundtruth)).1 = Ok report
    ∧ sys_f1 (system_metrics report) !! 0%nat = Some f
    ∧ (f == 2 * (1 * (1 # 3)) / (1 + (1 # 3)))%Q.
Proof.
  eexists _, _. split; [vm_compute; reflexivity|]. split; [reflexivity|].
  eapply (X9_f1_is_harmonic_mean string string 3 1 example_results
            (Some "gt.pickle") None false false (world_with example_groundtruth))
    with (j := 0%nat).
  - vm_compute. reflexivity.
  - reflexivity.
  - reflexivity.
  - reflexivity.
  - intros Hz. vm_compute in Hz. discriminate.
Defined.

(** X10: in a report returned for a results mapping with distinct query
    identifiers, at every cutoff the mean precision, the mean recall and
    F1 lie between 0 and 1 and MAP is at least 0. *)
Theorem X10_system_metrics_bounds :
  ∀ (QId Id : Type) `{Countable QId} `{Countable Id}
    (max_k k_range : Z) (resultFile : dict QId (list Id))
    (gtPath resPath : option string) (record verbose : bool)
    (w : World) (report : Report) (k : Z),
    (calcMetrics max_k k_range resultFile gtPath resPath record verbose w).1
      = Ok report →
    dict_wf resultFile →
    1 ≤ k ≤ max_k →
    ∃ p r m f,
      sys_precision (system_metrics report) !! Z.to_nat (k - 1) = Some p
      ∧ sys_recall (system_metrics report) !! Z.to_nat (k - 1) = Some r
      ∧ sys_map (system_metrics report) !! Z.to_nat (k - 1) = Some m
      ∧ sys_f1 (system_metrics report) !! Z.to_nat (k - 1) = Some f
      ∧ (0 <= p <= 1)%Q ∧ (0 <= r <= 1)%Q ∧ (0 <= m)%Q ∧ (0 <= f <= 1)%Q.
Proof.
  intros QId Id ? ? ? ? max_k k_range resultFile gtPath resPath record verbose
    w report k Hrun Hwf Hk.
  apply calcMetrics_Ok_inv in Hrun as (groundtruth & _ & Hcore).
  apply (report_bounds _ _ _ _ _ _ Hcore Hwf). lia.
Qed.

(** Two scored queries, at the cutoff 2. *)
Lemma X10_system_metrics_bounds_witness :
  ∃ report,
    (calcMetrics 3 1 two_results (Some "gt.pickle") None false false
       (world_with two_groundtruth)).1 = Ok report
    ∧ ∃ p r m f,
        sys_precision (system_metrics report) !! Z.to_nat (2 - 1) = Some p
        ∧ sys_recall (system_metrics report) !! Z.to_nat (2 - 1) = Some r
        ∧ sys_map (system_metrics report) !! Z.to_nat (2 - 1) = Some m
        ∧ sys_f1 (system_metrics report) !! Z.to_nat (2 - 1) = Some f
        ∧ (0 <= p <= 1)%Q ∧ (0 <= r <= 1)%Q ∧ (0 <= m)%Q ∧ (0 <= f <= 1)%Q.
Proof.
  eexists. split; [vm_compute; reflexivity|].
  apply (X10_system_metrics_bounds string string 3 1 two_results
           (Some "gt.pickle") None false false (world_with two_groundtruth)).
  - vm_compute. reflexivity.
  - unfold dict_wf. apply (bool_decide_unpack _). vm_compute. exact I.
  - lia.
Defined.

(** X11: in a returned report the mean recall does not decrease from one
    cutoff to the next. *)
Theorem X11_system_recall_non_decreasing :
  ∀ (QId Id : Type) `{Countable QId} `{Countable Id}
    (max_k k_range : Z) (resultFile : dict QId (list Id))
    (gtPath resPath : option string) (record verbose : bool)
    (w : World) (report : Report) (k : Z),
    (calcMetrics max_k k_range resultFile gtPath resPath record verbose w).1
      = Ok report →
    1 ≤ k < max_k →
    ∃ r r',
      sys_recall (system_metrics report) !! Z.to_nat (k - 1) = Some r
      ∧ sys_recall (system_metrics report) !! Z.to_nat k = Some r'
      ∧ (r <= r')%Q.
Proof.
  intros QId Id ? ? ? ? max_k k_range resultFile gtPath resPath record verbose
    w report k Hrun Hk.
  apply calcMetrics_Ok_inv in Hrun as (groundtruth & _ & Hcore).
  apply calcMetrics_core_Ok in Hcore as (_ & _ & _ & Hagg & _).
  destruct (lookup_recall_sums max_k resultFile groundtruth (Z.to_nat (k - 1)))
    as (x & Hx & Hxeq); [lia|].
  destruct (lookup_recall_sums max_k resultFile groundtruth (Z.to_nat k))
    as (y & Hy & Hyeq); [lia|].
  assert (x <= y)%Q as Hxy.
  { rewrite Hxeq, Hyeq. apply Qsum_mono. intros s _. unfold recall_of.
    replace (Z.of_nat (S (Z.to_nat k))) with (Z.of_nat (S (Z.to_nat (k - 1))) + 1)
      by lia.
    apply recall_at_mono. lia. }
  unfold aggregate in Hagg. case_decide as Hn.
  - injection Hagg as _ HeqR _ _. rewrite HeqR.
    unfold np_idiv. rewrite !list_lookup_fmap, Hx, Hy.
    eexists _, _. do 2 (split; [done|]). by apply Qdiv_le_compat.
  - injection Hagg as _ HeqR _ _. rewrite HeqR. by exists x, y.
Qed.

(** Two scored queries, from the cutoff 1 to the cutoff 2. *)
Lemma X11_system_recall_non_decreasing_witness :
  ∃ report,
    (calcMetrics 3 1 two_results (Some "gt.pickle") None false false
       (world_with two_groundtruth)).1 = Ok report
    ∧ ∃ r r',
        sys_recall (system_metrics report) !! Z.to_nat (1 - 1) = Some r
        ∧ sys_recall (system_metrics report) !! Z.to_nat 1 = Some r'
        ∧ (r <= r')%Q.
Proof.
  eexists. split; [vm_compute; reflexivity|].
  apply (X11_system_recall_non_decreasing string string 3 1 two_results
           (Some "gt.pickle") None false false (world_with two_groundtruth)).
  - vm_compute. reflexivity.
  - lia.
Defined.

(** ** Per-query metrics on particular prefixes *)

Lemma inject_Z_nonzero (k : Z) : k ≠ 0 → ¬ (inject_Z k == 0)%Q.
Proof. intros Hk Hz. apply (inject_Z_injective k 0) in Hz. done. Qed.

Section prefixes.
Context {Id : Type} `{Countable Id}.
Implicit Types (results gt items : list Id) (gt_set : gset Id).

(** On a run of relevant items every rank adds 1 to the sum. *)
Lemma ap_walk_all_relevant gt_set items : ∀ (rank : Z) (sum : Q),
  0 < rank → (∀ x, x ∈ items → x ∈ gt_set) →
  ((ap_walk gt_set items rank (rank - 1) sum).1
   == sum + inject_Z (Z.of_nat (length items)))%Q.
Proof.
  induction items as [|x items IH]; intros rank sum Hrank Hall; cbn [ap_walk].
  - cbn [fst length]. change (inject_Z (Z.of_nat 0)) with 0%Q. lra.
  - rewrite decide_True by (apply Hall; by left).
    replace (rank - 1 + 1) with rank by lia.
    replace rank with (rank + 1 - 1) at 2 by lia.
    rewrite IH; [|lia|intros y Hy; apply Hall; by right].
    cbn [length]. rewrite Nat2Z.inj_succ. unfold Z.succ.
    rewrite (inject_Z_plus (Z.of_nat _) 1). change (inject_Z 1) with 1%Q.
    assert (inject_Z rank / inject_Z rank == 1)%Q as ->; [|lra].
    apply Qmult_inv_r. apply inject_Z_nonzero. lia.
Qed.

Lemma hits_all_relevant results gt_set k :
  0 ≤ k ≤ py_len results →
  NoDup (py_slice_to results k) →
  (∀ x, x ∈ py_slice_to results k → x ∈ gt_set) →
  hits results gt_set k = k ∧ k ≤ Z.of_nat (size gt_set).
Proof.
  intros Hk Hnd Hall. unfold hits.
  assert ((list_to_set (py_slice_to results k) : gset Id) ⊆ gt_set) as Hsub.
  { intros x Hx. apply Hall. by apply elem_of_list_to_set in Hx. }
  assert (size (list_to_set (py_slice_to results k) : gset Id) = Z.to_nat k) as Hsz.
  { rewrite size_list_to_set by done. unfold py_slice_to, py_len in *.
    rewrite decide_False by lia. rewrite length_take. lia. }
  split.
  - rewrite (subseteq_intersection_1_L _ _ Hsub). lia.
  - apply subseteq_size in Hsub. lia.
Qed.

Lemma hits_none_relevant results gt_set k :
  (∀ x, x ∈ py_slice_to results k → x ∉ gt_set) → hits results gt_set k = 0.
Proof.
  intros Hnone. unfold hits.
  assert ((list_to_set (py_slice_to results k) : gset Id) ∩ gt_set = ∅) as ->.
  { apply set_eq. intros x. rewrite elem_of_intersection, elem_of_list_to_set.
    split; [|by intros ?%not_elem_of_empty]. intros [Hx Hg]. by destruct (Hnone x). }
  by rewrite size_empty.
Qed.

Lemma relevant_none gt_set items :
  (∀ x, x ∈ items → x ∉ gt_set) → relevant gt_set items = [].
Proof.
  intros Hnone. unfold relevant. induction items as [|x items IH]; [done|].
  rewrite filter_cons, decide_False by (apply Hnone; by left).
  apply IH. intros y Hy. apply Hnone. by right.
Qed.

(** The three metrics at a cutoff whose prefix holds relevant items only,
    each once. *)
Lemma perfect_prefix results gt_set k :
  1 ≤ k ≤ py_len results →
  NoDup (py_slice_to results k) →
  (∀ x, x ∈ py_slice_to results k → x ∈ gt_set) →
  (precision_at results gt_set k == 1)%Q
  ∧ (ap_spec results gt_set k == 1)%Q
  ∧ (recall_at results gt_set k == inject_Z k / inject_Z (Z.of_nat (size gt_set)))%Q
  ∧ k ≤ Z.of_nat (size gt_set).
Proof.
  intros Hk Hnd Hall.
  destruct (hits_all_relevant results gt_set k) as [Hhits Htotal]; [lia|done|done|].
  assert (¬ (inject_Z k == 0)%Q) as HkQ by (apply inject_Z_nonzero; lia).
  split; [|split; [|split; [|done]]].
  - unfold precision_at. rewrite Hhits. by apply Qmult_inv_r.
  - unfold ap_spec.
    rewrite (ap_walk_all_relevant gt_set (py_slice_to results k) 1 0) by (lia || done).
    assert (ap_norm gt_set k = k) as ->.
    { unfold ap_norm. rewrite decide_True by lia. lia. }
    assert (Z.of_nat (length (py_slice_to results k)) = k) as ->.
    { unfold py_slice_to, py_len in *. rewrite decide_False by lia.
      rewrite length_take. lia. }
    rewrite Qplus_0_l. by apply Qmult_inv_r.
  - unfold recall_at. rewrite decide_True by lia. by rewrite Hhits.
Qed.

(** The three metrics at a cutoff whose prefix holds no relevant item. *)
Lemma fruitless_prefix results gt_set k :
  (∀ x, x ∈ py_slice_to results k → x ∉ gt_set) →
  (precision_at results gt_set k == 0)%Q
  ∧ (recall_at results gt_set k == 0)%Q
  ∧ (ap_spec results gt_set k == 0)%Q.
Proof.
  intros Hnone. pose proof (hits_none_relevant results gt_set k Hnone) as Hhits.
  split; [|split].
  - unfold precision_at. rewrite Hhits. unfold Qdiv. apply Qmult_0_l.
  - unfold recall_at. case_decide; [|done]. rewrite Hhits. unfold Qdiv. apply Qmult_0_l.
  - unfold ap_spec. rewrite ap_walk_irrelevant by by apply relevant_none.
    cbn [fst]. unfold Qdiv. apply Qmult_0_l.
Qed.

Lemma slice_determines_metrics results results' gt_set k :
  py_slice_to results k = py_slice_to results' k →
  precision_at results gt_set k = precision_at results' gt_set k
  ∧ recall_at results gt_set k = recall_at results' gt_set k
  ∧ ap_spec results gt_set k = ap_spec results' gt_set k.
Proof.
  intros Heq. unfold precision_at, recall_at, ap_spec, hits. by rewrite Heq.
Qed.

End prefixes.

Section record_facts.
Context {QId Id : Type} `{Countable QId} `{Countable Id}.
Implicit Types (resultFile groundtruth : dict QId (list Id)).

(** A record of a returned report: what it was computed from. *)
Lemma report_record_long max_k k_range resultFile groundtruth report q qm :
  calcMetrics_core max_k k_range resultFile groundtruth = Ok report →
  dict_get (per_query_metrics report) q = Some qm →
  ∃ results gt,
    qm = query_record max_k results gt ∧ max_k ≤ py_len results.
Proof.
  intros Hcore Hqm.
  destruct (report_record _ _ _ _ _ _ _ Hcore Hqm) as (results & gt & Hin & Hgt & ->).
  exists results, gt. split; [done|].
  apply calcMetrics_core_Ok in Hcore as (_ & Hlong & _).
  by apply (proj1 (long_enough_candidates _ _ _) Hlong q results gt).
Qed.

End record_facts.

(** ** Scores of 0 and recalls of 1 *)

Lemma Qdiv_Z_eq_0 (a b : Z) :
  b ≠ 0 → (inject_Z a / inject_Z b == 0)%Q → a = 0.
Proof.
  intros Hb Hz. apply (inject_Z_injective a 0).
  rewrite <- (Qmult_div_r (inject_Z a) (inject_Z b)) by by apply inject_Z_nonzero.
  rewrite Hz. apply Qmult_0_r.
Qed.

Lemma Qdiv_Z_eq_1 (a b : Z) :
  b ≠ 0 → (inject_Z a / inject_Z b == 1)%Q → a = b.
Proof.
  intros Hb Hz. apply inject_Z_injective.
  rewrite <- (Qmult_div_r (inject_Z a) (inject_Z b)) by by apply inject_Z_nonzero.
  rewrite Hz. apply Qmult_1_r.
Qed.

Section zero_and_one.
Context {Id : Type} `{Countable Id}.
Implicit Types (results gt items : list Id) (gt_set : gset Id).

Lemma hits_zero results gt_set k :
  hits results gt_set k = 0 ↔ ∀ x, x ∈ py_slice_to results k → x ∉ gt_set.
Proof.
  split; [|apply hits_none_relevant].
  unfold hits. intros Hz x Hx Hg.
  assert (size ((list_to_set (py_slice_to results k) : gset Id) ∩ gt_set) = 0%nat)
    as Hsz by lia.
  apply size_empty_iff in Hsz. apply (not_elem_of_empty (C:=gset Id) x).
  apply Hsz. apply elem_of_intersection.
  split; [by apply elem_of_list_to_set|done].
Qed.

(** A relevant item makes the walk add a positive term. *)
Lemma ap_walk_positive gt_set items : ∀ (rank count : Z) (sum : Q),
  0 ≤ count < rank →
  (∃ x, x ∈ items ∧ x ∈ gt_set) →
  (sum < (ap_walk gt_set items rank count sum).1)%Q.
Proof.
  induction items as [|y items IH]; intros rank count sum Hc [x [Hin Hx]].
  - by apply elem_of_nil in Hin.
  - cbn [ap_walk]. destruct (decide (y ∈ gt_set)) as [Hy|Hy].
    + pose proof (ap_walk_bounds gt_set items (rank + 1) (count + 1)
                    (sum + inject_Z (count + 1) / inject_Z rank)%Q ltac:(lia))
        as [Hlo _].
      assert (0 < inject_Z (count + 1) / inject_Z rank)%Q; [|lra].
      apply Qlt_shift_div_l; [rewrite <- (Zlt_Qlt 0); lia|].
      rewrite Qmult_0_l. rewrite <- (Zlt_Qlt 0). lia.
    + apply IH; [lia|]. exists x. split; [|done].
      apply elem_of_cons in Hin as [->|Hin]; done.
Qed.

Lemma precision_at_zero results gt_set k :
  0 < k →
  (precision_at results gt_set k == 0)%Q
  ↔ ∀ x, x ∈ py_slice_to results k → x ∉ gt_set.
Proof.
  intros Hk. rewrite <- hits_zero. unfold precision_at. split.
  - apply Qdiv_Z_eq_0. lia.
  - intros ->. unfold Qdiv. apply Qmult_0_l.
Qed.

Lemma recall_at_zero results gt_set k :
  (recall_at results gt_set k == 0)%Q
  ↔ ∀ x, x ∈ py_slice_to results k → x ∉ gt_set.
Proof.
  rewrite <- hits_zero. unfold recall_at. case_decide as Ht; split.
  - apply Qdiv_Z_eq_0. lia.
  - intros ->. unfold Qdiv. apply Qmult_0_l.
  - intros _. pose proof (hits_le_total results gt_set k).
    pose proof (hits_nonneg results gt_set k). lia.
  - done.
Qed.

Lemma ap_spec_zero results gt_set k :
  0 < k →
  (ap_spec results gt_set k == 0)%Q
  ↔ ∀ x, x ∈ py_slice_to results k → x ∉ gt_set.
Proof.
  intros Hk. split; [|apply fruitless_prefix].
  intros Hz x Hx Hg. unfold ap_spec in Hz.
  pose proof (ap_norm_pos gt_set k Hk) as Hn.
  pose proof (ap_walk_positive gt_set (py_slice_to results k) 1 0 0 ltac:(lia)
                ltac:(by exists x)) as Hpos.
  assert (0 < inject_Z (ap_norm gt_set k))%Q as HnQ
    by (rewrite <- (Zlt_Qlt 0); lia).
  assert (0 < (ap_walk gt_set (py_slice_to results k) 1 0 0).1
              / inject_Z (ap_norm gt_set k))%Q; [|lra].
  apply Qlt_shift_div_l; [done|]. by rewrite Qmult_0_l.
Qed.

Lemma recall_at_one results gt_set k :
  (recall_at results gt_set k == 1)%Q
  ↔ gt_set ≠ ∅ ∧ ∀ x, x ∈ gt_set → x ∈ py_slice_to results k.
Proof.
  unfold recall_at, hits. case_decide as Ht; split.
  - intros Hone%Qdiv_Z_eq_1; [|lia]. split.
    + intros ->. rewrite size_empty in Ht. lia.
    + intros x Hx.
      assert ((list_to_set (py_slice_to results k) : gset Id) ∩ gt_set = gt_set)
        as Heq.
      { apply set_subseteq_size_eq; [apply intersection_subseteq_r|lia]. }
      rewrite <- Heq in Hx. apply elem_of_intersection in Hx as [Hx _].
      by apply elem_of_list_to_set in Hx.
  - intros [_ Hall].
    assert ((list_to_set (py_slice_to results k) : gset Id) ∩ gt_set = gt_set)
      as ->.
    { rewrite (comm_L (∩)). apply subseteq_intersection_1_L. intros x Hx.
      apply elem_of_list_to_set. by apply Hall. }
    apply Qmult_inv_r, inject_Z_nonzero. lia.
  - intros Hone. exfalso. revert Hone. done.
  - intros [Hne _]. exfalso. apply Hne. apply leibniz_equiv, size_empty_iff. lia.
Qed.

End zero_and_one.

(** X12: when the first [k] candidates of a scored query are relevant and
    pairwise distinct, its precision@k and its AP@k are 1 and its recall@k
    is [k / total_relevant]; so with as many relevant items as the cutoff,
    the recall is 1 too.  Such a prefix needs [k ≤ total_relevant]. *)
Theorem X12_perfect_prefix :
  ∀ (QId Id : Type) `{Countable QId} `{Countable Id}
    (max_k k_range : Z) (resultFile : dict QId (list Id))
    (gtPath resPath : option string) (record verbose : bool)
    (w : World) (report : Report) (q : QId) (qm : QueryMetrics) (k : Z),
    (calcMetrics max_k k_range resultFile gtPath resPath record verbose w).1
      = Ok report →
    dict_get (per_query_metrics report) q = Some qm →
    1 ≤ k ≤ max_k →
    NoDup (py_slice_to (candidates qm) k) →
    (∀ x, x ∈ py_slice_to (candidates qm) k → x ∈ ground_truth qm) →
    ∃ p r a,
      precision qm !! Z.to_nat (k - 1) = Some p
      ∧ recall qm !! Z.to_nat (k - 1) = Some r
      ∧ ap qm !! Z.to_nat (k - 1) = Some a
      ∧ (p == 1)%Q ∧ (a == 1)%Q
      ∧ (r == inject_Z k
              / inject_Z (Z.of_nat (size (list_to_set (ground_truth qm) : gset Id))))%Q
      ∧ k ≤ Z.of_nat (size (list_to_set (ground_truth qm) : gset Id))
      ∧ (Z.of_nat (size (list_to_set (ground_truth qm) : gset Id)) = k → (r == 1)%Q).
Proof.
  intros QId Id ? ? ? ? max_k k_range resultFile gtPath resPath record verbose
    w report q qm k Hrun Hqm Hk Hnd Hall.
  apply calcMetrics_Ok_inv in Hrun as (groundtruth & _ & Hcore).
  destruct (report_record_long _ _ _ _ _ _ _ Hcore Hqm)
    as (results & gt & -> & Hlong).
  rewrite query_record_precision, query_record_recall, query_record_ap by lia.
  replace (Z.of_nat (S (Z.to_nat (k - 1)))) with k by lia.
  cbn [query_record push_all candidates ground_truth] in Hnd, Hall |- *.
  destruct (perfect_prefix results (list_to_set gt) k)
    as (Hp & Ha & Hr & Htotal); [lia|done| |].
  { intros x Hx. apply elem_of_list_to_set. by apply Hall. }
  eexists _, _, _. do 3 (split; [done|]). do 4 (split; [done|]).
  intros Heqk. rewrite Hr, Heqk. apply Qmult_inv_r, inject_Z_nonzero. lia.
Qed.

(** The worked example at the cutoff 1: the first candidate is relevant. *)
Lemma X12_perfect_prefix_witness :
  ∃ report qm,
    (calcMetrics 3 1 example_results (Some "gt.pickle") None false false
       (world_with example_groundtruth)).1 = Ok report
    ∧ dict_get (per_query_metrics report) "q" = Some qm
    ∧ ∃ p r a,
        precision qm !! Z.to_nat (1 - 1) = Some p
        ∧ recall qm !! Z.to_nat (1 - 1) = Some r
        ∧ ap qm !! Z.to_nat (1 - 1) = Some a
        ∧ (p == 1)%Q ∧ (a == 1)%Q
        ∧ (r == inject_Z 1
                / inject_Z (Z.of_nat (size (list_to_set (ground_truth qm)
                                              : gset string))))%Q
        ∧ 1 ≤ Z.of_nat (size (list_to_set (ground_truth qm) : gset string))
        ∧ (Z.of_nat (size (list_to_set (ground_truth qm) : gset string)) = 1
           → (r == 1)%Q).
Proof.
  eexists _, _. split; [vm_compute; reflexivity|]. split; [reflexivity|].
  eapply (X12_perfect_prefix string string 3 1 example_results
            (Some "gt.pickle") None false false (world_with example_groundtruth))
    with (q := "q").
  - vm_compute. reflexivity.
  - reflexivity.
  - lia.
  - apply (bool_decide_unpack _). vm_compute. exact I.
  - apply Forall_forall. apply (bool_decide_unpack _). vm_compute. exact I.
Defined.

(** X13: a score of 0 means that nothing relevant was retrieved: for a
    scored query and a cutoff [k], each of precision@k, recall@k and AP@k
    is 0 exactly when none of the first [k] candidates is relevant. *)
Theorem X13_zero_exactly_when_nothing_relevant :
  ∀ (QId Id : Type) `{Countable QId} `{Countable Id}
    (max_k k_range : Z) (resultFile : dict QId (list Id))
    (gtPath resPath : option string) (record verbose : bool)
    (w : World) (report : Report) (q : QId) (qm : QueryMetrics) (k : Z),
    (calcMetrics max_k k_range resultFile gtPath resPath record verbose w).1
      = Ok report →
    dict_get (per_query_metrics report) q = Some qm →
    1 ≤ k ≤ max_k →
    ∃ p r a,
      precision qm !! Z.to_nat (k - 1) = Some p
      ∧ recall qm !! Z.to_nat (k - 1) = Some r
      ∧ ap qm !! Z.to_nat (k - 1) = Some a
      ∧ ((p == 0)%Q
         ↔ ∀ x, x ∈ py_slice_to (candidates qm) k → x ∉ ground_truth qm)
      ∧ ((r == 0)%Q
         ↔ ∀ x, x ∈ py_slice_to (candidates qm) k → x ∉ ground_truth qm)
      ∧ ((a == 0)%Q
         ↔ ∀ x, x ∈ py_slice_to (candidates qm) k → x ∉ ground_truth qm).
Proof.
  intros QId Id ? ? ? ? max_k k_range resultFile gtPath resPath record verbose
    w report q qm k Hrun Hqm Hk.
  apply calcMetrics_Ok_inv in Hrun as (groundtruth & _ & Hcore).
  destruct (report_record_long _ _ _ _ _ _ _ Hcore Hqm) as (results & gt & -> & _).
  rewrite query_record_precision, query_record_recall, query_record_ap by lia.
  replace (Z.of_nat (S (Z.to_nat (k - 1)))) with k by lia.
  cbn [query_record push_all candidates ground_truth].
  eexists _, _, _. do 3 (split; [done|]).
  rewrite precision_at_zero, recall_at_zero, ap_spec_zero by lia.
  assert ((∀ x, x ∈ py_slice_to results k → x ∉ (list_to_set gt : gset Id))
          ↔ ∀ x, x ∈ py_slice_to results k → x ∉ gt) as Hiff.
  { split; intros Hnone x Hx; specialize (Hnone x Hx);
      by rewrite elem_of_list_to_set in *. }
  by rewrite Hiff.
Qed.

(** The second of two queries at the cutoff 1: its first candidate is not
    relevant, so the three metrics are 0 there. *)
Lemma X13_zero_exactly_when_nothing_relevant_witness :
  ∃ report qm,
    (calcMetrics 3 1 two_results (Some "gt.pickle") None false false
       (world_with two_groundtruth)).1 = Ok report
    ∧ dict_get (per_query_metrics report) "r" = Some qm
    ∧ ∃ p r a,
        precision qm !! Z.to_nat (1 - 1) = Some p
        ∧ recall qm !! Z.to_nat (1 - 1) = Some r
        ∧ ap qm !! Z.to_nat (1 - 1) = Some a
        ∧ ((p == 0)%Q
           ↔ ∀ x, x ∈ py_slice_to (candidates qm) 1 → x ∉ ground_truth qm)
        ∧ ((r == 0)%Q
           ↔ ∀ x, x ∈ py_slice_to (candidates qm) 1 → x ∉ ground_truth qm)
        ∧ ((a == 0)%Q
           ↔ ∀ x, x ∈ py_slice_to (candidates qm) 1 → x ∉ ground_truth qm).
Proof.
  eexists _, _. split; [vm_compute; reflexivity|]. split; [reflexivity|].
  eapply (X13_zero_exactly_when_nothing_relevant string string 3 1 two_results
            (Some "gt.pickle") None false false (world_with two_groundtruth))
    with (q := "r").
  - vm_compute. reflexivity.
  - reflexivity.
  - lia.
Defined.

(** X14: the metrics of a scored query at a cutoff [k] depend on nothing
    but its first [k] candidates and the set of its relevant items: two
    records, of any two returned reports, that agree on these hold the
    same precision@k, recall@k and AP@k. *)
Theorem X14_metrics_depend_on_prefix_and_set :
  ∀ (QId Id : Type) `{Countable QId} `{Countable Id}
    (max_k1 k_range1 max_k2 k_range2 : Z)
    (resultFile1 resultFile2 : dict QId (list Id))
    (gtPath1 resPath1 gtPath2 resPath2 : option string)
    (record1 verbose1 record2 verbose2 : bool)
    (w1 w2 : World) (report1 report2 : Report)
    (q1 q2 : QId) (qm1 qm2 : QueryMetrics) (k : Z),
    (calcMetrics max_k1 k_range1 resultFile1 gtPath1 resPath1 record1 verbose1 w1).1
      = Ok report1 →
    (calcMetrics max_k2 k_range2 resultFile2 gtPath2 resPath2 record2 verbose2 w2).1
      = Ok report2 →
    dict_get (per_query_metrics report1) q1 = Some qm1 →
    dict_get (per_query_metrics report2) q2 = Some qm2 →
    1 ≤ k ≤ max_k1 → k ≤ max_k2 →
    py_slice_to (candidates qm1) k = py_slice_to (candidates qm2) k →
    (list_to_set (ground_truth qm1) : gset Id) = list_to_set (ground_truth qm2) →
    is_Some (precision qm1 !! Z.to_nat (k - 1))
    ∧ precision qm1 !! Z.to_nat (k - 1) = precision qm2 !! Z.to_nat (k - 1)
    ∧ recall qm1 !! Z.to_nat (k - 1) = recall qm2 !! Z.to_nat (k - 1)
    ∧ ap qm1 !! Z.to_nat (k - 1) = ap qm2 !! Z.to_nat (k - 1).
Proof.
  intros QId Id ? ? ? ? max_k1 k_range1 max_k2 k_range2 resultFile1 resultFile2
    gtPath1 resPath1 gtPath2 resPath2 record1 verbose1 record2 verbose2 w1 w2
    report1 report2 q1 q2 qm1 qm2 k Hrun1 Hrun2 Hqm1 Hqm2 Hk1 Hk2 Hslice Hset.
  apply calcMetrics_Ok_inv in Hrun1 as (groundtruth1 & _ & Hcore1).
  apply calcMetrics_Ok_inv in Hrun2 as (groundtruth2 & _ & Hcore2).
  destruct (report_record_long _ _ _ _ _ _ _ Hcore1 Hqm1)
    as (results1 & gt1 & -> & _).
  destruct (report_record_long _ _ _ _ _ _ _ Hcore2 Hqm2)
    as (results2 & gt2 & -> & _).
  rewrite !query_record_precision, !query_record_recall, !query_record_ap by lia.
  replace (Z.of_nat (S (Z.to_nat (k - 1)))) with k by lia.
  cbn [query_record push_all candidates ground_truth] in Hslice, Hset.
  rewrite Hset.
  destruct (slice_determines_metrics results1 results2 (list_to_set gt2) k Hslice)
    as (-> & -> & ->).
  by repeat split.
Qed.

(** The worked example against a run with another query identifier, a
    smaller [max_k], a candidate list that differs after the second rank
    and a ground truth listed in another order, at the cutoff 2. *)
Lemma X14_metrics_depend_on_prefix_and_set_witness :
  ∃ report1 report2 qm1 qm2,
    (calcMetrics 3 1 example_results (Some "gt.pickle") None false false
       (world_with example_groundtruth)).1 = Ok report1
    ∧ (calcMetrics 2 2 [("z", ["a"; "x"; "y"])] (Some "gt.pickle") None true false
         (world_with [("z", ["c"; "b"; "a"; "a"])])).1 = Ok report2
    ∧ dict_get (per_query_metrics report1) "q" = Some qm1
    ∧ dict_get (per_query_metrics report2) "z" = Some qm2
    ∧ is_Some (precision qm1 !! Z.to_nat (2 - 1))
    ∧ precision qm1 !! Z.to_nat (2 - 1) = precision qm2 !! Z.to_nat (2 - 1)
    ∧ recall qm1 !! Z.to_nat (2 - 1) = recall qm2 !! Z.to_nat (2 - 1)
    ∧ ap qm1 !! Z.to_nat (2 - 1) = ap qm2 !! Z.to_nat (2 - 1).
Proof.
  eexists _, _, _, _. split; [vm_compute; reflexivity|].
  split; [vm_compute; reflexivity|].
  split; [reflexivity|]. split; [reflexivity|].
  eapply (X14_metrics_depend_on_prefix_and_set string string 3 1 2 2
            example_results [("z", ["a"; "x"; "y"])]
            (Some "gt.pickle") None (Some "gt.pickle") None false false true false
            (world_with example_groundtruth)
            (world_with [("z", ["c"; "b"; "a"; "a"])]))
    with (q1 := "q") (q2 := "z").
  - vm_compute. reflexivity.
  - vm_compute. reflexivity.
  - reflexivity.
  - reflexivity.
  - lia.
  - lia.
  - reflexivity.
  - apply (bool_decide_unpack _). vm_compute. exact I.
Defined.

(** X15: precision@k and recall@k of a scored query are the two
    quotients of one count [n], the number of distinct identifiers that
    are both among the first [k] candidates and in the ground truth:
    precision@k is [n / k], and recall@k is [n / total_relevant], or 0
    without relevant items.  The count is at most [k] and at most
    [total_relevant]; a candidate that is repeated counts once. *)
Theorem X15_precision_recall_one_count :
  ∀ (QId Id : Type) `{Countable QId} `{Countable Id}
    (max_k k_range : Z) (resultFile : dict QId (list Id))
    (gtPath resPath : option string) (record verbose : bool)
    (w : World) (report : Report) (q : QId) (qm : QueryMetrics) (k : Z),
    (calcMetrics max_k k_range resultFile gtPath resPath record verbose w).1
      = Ok report →
    dict_get (per_query_metrics report) q = Some qm →
    1 ≤ k ≤ max_k →
    ∃ n total : Z,
      n = Z.of_nat (size ((list_to_set (py_slice_to (candidates qm) k) : gset Id)
                          ∩ list_to_set (ground_truth qm)))
      ∧ total = Z.of_nat (size (list_to_set (ground_truth qm) : gset Id))
      ∧ precision qm !! Z.to_nat (k - 1) = Some (inject_Z n / inject_Z k)%Q
      ∧ recall qm !! Z.to_nat (k - 1)
        = Some (if decide (0 < total)%Z
                then (inject_Z n / inject_Z total)%Q else 0%Q)
      ∧ 0 ≤ n ≤ k
      ∧ n ≤ total.
Proof.
  intros QId Id ? ? ? ? max_k k_range resultFile gtPath resPath record verbose
    w report q qm k Hrun Hqm Hk.
  apply calcMetrics_Ok_inv in Hrun as (groundtruth & _ & Hcore).
  destruct (report_record_long _ _ _ _ _ _ _ Hcore Hqm) as (results & gt & -> & _).
  rewrite query_record_precision, query_record_recall by lia.
  replace (Z.of_nat (S (Z.to_nat (k - 1)))) with k by lia.
  cbn [query_record push_all candidates ground_truth].
  eexists _, _. do 4 (split; [done|]). split; [split|].
  - apply (hits_nonneg results (list_to_set gt) k).
  - apply (hits_le_k results (list_to_set gt) k). lia.
  - apply (hits_le_total results (list_to_set gt) k).
Qed.

(** Candidates [a, a, x] against the ground truth [{a, b}] at the cutoff
    2: the repeated [a] counts once, precision@2 is 1/2 and recall@2 is
    1/2. *)
Lemma X15_precision_recall_one_count_witness :
  ∃ report qm,
    (calcMetrics 3 1 [("q", ["a"; "a"; "x"])] (Some "gt.pickle") None false false
       (world_with [("q", ["a"; "b"])])).1 = Ok report
    ∧ dict_get (per_query_metrics report) "q" = Some qm
    ∧ ∃ n total : Z,
        n = Z.of_nat (size ((list_to_set (py_slice_to (candidates qm) 2) : gset string)
                            ∩ list_to_set (ground_truth qm)))
        ∧ total = Z.of_nat (size (list_to_set (ground_truth qm) : gset string))
        ∧ precision qm !! Z.to_nat (2 - 1) = Some (inject_Z n / inject_Z 2)%Q
        ∧ recall qm !! Z.to_nat (2 - 1)
          = Some (if decide (0 < total)%Z
                then (inject_Z n / inject_Z total)%Q else 0%Q)
        ∧ 0 ≤ n ≤ 2
        ∧ n ≤ total.
Proof.
  eexists _, _. split; [vm_compute; reflexivity|]. split; [reflexivity|].
  eapply (X15_precision_recall_one_count string string 3 1
            [("q", ["a"; "a"; "x"])] (Some "gt.pickle") None false false
            (world_with [("q", ["a"; "b"])]))
    with (q := "q").
  - vm_compute. reflexivity.
  - reflexivity.
  - lia.
Defined.

(** ** A larger [max_k] *)

Lemma take_lookup_eq {A : Type} (l1 l2 : list A) (n : nat) :
  length l1 = n →
  (∀ j, (j < n)%nat → l1 !! j = l2 !! j) →
  l1 = take n l2.
Proof.
  intros Hlen Heq. apply list_eq. intros j.
  destruct (decide (j < n)%nat) as [Hj|Hj].
  - rewrite lookup_take_lt by done. by apply Heq.
  - rewrite lookup_take_ge by lia. apply lookup_ge_None_2. lia.
Qed.

Section larger_max_k.
Context {QId Id : Type} `{Countable QId} `{Countable Id}.
Implicit Types (resultFile groundtruth : dict QId (list Id)).
Implicit Types (results gt : list Id) (s : ScoredQuery (QId:=QId) (Id:=Id)).

Lemma query_record_take max_k1 max_k2 results gt :
  max_k1 ≤ max_k2 →
  precision (query_record max_k1 results gt)
    = take (Z.to_nat max_k1) (precision (query_record max_k2 results gt))
  ∧ recall (query_record max_k1 results gt)
    = take (Z.to_nat max_k1) (recall (query_record max_k2 results gt))
  ∧ ap (query_record max_k1 results gt)
    = take (Z.to_nat max_k1) (ap (query_record max_k2 results gt)).
Proof.
  intros Hle.
  destruct (query_record_lengths max_k1 results gt) as (LP & LR & LA).
  split; [|split]; (apply take_lookup_eq; [done|]); intros j Hj.
  - by rewrite !query_record_precision by lia.
  - by rewrite !query_record_recall by lia.
  - by rewrite !query_record_ap by lia.
Qed.

Lemma precision_sums_cell max_k resultFile groundtruth (j : nat) :
  (j < Z.to_nat max_k)%nat →
  precision_sums max_k resultFile groundtruth !! j =
    Some (foldl (λ acc s, acc + precision_at s.1.2 (list_to_set s.2) (Z.of_nat (S j)))%Q
            0%Q (scored resultFile groundtruth)).
Proof.
  intros Hj. unfold precision_sums, add_precision.
  rewrite (foldl_add_prefix_lookup _ (λ s, precision_at s.1.2 (list_to_set s.2)))
    by done.
  by rewrite lookup_zeros.
Qed.

Lemma recall_sums_cell max_k resultFile groundtruth (j : nat) :
  (j < Z.to_nat max_k)%nat →
  recall_sums max_k resultFile groundtruth !! j =
    Some (foldl (λ acc s, acc + recall_at s.1.2 (list_to_set s.2) (Z.of_nat (S j)))%Q
            0%Q (scored resultFile groundtruth)).
Proof.
  intros Hj. unfold recall_sums, add_recall.
  rewrite (foldl_add_prefix_lookup _ (λ s, recall_at s.1.2 (list_to_set s.2)))
    by done.
  by rewrite lookup_zeros.
Qed.

(** Cell [j] of the mean of the AP curves, for a non-empty list of scored
    queries. *)
Lemma map_cell max_k (l : list (ScoredQuery (QId:=QId) (Id:=Id))) (j : nat) :
  l ≠ [] → (j < Z.to_nat max_k)%nat →
  np_mean_axis0 (ap <$> dict_values (entry max_k <$> l)) !! j =
    Some (Qsum ((λ s, ap_spec s.1.2 (list_to_set s.2) (Z.of_nat (S j))) <$> l)
          / inject_Z (py_len l))%Q.
Proof.
  intros Hne Hj. rewrite dict_values_entries, <- list_fmap_compose.
  rewrite (lookup_np_mean_axis0 _ (Z.to_nat max_k)); [| | |done].
  - rewrite <- list_fmap_compose. unfold py_len. rewrite length_fmap.
    do 3 f_equal. apply list_fmap_ext. intros _ s _. unfold compose.
    by rewrite query_record_ap.
  - by destruct l.
  - apply Forall_fmap, Forall_forall. intros s _. unfold compose.
    apply query_record_lengths.
Qed.

(** The cells that two runs on the same mappings share do not depend on
    [max_k]. *)
Lemma aggregate_cells_stable max_k1 max_k2 resultFile groundtruth
    (P1 R1 M1 F1 P2 R2 M2 F2 : list Q) (j : nat) :
  dict_wf resultFile →
  aggregate (records max_k1 resultFile groundtruth)
    (precision_sums max_k1 resultFile groundtruth)
    (recall_sums max_k1 resultFile groundtruth)
    (zeros max_k1) (zeros max_k1) = (P1, R1, M1, F1) →
  aggregate (records max_k2 resultFile groundtruth)
    (precision_sums max_k2 resultFile groundtruth)
    (recall_sums max_k2 resultFile groundtruth)
    (zeros max_k2) (zeros max_k2) = (P2, R2, M2, F2) →
  (j < Z.to_nat max_k1)%nat → (j < Z.to_nat max_k2)%nat →
  P1 !! j = P2 !! j ∧ R1 !! j = R2 !! j ∧ M1 !! j = M2 !! j ∧ F1 !! j = F2 !! j.
Proof.
  intros Hwf Hagg1 Hagg2 Hj1 Hj2. unfold aggregate in Hagg1, Hagg2.
  rewrite !records_entries in Hagg1, Hagg2 by done.
  unfold py_len in Hagg1, Hagg2. rewrite !length_fmap in Hagg1, Hagg2.
  destruct (decide (0 < Z.of_nat (length (scored resultFile groundtruth))))
    as [Hn|Hn].
  - assert (scored resultFile groundtruth ≠ []) as Hne.
    { intros Hnil. rewrite Hnil in Hn. cbn in Hn. lia. }
    injection Hagg1 as <- <- <- <-. injection Hagg2 as <- <- <- <-.
    assert (∀ n : Z,
      np_idiv (precision_sums max_k1 resultFile groundtruth) n !! j
      = np_idiv (precision_sums max_k2 resultFile groundtruth) n !! j) as HP.
    { intros n. unfold np_idiv. by rewrite !list_lookup_fmap, !precision_sums_cell. }
    assert (∀ n : Z,
      np_idiv (recall_sums max_k1 resultFile groundtruth) n !! j
      = np_idiv (recall_sums max_k2 resultFile groundtruth) n !! j) as HR.
    { intros n. unfold np_idiv. by rewrite !list_lookup_fmap, !recall_sums_cell. }
    split; [apply HP|]. split; [apply HR|]. split.
    + by rewrite !map_cell.
    + unfold f1_array. by rewrite !lookup_zip_with, HP, HR.
  - injection Hagg1 as <- <- <- <-. injection Hagg2 as <- <- <- <-.
    rewrite !precision_sums_cell, !recall_sums_cell, !lookup_zeros by done.
    done.
Qed.

End larger_max_k.

(** X16: a larger [max_k] only extends the curves.  For two returned
    reports on the same two mappings, with distinct query identifiers and
    [max_k1 ≤ max_k2], each system-wide array of the first report is the
    array of the second cut after [max_k1] cells, and so are the three
    curves of every per-query record. *)
Theorem X16_larger_max_k_extends :
  ∀ (QId Id : Type) `{Countable QId} `{Countable Id}
    (max_k1 k_range1 max_k2 k_range2 : Z)
    (resultFile groundtruth : dict QId (list Id))
    (gtPath1 resPath1 gtPath2 resPath2 : option string)
    (record1 verbose1 record2 verbose2 : bool)
    (w1 w2 : World) (report1 report2 : Report),
    loadDictionaryFromPickleFile gtPath1 w1 = Ok groundtruth →
    loadDictionaryFromPickleFile gtPath2 w2 = Ok groundtruth →
    (calcMetrics max_k1 k_range1 resultFile gtPath1 resPath1 record1 verbose1 w1).1
      = Ok report1 →
    (calcMetrics max_k2 k_range2 resultFile gtPath2 resPath2 record2 verbose2 w2).1
      = Ok report2 →
    dict_wf resultFile →
    max_k1 ≤ max_k2 →
    sys_precision (system_metrics report1)
      = take (Z.to_nat max_k1) (sys_precision (system_metrics report2))
    ∧ sys_recall (system_metrics report1)
      = take (Z.to_nat max_k1) (sys_recall (system_metrics report2))
    ∧ sys_map (system_metrics report1)
      = take (Z.to_nat max_k1) (sys_map (system_metrics report2))
    ∧ sys_f1 (system_metrics report1)
      = take (Z.to_nat max_k1) (sys_f1 (system_metrics report2))
    ∧ ∀ q qm1,
        dict_get (per_query_metrics report1) q = Some qm1 →
        ∃ qm2,
          dict_get (per_query_metrics report2) q = Some qm2
          ∧ precision qm1 = take (Z.to_nat max_k1) (precision qm2)
          ∧ recall qm1 = take (Z.to_nat max_k1) (recall qm2)
          ∧ ap qm1 = take (Z.to_nat max_k1) (ap qm2).
Proof.
  intros QId Id ? ? ? ? max_k1 k_range1 max_k2 k_range2 resultFile groundtruth
    gtPath1 resPath1 gtPath2 resPath2 record1 verbose1 record2 verbose2 w1 w2
    report1 report2 Hload1 Hload2 Hrun1 Hrun2 Hwf Hle.
  apply calcMetrics_Ok_inv in Hrun1 as (groundtruth1 & Hload1' & Hcore1).
  apply calcMetrics_Ok_inv in Hrun2 as (groundtruth2 & Hload2' & Hcore2).
  rewrite Hload1 in Hload1'. injection Hload1' as <-.
  rewrite Hload2 in Hload2'. injection Hload2' as <-.
  destruct (report_lengths _ _ _ _ _ Hcore1) as (Hk1 & LP & LR & LM & LF).
  pose proof (λ q, report_lookup _ _ _ _ _ q Hcore1 Hwf) as Hget1.
  pose proof (λ q, report_lookup _ _ _ _ _ q Hcore2 Hwf) as Hget2.
  apply calcMetrics_core_Ok in Hcore1 as (_ & _ & _ & Hagg1 & _).
  apply calcMetrics_core_Ok in Hcore2 as (_ & _ & _ & Hagg2 & _).
  symmetry in Hagg1, Hagg2.
  assert (∀ j, (j < Z.to_nat max_k1)%nat →
    sys_precision (system_metrics report1) !! j
      = sys_precision (system_metrics report2) !! j
    ∧ sys_recall (system_metrics report1) !! j
      = sys_recall (system_metrics report2) !! j
    ∧ sys_map (system_metrics report1) !! j = sys_map (system_metrics report2) !! j
    ∧ sys_f1 (system_metrics report1) !! j = sys_f1 (system_metrics report2) !! j)
    as Hcells.
  { intros j Hj.
    apply (aggregate_cells_stable max_k1 max_k2 resultFile groundtruth
             _ _ _ _ _ _ _ _ j Hwf Hagg1 Hagg2); lia. }
  split; [apply take_lookup_eq; [done|]; intros j Hj; by apply Hcells|].
  split; [apply take_lookup_eq; [done|]; intros j Hj; by apply Hcells|].
  split; [apply take_lookup_eq; [done|]; intros j Hj; by apply Hcells|].
  split; [apply take_lookup_eq; [done|]; intros j Hj; by apply Hcells|].
  intros q qm1. rewrite Hget1, Hget2.
  destruct (dict_get groundtruth q) as [gt|]; [|done].
  destruct (dict_get resultFile q) as [results|]; [|done].
  cbn [fmap option_fmap option_map]. intros [= <-].
  eexists. split; [done|]. by apply query_record_take.
Qed.

(** The worked example with [max_k = 2] against [max_k = 3]. *)
Lemma X16_larger_max_k_extends_witness :
  ∃ report1 report2,
    (calcMetrics 2 1 example_results (Some "gt.pickle") None false false
       (world_with example_groundtruth)).1 = Ok report1
    ∧ (calcMetrics 3 3 example_results (Some "truth.pkl") None true false
         other_world).1 = Ok report2
    ∧ sys_precision (system_metrics report1)
      = take (Z.to_nat 2) (sys_precision (system_metrics report2))
    ∧ sys_recall (system_metrics report1)
      = take (Z.to_nat 2) (sys_recall (system_metrics report2))
    ∧ sys_map (system_metrics report1)
      = take (Z.to_nat 2) (sys_map (system_metrics report2))
    ∧ sys_f1 (system_metrics report1)
      = take (Z.to_nat 2) (sys_f1 (system_metrics report2))
    ∧ ∀ q qm1,
        dict_get (per_query_metrics report1) q = Some qm1 →
        ∃ qm2,
          dict_get (per_query_metrics report2) q = Some qm2
          ∧ precision qm1 = take (Z.to_nat 2) (precision qm2)
          ∧ recall qm1 = take (Z.to_nat 2) (recall qm2)
          ∧ ap qm1 = take (Z.to_nat 2) (ap qm2).
Proof.
  eexists _, _. split; [vm_compute; reflexivity|].
  split; [vm_compute; reflexivity|].
  apply (X16_larger_max_k_extends string string 2 1 3 3
           example_results example_groundtruth
           (Some "gt.pickle") None (Some "truth.pkl") None false false true false
           (world_with example_groundtruth) other_world).
  - reflexivity.
  - reflexivity.
  - vm_compute. reflexivity.
  - vm_compute. reflexivity.
  - unfold dict_wf. apply (bool_decide_unpack _). vm_compute. exact I.
  - lia.
Defined.

(** X17: the recall of a scored query at a cutoff [k] is 1 exactly when
    the query has relevant items and every one of them is among its first
    [k] candidates. *)
Theorem X17_recall_one_exactly_when_all_found :
  ∀ (QId Id : Type) `{Countable QId} `{Countable Id}
    (max_k k_range : Z) (resultFile : dict QId (list Id))
    (gtPath resPath : option string) (record verbose : bool)
    (w : World) (report : Report) (q : QId) (qm : QueryMetrics) (k : Z),
    (calcMetrics max_k k_range resultFile gtPath resPath record verbose w).1
      = Ok report →
    dict_get (per_query_metrics report) q = Some qm →
    1 ≤ k ≤ max_k →
    ∃ r,
      recall qm !! Z.to_nat (k - 1) = Some r
      ∧ ((r == 1)%Q
         ↔ ground_truth qm ≠ []
           ∧ ∀ x, x ∈ ground_truth qm → x ∈ py_slice_to (candidates qm) k).
Proof.
  intros QId Id ? ? ? ? max_k k_range resultFile gtPath resPath record verbose
    w report q qm k Hrun Hqm Hk.
  apply calcMetrics_Ok_inv in Hrun as (groundtruth & _ & Hcore).
  destruct (report_record_long _ _ _ _ _ _ _ Hcore Hqm) as (results & gt & -> & _).
  rewrite query_record_recall by lia.
  replace (Z.of_nat (S (Z.to_nat (k - 1)))) with k by lia.
  cbn [query_record push_all candidates ground_truth].
  eexists. split; [done|]. rewrite recall_at_one. split.
  - intros [Hne Hall]. split.
    + intros ->. by apply Hne.
    + intros x Hx. apply Hall. by apply elem_of_list_to_set.
  - intros [Hne Hall]. split.
    + destruct gt as [|x gt]; [done|]. intros Hempty.
      apply (not_elem_of_empty (C:=gset Id) x). rewrite <- Hempty.
      apply elem_of_list_to_set. by left.
    + intros x Hx. apply Hall. by apply elem_of_list_to_set in Hx.
Qed.

(** The second of two queries: its one relevant item is its second
    candidate, so its recall is 1 from the cutoff 2 on. *)
Lemma X17_recall_one_exactly_when_all_found_witness :
  ∃ report qm,
    (calcMetrics 3 1 two_results (Some "gt.pickle") None false false
       (world_with two_groundtruth)).1 = Ok report
    ∧ dict_get (per_query_metrics report) "r" = Some qm
    ∧ ∃ r,
        recall qm !! Z.to_nat (2 - 1) = Some r
        ∧ ((r == 1)%Q
           ↔ ground_truth qm ≠ []
             ∧ ∀ x, x ∈ ground_truth qm → x ∈ py_slice_to (candidates qm) 2).
Proof.
  eexists _, _. split; [vm_compute; reflexivity|]. split; [reflexivity|].
  eapply (X17_recall_one_exactly_when_all_found string string 3 1 two_results
            (Some "gt.pickle") None false false (world_with two_groundtruth))
    with (q := "r").
  - vm_compute. reflexivity.
  - reflexivity.
  - lia.
Defined.

(** X18: the ground truth is loaded before anything else is looked at.
    [calcMetrics] raises [TypeError] exactly when [gtPath] is [None] (its
    default), and [LoadError] exactly when the file at [gtPath] cannot be
    loaded, whatever the other arguments are; in both cases nothing was
    logged. *)
Theorem X18_ground_truth_is_loaded_first :
  ∀ (QId Id : Type) `{Countable QId} `{Countable Id}
    (max_k k_range : Z) (resultFile : dict QId (list Id))
    (gtPath resPath : option string) (record verbose : bool) (w : World),
    ((calcMetrics max_k k_range resultFile gtPath resPath record verbose w).1
       = Raise TypeError
     ↔ gtPath = None)
    ∧ ((calcMetrics max_k k_range resultFile gtPath resPath record verbose w).1
         = Raise LoadError
       ↔ ∃ p, gtPath = Some p ∧ pickles w p = None)
    ∧ (loadDictionaryFromPickleFile gtPath w = Raise TypeError
       ∨ loadDictionaryFromPickleFile gtPath w = Raise LoadError →
       (calcMetrics max_k k_range resultFile gtPath resPath record verbose w).2 = w).
Proof.
  intros QId Id ? ? ? ? max_k k_range resultFile gtPath resPath record verbose w.
  rewrite !calcMetrics_outcome. unfold calcMetrics, loadDictionaryFromPickleFile.
  destruct gtPath as [p|]; [destruct (pickles w p) as [groundtruth|] eqn:Hp|];
    cbn [mbind result_bind].
  - split; [|split].
    + split; [|done]. by intros [|]%calcMetrics_core_exn.
    + split.
      * by intros [|]%calcMetrics_core_exn.
      * intros (p' & [= <-] & Hnone). congruence.
    + by intros [|].
  - split; [done|]. split; [|done]. split; [|done]. intros _. by exists p.
  - split; [done|]. split; [|done]. split; [done|]. by intros (p & ? & _).
Qed.

(** A call without [gtPath] and a call on a file that is not there. *)
Lemma X18_ground_truth_is_loaded_first_witness :
  (calcMetrics (-1) 0 example_results None None true false
     (world_with example_groundtruth)).1 = Raise TypeError
  ∧ (calcMetrics (-1) 0 example_results (Some "missing.pkl") None true false
       (world_with example_groundtruth)).1 = Raise LoadError
  ∧ (calcMetrics (-1) 0 example_results (Some "missing.pkl") None true false
       (world_with example_groundtruth)).2 = world_with example_groundtruth.
Proof.
  split; [|split].
  - by apply (X18_ground_truth_is_loaded_first string string (-1) 0
                example_results None None true false
                (world_with example_groundtruth)).
  - apply (X18_ground_truth_is_loaded_first string string (-1) 0
             example_results (Some "missing.pkl") None true false
             (world_with example_groundtruth)).
    by exists "missing.pkl".
  - apply (X18_ground_truth_is_loaded_first string string (-1) 0
             example_results (Some "missing.pkl") None true false
             (world_with example_groundtruth)).
    by right.
Defined.
